(** * rtmpstreamer~ / rtspstreamer~ : the streaming pipeline of the two
      Pure Data externals, embedded from [rtmpstreamer~.c] and
      [rtspstreamer.c].

    The two C files are near-duplicates: a session object holding FFmpeg
    handles, a connect sequence, a teardown sequence and a per-block perform
    routine that clamps the host's samples into the session-owned frame,
    submits the frame and drains the encoder.

    - samples are IEEE-754 binary32 values ([float] in C), modelled with the
      Standard Library's [spec_float] at precision 24 and [emax] 128;
    - every call into FFmpeg or into the Pd host is an [event] of the trace,
      and its outcome is read from an environment record; a function that is
      handed the address of a pointer field ([avformat_alloc_output_context2],
      [avcodec_free_context], [av_frame_free]) stores through it;
    - a C function is a [prog]: it threads the session struct, logs events,
      and either falls through, executes [return], or reaches undefined
      behaviour (a NULL dereference, a store past the frame buffer, a
      float-to-integer conversion that C leaves undefined).

    The definitions come first, each C function under its own name; the
    vocabulary the properties are stated in follows; the proofs close the
    file. *)

From Stdlib Require Import ZArith List String Ascii Bool Lia.
From Stdlib Require Import SpecFloat.
Import ListNotations.
Open Scope Z_scope.

(** ** binary32 samples *)

Module F32.

Definition prec : Z := 24.
Definition emax : Z := 128.

(** [t_sample] / [float]. *)
Definition float : Type := spec_float.

(** Well-formed binary32 data: the mantissa is canonical for its exponent. *)
Definition valid (x : float) : bool := valid_binary prec emax x.

(** [<], [<=] and [*] on [float] operands; the product is evaluated in
    binary32, rounding to nearest, ties to even. *)
Definition ltb (x y : float) : bool := SFltb x y.
Definition leb (x y : float) : bool := SFleb x y.
Definition mul (x y : float) : float := SFmul prec emax x y.

(** The literals [1.0f], [-1.0f] and [32767.0f]. *)
Definition one : float := S754_finite false 8388608 (-23).
Definition minus_one : float := S754_finite true 8388608 (-23).
Definition c32767 : float := S754_finite false 16776704 (-9).

(** The integer part of a finite value (truncation toward zero), as the
    conversion of a floating value to an integer type takes it. *)
Definition trunc (x : float) : option Z :=
  match x with
  | S754_zero _ => Some 0
  | S754_finite s m e => Some (cond_Zopp s (Z.shiftl (Zpos m) e))
  | S754_infinity _ => None
  | S754_nan => None
  end.

(** [(int16_t) x]: defined by C only when the integer part fits the type. *)
Definition to_int16 (x : float) : option Z :=
  match trunc x with
  | Some z => if (-32768 <=? z) && (z <=? 32767) then Some z else None
  | None => None
  end.

(** Lines 78-83 of [rtmpstreamer~.c], 76-78 of [rtspstreamer.c]:
    [if (sample < -1.0f) sample = -1.0f; if (sample > 1.0f) sample = 1.0f;] *)
Definition clamp (sample : float) : float :=
  let sample := if ltb sample minus_one then minus_one else sample in
  let sample := if ltb one sample then one else sample in
  sample.

End F32.

(** ** 64-bit clock arithmetic *)

(** [int64_t] arithmetic.  A signed overflow, which C leaves undefined, is
    taken as the two's-complement wrap-around, written out. *)
Definition int64_wrap (z : Z) : Z := (z + 2 ^ 63) mod 2 ^ 64 - 2 ^ 63.

Definition AV_NOPTS_VALUE : Z := - 2 ^ 63.

(** ** The external world: FFmpeg and the Pd host *)

Definition handle : Type := positive.

Inductive call : Type :=
| pd_new | inlet_new | outlet_new | sys_getsr
| avformat_network_init | avformat_network_deinit
| avformat_alloc_output_context2 | avcodec_find_encoder
| avformat_new_stream | avcodec_alloc_context3
| av_channel_layout_copy | av_channel_layout_uninit
| avcodec_open2 | avcodec_parameters_from_context
| avio_open | avio_closep
| av_dict_set | av_dict_free
| avformat_write_header | av_write_trailer
| av_frame_alloc | av_frame_get_buffer | av_frame_free
| avformat_free_context | avcodec_free_context
| avcodec_send_frame | avcodec_receive_packet
| av_interleaved_write_frame | av_packet_unref.

Inductive event : Type :=
| Call (f : call)
| post (msg : string)
| pd_error (msg : string).

(** What the library answers during a connect sequence.  A call that yields a
    pointer answers through [object] ([None] is NULL;
    [avformat_alloc_output_context2] stores NULL and returns a negative code
    exactly when its entry is [None]); a call that yields a status code
    answers through [status], which also takes how many times the function
    was called before in the sequence. *)
Record library : Type := {
  status : call -> nat -> Z;
  object : call -> option handle;
  AVFMT_NOFILE : bool;   (* fmt_ctx->oformat->flags & AVFMT_NOFILE *)
  frame_size : Z         (* codec_ctx->frame_size *)
}.

(** What the encoder and the muxer answer while one block is processed: the
    code returned by [avcodec_send_frame], then for each call of
    [avcodec_receive_packet] its code paired with the code
    [av_interleaved_write_frame] returns for that packet.  Once the list is
    used up the encoder has no packet ready and answers AVERROR(EAGAIN). *)
Record encoder : Type := {
  send_frame : Z;
  packets : list (Z * Z)
}.

(** [t_object]: the header Pd keeps at the head of every object.  The
    externals never read or write it; they only hand its address to
    [inlet_new] and [outlet_new]. *)
Inductive t_object : Type := pd_object.

Definition AVERROR (e : Z) : Z := - e.
(** FFERRTAG('E','O','F',' ') negated. *)
Definition AVERROR_EOF : Z := - 541478725.

Module AV.

(** The part of [AVFrame] the externals touch: the declared length, the
    timestamp and the sample plane [data[0]], whose length is the capacity
    [av_frame_get_buffer] allocated. *)
Record AVFrame (A : Type) : Type := {
  nb_samples : Z;
  pts : Z;
  data : list A
}.
Arguments nb_samples {A} _.
Arguments pts {A} _.
Arguments data {A} _.
Arguments Build_AVFrame {A} _ _ _.

(** The part of [AVFormatContext] the externals read: the context itself and
    [oformat->flags & AVFMT_NOFILE]. *)
Record AVFormatContext : Type := {
  context : handle;
  nofile : bool
}.

End AV.

(** ** Programs *)

Inductive fault : Type :=
| NullDereference
| OutOfBounds
| UndefinedConversion.

Inductive flow (R A : Type) : Type :=
| Next (a : A)        (* control reaches the next statement *)
| Return (r : R)      (* a [return] statement was executed *)
| Crash (f : fault).  (* undefined behaviour *)
Arguments Next {R A} _.
Arguments Return {R A} _.
Arguments Crash {R A} _.

(** A statement over a session struct [S], inside a function returning [R]. *)
Definition prog (S R A : Type) : Type := S -> flow R A * S * list event.

Definition ret {S R A} (a : A) : prog S R A := fun x => (Next a, x, []).

Definition bind {S R A B} (p : prog S R A) (k : A -> prog S R B)
  : prog S R B :=
  fun x =>
    match p x with
    | (Next a, x1, t1) =>
        match k a x1 with (r, x2, t2) => (r, x2, t1 ++ t2) end
    | (Return r, x1, t1) => (Return r, x1, t1)
    | (Crash f, x1, t1) => (Crash f, x1, t1)
    end.

Notation "v <- p ;; k" := (bind p (fun v => k))
  (at level 61, p at next level, right associativity).
Notation "p ;; k" := (bind p (fun _ => k))
  (at level 61, right associativity).

Definition get {S R} : prog S R S := fun x => (Next x, x, []).
Definition modify {S R} (f : S -> S) : prog S R unit :=
  fun x => (Next tt, f x, []).
Definition emit {S R} (e : event) : prog S R unit :=
  fun x => (Next tt, x, [e]).
Definition return_ {S R A} (r : R) : prog S R A :=
  fun x => (Return r, x, []).
Definition crash {S R A} (f : fault) : prog S R A :=
  fun x => (Crash f, x, []).

(** [p->field] through a pointer that may be NULL. *)
Definition deref {S R A} (p : option A) : prog S R A :=
  match p with
  | Some a => ret a
  | None => crash NullDereference
  end.

(** Calling a C function from another: its [return] value, or its falling off
    the end, becomes the value of the call expression. *)
Definition invoke {S R R'} (p : prog S R R) : prog S R' R :=
  fun x =>
    match p x with
    | (Next r, x1, t1) => (Next r, x1, t1)
    | (Return r, x1, t1) => (Next r, x1, t1)
    | (Crash f, x1, t1) => (Crash f, x1, t1)
    end.

Definition result_of {S R A} (o : flow R A * S * list event) : flow R A :=
  fst (fst o).
Definition state_of {S R A} (o : flow R A * S * list event) : S :=
  snd (fst o).
Definition trace_of {S R A} (o : flow R A * S * list event) : list event :=
  snd o.

(** ** C strings *)

Definition strlen (s : string) : Z := Z.of_nat (String.length s).

Definition uchar (c : ascii) : Z := Z.of_N (N_of_ascii c).

Fixpoint strncmp (a b : string) (n : nat) : Z :=
  match n with
  | O => 0
  | S n' =>
      match a, b with
      | EmptyString, EmptyString => 0
      | EmptyString, String d _ => - uchar d
      | String c _, EmptyString => uchar c
      | String c a', String d b' =>
          if Ascii.eqb c d then strncmp a' b' n' else uchar c - uchar d
      end
  end.

(** ** The frame assembler loop *)

(** [samples[i] = v]. *)
Fixpoint store {A} (samples : list A) (i : nat) (v : A) : option (list A) :=
  match samples, i with
  | [], _ => None
  | _ :: rest, O => Some (v :: rest)
  | a :: rest, S i' =>
      match store rest i' v with
      | Some rest' => Some (a :: rest')
      | None => None
      end
  end.

(** [for (int i = 0; i < n; i++) { ...; samples[i] = conv(in[i]); }] run from
    index [i] over the remaining input. *)
Fixpoint fill_from {A} (conv : F32.float -> option A) (i : nat)
    (input : list F32.float) (samples : list A) : flow unit (list A) :=
  match input with
  | [] => Next samples
  | sample :: rest =>
      match conv sample with
      | None => Crash UndefinedConversion
      | Some v =>
          match store samples i v with
          | None => Crash OutOfBounds
          | Some samples' => fill_from conv (S i) rest samples'
          end
      end
  end.

Definition fill {S R A} (conv : F32.float -> option A)
    (input : list F32.float) (samples : list A) : prog S R (list A) :=
  fun x =>
    match fill_from conv 0 input samples with
    | Next l => (Next l, x, [])
    | Return _ => (Next samples, x, [])
    | Crash f => (Crash f, x, [])
    end.

(** ** The packet drain loop

    Lines 101-120 of [rtmpstreamer~.c] and 97-116 of [rtspstreamer.c]:
    [while (ret >= 0) { ret = avcodec_receive_packet(...); ... }], entered
    with the non-negative code of [avcodec_send_frame].  [EAGAIN] is the
    platform's errno constant; [audio_st] reads [x->audio_st]. *)

Section DrainLoop.

Variable EAGAIN : Z.
Variables (S R : Type).
Variable audio_st : S -> option handle.
Variables (msg_encode msg_write : string).

Fixpoint receive_packets (script : list (Z * Z)) : prog S R unit :=
  match script with
  | [] =>
      (* no packet ready: the call answers AVERROR(EAGAIN), [break] *)
      emit (Call avcodec_receive_packet)
  | (r, w) :: rest =>
      emit (Call avcodec_receive_packet) ;;
      if (r =? AVERROR EAGAIN) || (r =? AVERROR_EOF) then ret tt
      else if r <? 0 then emit (pd_error msg_encode)
      else
        x <- get ;;
        _ <- deref (audio_st x) ;;       (* pkt.stream_index = x->audio_st->index *)
        emit (Call av_interleaved_write_frame) ;;
        emit (Call av_packet_unref) ;;
        if w <? 0 then emit (pd_error msg_write)
        else receive_packets rest
  end.

End DrainLoop.

(** ** rtmpstreamer~.c *)

Module Rtmp.

Record t_rtmpstreamer_tilde : Type := {
  x_obj : t_object;                          (* t_object x_obj *)
  url : option string;                       (* t_symbol *url *)
  fmt_ctx : option AV.AVFormatContext;       (* AVFormatContext *fmt_ctx *)
  audio_st : option handle;                  (* AVStream *audio_st *)
  codec_ctx : option handle;                 (* AVCodecContext *codec_ctx *)
  frame : option (AV.AVFrame F32.float);     (* AVFrame *frame *)
  pts : Z;                                   (* int64_t pts *)
  f : F32.float;                             (* t_sample f *)
  streaming_active : Z                       (* int streaming_active *)
}.

Definition set_url v x :=
  {| x_obj := x_obj x; url := v; fmt_ctx := fmt_ctx x;
     audio_st := audio_st x; codec_ctx := codec_ctx x; frame := frame x;
     pts := pts x; f := f x; streaming_active := streaming_active x |}.

Definition set_fmt_ctx v x :=
  {| x_obj := x_obj x; url := url x; fmt_ctx := v; audio_st := audio_st x;
     codec_ctx := codec_ctx x; frame := frame x; pts := pts x; f := f x;
     streaming_active := streaming_active x |}.

Definition set_audio_st v x :=
  {| x_obj := x_obj x; url := url x; fmt_ctx := fmt_ctx x; audio_st := v;
     codec_ctx := codec_ctx x; frame := frame x; pts := pts x; f := f x;
     streaming_active := streaming_active x |}.

Definition set_codec_ctx v x :=
  {| x_obj := x_obj x; url := url x; fmt_ctx := fmt_ctx x;
     audio_st := audio_st x; codec_ctx := v; frame := frame x; pts := pts x;
     f := f x; streaming_active := streaming_active x |}.

Definition set_frame v x :=
  {| x_obj := x_obj x; url := url x; fmt_ctx := fmt_ctx x;
     audio_st := audio_st x; codec_ctx := codec_ctx x; frame := v;
     pts := pts x; f := f x; streaming_active := streaming_active x |}.

Definition set_pts v x :=
  {| x_obj := x_obj x; url := url x; fmt_ctx := fmt_ctx x;
     audio_st := audio_st x; codec_ctx := codec_ctx x; frame := frame x;
     pts := v; f := f x; streaming_active := streaming_active x |}.

Definition set_streaming_active v x :=
  {| x_obj := x_obj x; url := url x; fmt_ctx := fmt_ctx x;
     audio_st := audio_st x; codec_ctx := codec_ctx x; frame := frame x;
     pts := pts x; f := f x; streaming_active := v |}.

Definition prog := prog t_rtmpstreamer_tilde.

(** Lines 64-127. *)
Definition rtmpstreamer_tilde_perform (EAGAIN : Z) (enc : encoder)
    (input : list F32.float) : prog unit unit :=
  x <- get ;;
  if streaming_active x =? 0 then ret tt
  else
    fr <- deref (frame x) ;;
    samples <- fill (fun sample => Some (F32.clamp sample)) input (AV.data fr) ;;
    let n := Z.of_nat (List.length input) in
    let fr := AV.Build_AVFrame n (pts x) samples in
    modify (set_frame (Some fr)) ;;
    modify (set_pts (int64_wrap (pts x + AV.nb_samples fr))) ;;
    emit (Call avcodec_send_frame) ;;
    if send_frame enc <? 0 then
      emit (pd_error "[rtmpstreamer~] Error sending frame to codec") ;;
      return_ tt
    else
      receive_packets EAGAIN _ _ audio_st
        "[rtmpstreamer~] Error encoding audio frame"
        "[rtmpstreamer~] Error while writing audio frame"
        (packets enc).

(** Lines 129-132. *)
Definition is_valid_rtmp_url (url : string) : bool :=
  strncmp url "rtmp://" 7 =? 0.

(** Lines 135-162.  The object [pd_new] hands out is the state the program
    starts from; every field is assigned before it is read. *)
Definition rtmpstreamer_tilde_new (s : option string) : prog unit unit :=
  emit (Call pd_new) ;;
  modify (set_url None) ;;
  modify (set_fmt_ctx None) ;;
  modify (set_codec_ctx None) ;;
  modify (set_audio_st None) ;;
  modify (set_frame None) ;;
  modify (set_pts 0) ;;
  modify (set_streaming_active 0) ;;
  emit (Call inlet_new) ;;
  emit (Call outlet_new) ;;
  match s with
  | Some name =>
      if (0 <? strlen name) && is_valid_rtmp_url name then
        modify (set_url s) ;;
        emit (post ("[rtmpstreamer~] Valid URL provided at creation: " ++ name))
      else
        emit (post "[rtmpstreamer~] Invalid or no URL provided at creation. Non-streaming mode.")
  | None =>
      emit (post "[rtmpstreamer~] Invalid or no URL provided at creation. Non-streaming mode.")
  end.

(** [x->frame->field = v] on the frame [av_frame_alloc] returned. *)
Definition update_frame (f : AV.AVFrame F32.float -> AV.AVFrame F32.float)
  : prog Z unit :=
  x <- get ;;
  fr <- deref (frame x) ;;
  modify (set_frame (Some (f fr))).

(** Lines 211-317. *)
Definition initialize_streaming (lib : library) : prog Z Z :=
  emit (Call avformat_network_init) ;;
  x <- get ;;
  name <- deref (url x) ;;                           (* x->url->s_name *)
  emit (Call avformat_alloc_output_context2) ;;
  match object lib avformat_alloc_output_context2 with
  | None =>
      modify (set_fmt_ctx None) ;;
      emit (pd_error "[rtmpstreamer~] Could not allocate output context") ;;
      return_ (-1)
  | Some h =>
      modify (set_fmt_ctx (Some (AV.Build_AVFormatContext h (AVFMT_NOFILE lib))))
  end ;;
  emit (Call avcodec_find_encoder) ;;
  match object lib avcodec_find_encoder with
  | None =>
      emit (pd_error "[rtmpstreamer~] AAC codec not found") ;;
      return_ (-1)
  | Some _ => ret tt
  end ;;
  emit (Call avformat_new_stream) ;;
  modify (set_audio_st (object lib avformat_new_stream)) ;;
  match object lib avformat_new_stream with
  | None =>
      emit (pd_error "[rtmpstreamer~] Could not allocate stream") ;;
      return_ (-1)
  | Some _ => ret tt
  end ;;
  emit (Call avcodec_alloc_context3) ;;
  modify (set_codec_ctx (object lib avcodec_alloc_context3)) ;;
  match object lib avcodec_alloc_context3 with
  | None =>
      emit (pd_error "[rtmpstreamer~] Could not allocate codec context") ;;
      return_ (-1)
  | Some _ => ret tt
  end ;;
  emit (Call av_channel_layout_copy) ;;
  (if status lib av_channel_layout_copy 0 <? 0 then
     emit (pd_error "[rtspstreamer~] Could not set channel layout") ;;
     return_ (-1)
   else ret tt) ;;
  emit (Call sys_getsr) ;;
  emit (Call avcodec_open2) ;;
  (if status lib avcodec_open2 0 <? 0 then
     emit (pd_error "[rtmpstreamer~] Could not open codec") ;;
     return_ (-1)
   else ret tt) ;;
  emit (Call avcodec_parameters_from_context) ;;
  (if status lib avcodec_parameters_from_context 0 <? 0 then
     emit (pd_error "[rtmpstreamer~] Could not copy codec parameters") ;;
     return_ (-1)
   else ret tt) ;;
  x <- get ;;
  ctx <- deref (fmt_ctx x) ;;                        (* x->fmt_ctx->oformat *)
  (if negb (AV.nofile ctx) then
     emit (Call avio_open) ;;
     if status lib avio_open 0 <? 0 then
       emit (pd_error ("[rtmpstreamer~] Could not open output URL '" ++ name ++ "'")) ;;
       return_ (-1)
     else ret tt
   else ret tt) ;;
  emit (Call av_dict_set) ;;
  emit (Call av_dict_set) ;;
  emit (Call avformat_write_header) ;;
  (if status lib avformat_write_header 0 <? 0 then
     emit (pd_error "[rtmpstreamer~] Error occurred when opening output URL") ;;
     emit (Call av_dict_free) ;;
     return_ (-1)
   else ret tt) ;;
  emit (Call av_dict_free) ;;
  emit (Call av_frame_alloc) ;;
  match object lib av_frame_alloc with
  | None =>
      modify (set_frame None) ;;
      emit (pd_error "[rtmpstreamer~] Could not allocate audio frame") ;;
      return_ (-1)
  | Some _ =>
      modify (set_frame (Some (AV.Build_AVFrame 0 AV_NOPTS_VALUE [])))
  end ;;
  update_frame (fun fr =>
    AV.Build_AVFrame (frame_size lib) (AV.pts fr) (AV.data fr)) ;;
  update_frame (fun fr =>
    if AV.nb_samples fr =? 0
    then AV.Build_AVFrame 1024 (AV.pts fr) (AV.data fr)
    else fr) ;;
  emit (Call av_frame_get_buffer) ;;
  (if status lib av_frame_get_buffer 0 <? 0 then
     emit (pd_error "[rtmpstreamer~] Could not allocate audio data buffers") ;;
     return_ (-1)
   else
     (* the plane now holds [nb_samples] samples; their initial contents
        are unspecified and taken as zeros *)
     update_frame (fun fr =>
       AV.Build_AVFrame (AV.nb_samples fr) (AV.pts fr)
         (repeat (S754_zero false) (Z.to_nat (AV.nb_samples fr))))) ;;
  return_ 0.

(** Lines 320-338. *)
Definition cleanup_streaming : prog unit unit :=
  x <- get ;;
  match fmt_ctx x with
  | Some ctx =>
      emit (Call av_write_trailer) ;;
      (if negb (AV.nofile ctx) then emit (Call avio_closep) else ret tt) ;;
      emit (Call avformat_free_context) ;;
      modify (set_fmt_ctx None)
  | None => ret tt
  end ;;
  match codec_ctx x with
  | Some _ =>
      emit (Call avcodec_free_context) ;;
      modify (set_codec_ctx None)
  | None => ret tt
  end ;;
  match frame x with
  | Some _ =>
      emit (Call av_frame_free) ;;
      modify (set_frame None)
  | None => ret tt
  end ;;
  emit (Call avformat_network_deinit).

(** Lines 165-187. *)
Definition rtmpstreamer_tilde_symbol (lib : library) (s : option string)
  : prog unit unit :=
  x <- get ;;
  (if negb (streaming_active x =? 0) then
     invoke cleanup_streaming ;;
     modify (set_streaming_active 0)
   else ret tt) ;;
  modify (set_url s) ;;
  match s with
  | Some name =>
      if 0 <? strlen name then
        emit (post ("[rtmpstreamer~] Attempting to stream to " ++ name)) ;;
        r <- invoke (initialize_streaming lib) ;;
        if r =? 0 then
          modify (set_streaming_active 1) ;;
          emit (post ("[rtmpstreamer~] Successfully streaming to " ++ name))
        else
          emit (pd_error ("[rtmpstreamer~] Failed to initialize streaming to '"
                            ++ name ++ "'"))
      else
        emit (post "[rtmpstreamer~] Invalid or empty URL. Non-streaming mode.")
  | None =>
      emit (post "[rtmpstreamer~] Invalid or empty URL. Non-streaming mode.")
  end.

(** Lines 190-195. *)
Definition rtmpstreamer_tilde_free : prog unit unit :=
  x <- get ;;
  if negb (streaming_active x =? 0) then invoke cleanup_streaming
  else ret tt.

(** The calls the host makes on a live object, each with what the outside
    world answers during it. *)
Inductive host_call : Type :=
| symbol (lib : library) (s : option string)
| perform (EAGAIN : Z) (enc : encoder) (input : list F32.float).

Definition serve (c : host_call) : prog unit unit :=
  match c with
  | symbol lib s => invoke (rtmpstreamer_tilde_symbol lib s)
  | perform EAGAIN enc input =>
      invoke (rtmpstreamer_tilde_perform EAGAIN enc input)
  end.

Fixpoint host (calls : list host_call) : prog unit unit :=
  match calls with
  | [] => ret tt
  | c :: rest => serve c ;; host rest
  end.

(** Memory as [pd_new] returns it: the object header, then zeros.  The
    constructor assigns every field the externals read before any is read;
    it does not assign [f], which only Pd writes. *)
Definition fresh : t_rtmpstreamer_tilde :=
  {| x_obj := pd_object; url := None; fmt_ctx := None; audio_st := None;
     codec_ctx := None; frame := None; pts := 0; f := S754_zero false;
     streaming_active := 0 |}.

(** An object's life: creation on [s], then the host's calls. *)
Definition life (s : option string) (calls : list host_call) :=
  (invoke (rtmpstreamer_tilde_new s) ;; host calls) fresh.

End Rtmp.

(** ** rtspstreamer.c *)

Module Rtsp.

Record t_rtspstreamer_tilde : Type := {
  x_obj : t_object;                          (* t_object x_obj *)
  url : option string;                       (* t_symbol *url *)
  fmt_ctx : option AV.AVFormatContext;       (* AVFormatContext *fmt_ctx *)
  audio_st : option handle;                  (* AVStream *audio_st *)
  codec_ctx : option handle;                 (* AVCodecContext *codec_ctx *)
  frame : option (AV.AVFrame Z);             (* AVFrame *frame, int16_t plane *)
  pts : Z;                                   (* int64_t pts *)
  f : F32.float                              (* t_sample f *)
}.

Definition set_url v x :=
  {| x_obj := x_obj x; url := v; fmt_ctx := fmt_ctx x;
     audio_st := audio_st x; codec_ctx := codec_ctx x; frame := frame x;
     pts := pts x; f := f x |}.

Definition set_fmt_ctx v x :=
  {| x_obj := x_obj x; url := url x; fmt_ctx := v; audio_st := audio_st x;
     codec_ctx := codec_ctx x; frame := frame x; pts := pts x; f := f x |}.

Definition set_audio_st v x :=
  {| x_obj := x_obj x; url := url x; fmt_ctx := fmt_ctx x; audio_st := v;
     codec_ctx := codec_ctx x; frame := frame x; pts := pts x; f := f x |}.

Definition set_codec_ctx v x :=
  {| x_obj := x_obj x; url := url x; fmt_ctx := fmt_ctx x;
     audio_st := audio_st x; codec_ctx := v; frame := frame x; pts := pts x;
     f := f x |}.

Definition set_frame v x :=
  {| x_obj := x_obj x; url := url x; fmt_ctx := fmt_ctx x;
     audio_st := audio_st x; codec_ctx := codec_ctx x; frame := v;
     pts := pts x; f := f x |}.

Definition set_pts v x :=
  {| x_obj := x_obj x; url := url x; fmt_ctx := fmt_ctx x;
     audio_st := audio_st x; codec_ctx := codec_ctx x; frame := frame x;
     pts := v; f := f x |}.

Definition prog := prog t_rtspstreamer_tilde.

(** Lines 52-56. *)
Definition rtspstreamer_tilde_symbol (s : option string) : prog unit unit :=
  modify (set_url s) ;;
  emit (pd_error "Changing URL at runtime is not supported").

(** Line 79: [(int16_t)(sample * 32767.0f)] on the clamped sample. *)
Definition convert (sample : F32.float) : option Z :=
  F32.to_int16 (F32.mul (F32.clamp sample) F32.c32767).

(** Lines 65-119. *)
Definition rtspstreamer_tilde_perform (EAGAIN : Z) (enc : encoder)
    (input : list F32.float) : prog unit unit :=
  x <- get ;;
  fr <- deref (frame x) ;;
  samples <- fill convert input (AV.data fr) ;;
  let n := Z.of_nat (List.length input) in
  let fr := AV.Build_AVFrame n (pts x) samples in
  modify (set_frame (Some fr)) ;;
  modify (set_pts (int64_wrap (pts x + AV.nb_samples fr))) ;;
  emit (Call avcodec_send_frame) ;;
  if send_frame enc <? 0 then
    emit (pd_error "Error sending frame to codec") ;;
    return_ tt
  else
    receive_packets EAGAIN _ _ audio_st
      "Error encoding audio frame"
      "Error while writing audio frame"
      (packets enc).

(** [x->frame->field = v] on the frame [av_frame_alloc] returned. *)
Definition update_frame (f : AV.AVFrame Z -> AV.AVFrame Z) : prog bool unit :=
  x <- get ;;
  fr <- deref (frame x) ;;
  modify (set_frame (Some (f fr))).

(** Lines 122-230.  The value returned says whether the constructor hands the
    object to the host ([true]) or returns NULL ([false]). *)
Definition rtspstreamer_tilde_new (lib : library) (s : option string)
  : prog bool bool :=
  emit (Call pd_new) ;;
  modify (set_url s) ;;
  modify (set_fmt_ctx None) ;;
  modify (set_codec_ctx None) ;;
  modify (set_audio_st None) ;;
  modify (set_frame None) ;;
  modify (set_pts 0) ;;
  emit (Call avformat_network_init) ;;
  x <- get ;;
  name <- deref (url x) ;;                           (* x->url->s_name *)
  emit (Call avformat_alloc_output_context2) ;;
  match object lib avformat_alloc_output_context2 with
  | None =>
      modify (set_fmt_ctx None) ;;
      emit (pd_error "Could not allocate output context") ;;
      return_ false
  | Some h =>
      modify (set_fmt_ctx (Some (AV.Build_AVFormatContext h (AVFMT_NOFILE lib))))
  end ;;
  emit (Call avcodec_find_encoder) ;;
  match object lib avcodec_find_encoder with
  | None =>
      emit (pd_error "Codec not found") ;;
      return_ false
  | Some _ => ret tt
  end ;;
  emit (Call avformat_new_stream) ;;
  modify (set_audio_st (object lib avformat_new_stream)) ;;
  match object lib avformat_new_stream with
  | None =>
      emit (pd_error "Could not allocate stream") ;;
      return_ false
  | Some _ => ret tt
  end ;;
  emit (Call avcodec_alloc_context3) ;;
  modify (set_codec_ctx (object lib avcodec_alloc_context3)) ;;
  match object lib avcodec_alloc_context3 with
  | None =>
      emit (pd_error "Could not allocate codec context") ;;
      return_ false
  | Some _ => ret tt
  end ;;
  emit (Call sys_getsr) ;;
  emit (Call av_channel_layout_copy) ;;
  (if status lib av_channel_layout_copy 0 <? 0 then
     emit (pd_error "Could not set channel layout") ;;
     return_ false
   else ret tt) ;;
  emit (Call avcodec_parameters_from_context) ;;
  (if status lib avcodec_parameters_from_context 0 <? 0 then
     emit (pd_error "Could not copy codec parameters") ;;
     return_ false
   else ret tt) ;;
  x <- get ;;
  ctx <- deref (fmt_ctx x) ;;                        (* x->fmt_ctx->oformat *)
  (if negb (AV.nofile ctx) then
     emit (Call avio_open) ;;
     if status lib avio_open 0 <? 0 then
       emit (pd_error ("Could not open output URL '" ++ name ++ "'")) ;;
       return_ false
     else ret tt
   else ret tt) ;;
  emit (Call av_dict_set) ;;
  emit (Call avformat_write_header) ;;
  (if status lib avformat_write_header 0 <? 0 then
     emit (pd_error "Error occurred when opening output URL") ;;
     emit (Call av_dict_free) ;;
     return_ false
   else ret tt) ;;
  emit (Call av_dict_free) ;;
  emit (Call av_frame_alloc) ;;
  match object lib av_frame_alloc with
  | None =>
      modify (set_frame None) ;;
      emit (pd_error "Could not allocate audio frame") ;;
      return_ false
  | Some _ =>
      modify (set_frame (Some (AV.Build_AVFrame 0 AV_NOPTS_VALUE [])))
  end ;;
  update_frame (fun fr =>
    AV.Build_AVFrame (frame_size lib) (AV.pts fr) (AV.data fr)) ;;
  update_frame (fun fr =>
    if AV.nb_samples fr =? 0
    then AV.Build_AVFrame 1024 (AV.pts fr) (AV.data fr)
    else fr) ;;
  emit (Call av_channel_layout_copy) ;;
  (if status lib av_channel_layout_copy 1 <? 0 then
     emit (pd_error "Could not copy channel layout to frame") ;;
     return_ false
   else ret tt) ;;
  emit (Call av_frame_get_buffer) ;;
  (if status lib av_frame_get_buffer 0 <? 0 then
     emit (pd_error "Could not allocate audio data buffers") ;;
     return_ false
   else
     (* the plane now holds [nb_samples] samples; their initial contents
        are unspecified and taken as zeros *)
     update_frame (fun fr =>
       AV.Build_AVFrame (AV.nb_samples fr) (AV.pts fr)
         (repeat 0 (Z.to_nat (AV.nb_samples fr))))) ;;
  emit (Call inlet_new) ;;
  emit (Call inlet_new) ;;
  emit (Call outlet_new) ;;
  return_ true.

(** Lines 233-250.  [avformat_free_context] is handed the pointer itself and
    leaves the field [fmt_ctx] as it is; [avcodec_free_context] and
    [av_frame_free] are handed the address of their field and store NULL in
    it. *)
Definition rtspstreamer_tilde_free : prog unit unit :=
  x <- get ;;
  match fmt_ctx x with
  | Some ctx =>
      emit (Call av_write_trailer) ;;
      (if negb (AV.nofile ctx) then emit (Call avio_closep) else ret tt) ;;
      emit (Call avformat_free_context)
  | None => ret tt
  end ;;
  match codec_ctx x with
  | Some _ =>
      emit (Call av_channel_layout_uninit) ;;
      emit (Call avcodec_free_context) ;;    (* avcodec_free_context(&x->codec_ctx) *)
      modify (set_codec_ctx None)
  | None => ret tt
  end ;;
  match frame x with
  | Some _ =>
      emit (Call av_channel_layout_uninit) ;;
      emit (Call av_frame_free) ;;           (* av_frame_free(&x->frame) *)
      modify (set_frame None)
  | None => ret tt
  end ;;
  emit (Call avformat_network_deinit).

Inductive host_call : Type :=
| symbol (s : option string)
| perform (EAGAIN : Z) (enc : encoder) (input : list F32.float).

Definition serve (c : host_call) : prog unit unit :=
  match c with
  | symbol s => invoke (rtspstreamer_tilde_symbol s)
  | perform EAGAIN enc input =>
      invoke (rtspstreamer_tilde_perform EAGAIN enc input)
  end.

Fixpoint host (calls : list host_call) : prog unit unit :=
  match calls with
  | [] => ret tt
  | c :: rest => serve c ;; host rest
  end.

Definition fresh : t_rtspstreamer_tilde :=
  {| x_obj := pd_object; url := None; fmt_ctx := None; audio_st := None;
     codec_ctx := None; frame := None; pts := 0; f := S754_zero false |}.

(** An object's life: creation, then the host's calls if the constructor
    handed an object out (a NULL result leaves the host nothing to call). *)
Definition life (lib : library) (s : option string) (calls : list host_call)
  : flow unit unit * t_rtspstreamer_tilde * list event :=
  (created <- invoke (rtspstreamer_tilde_new lib s) ;;
   if created then host calls else ret tt) fresh.

End Rtsp.

(** ** Vocabulary: events and traces *)

Scheme Equality for call.

Definition is_call (f : call) (e : event) : bool :=
  match e with
  | Call g => call_beq f g
  | _ => false
  end.

Definition count_calls (f : call) (t : list event) : nat :=
  List.length (filter (is_call f) t).

(** Calls that give back what a session holds. *)
Definition release_call (e : event) : bool :=
  match e with
  | Call av_write_trailer | Call avio_closep | Call avformat_free_context
  | Call avcodec_free_context | Call av_frame_free => true
  | _ => false
  end.

(** Calls of the connect sequence. *)
Definition connect_call (e : event) : bool :=
  match e with
  | Call avformat_network_init | Call avformat_alloc_output_context2
  | Call avcodec_find_encoder | Call avformat_new_stream
  | Call avcodec_alloc_context3 | Call av_channel_layout_copy
  | Call avcodec_open2 | Call avcodec_parameters_from_context
  | Call avio_open | Call av_dict_set | Call avformat_write_header
  | Call av_dict_free | Call av_frame_alloc | Call av_frame_get_buffer => true
  | _ => false
  end.

Definition is_diagnostic (e : event) : bool :=
  match e with
  | pd_error _ => true
  | _ => false
  end.

Definition no_release (t : list event) : bool :=
  forallb (fun e => negb (release_call e)) t.

Definition no_connect (t : list event) : bool :=
  forallb (fun e => negb (connect_call e)) t.

Definition diagnostics (t : list event) : nat :=
  List.length (filter is_diagnostic t).

(** Every packet handed to the muxer is unreferenced by the very next call. *)
Fixpoint released_after_transmit (t : list event) : bool :=
  match t with
  | [] => true
  | Call av_interleaved_write_frame :: rest =>
      match rest with
      | Call av_packet_unref :: _ => released_after_transmit rest
      | _ => false
      end
  | _ :: rest => released_after_transmit rest
  end.

(** The calls one transmitted packet costs. *)
Definition transmit_events : list event :=
  [Call avcodec_receive_packet; Call av_interleaved_write_frame;
   Call av_packet_unref].

(** A drain step that yields a packet and transmits it. *)
Definition transmitted (EAGAIN : Z) (rw : Z * Z) : bool :=
  negb (fst rw =? AVERROR EAGAIN) && negb (fst rw =? AVERROR_EOF)
  && (0 <=? fst rw) && (0 <=? snd rw).

(** A drain step that fails: the encoder answers an error other than
    "no packet ready" / "end of stream", or the packet cannot be written. *)
Definition hard_failure (EAGAIN : Z) (rw : Z * Z) : bool :=
  negb (fst rw =? AVERROR EAGAIN) && negb (fst rw =? AVERROR_EOF)
  && ((fst rw <? 0) || (snd rw <? 0)).

(** The events of a drain loop whose first [List.length pre] steps transmit
    a packet and whose next step [rw] fails. *)
Definition failed_drain (msg_encode msg_write : string)
    (pre : list (Z * Z)) (rw : Z * Z) : list event :=
  flat_map (fun _ => transmit_events) pre
  ++ (if fst rw <? 0
      then [Call avcodec_receive_packet; pd_error msg_encode]
      else transmit_events ++ [pd_error msg_write]).

(** The error policy of one processed block, read off the outcome [o] of the
    perform routine: every packet handed to the muxer is unreferenced by the
    next call whatever the muxer answered; a rejected frame is reported and
    ends the routine before any packet is drained; a drain step that fails
    after [pre] transmitted packets is reported and ends the loop, the
    encoder's further answers [post] being left unread. *)
Definition drops_block_on_failure {S : Type}
    (o : flow unit unit * S * list event) (EAGAIN : Z) (enc : encoder)
    (msg_send msg_encode msg_write : string) : Prop :=
  (released_after_transmit (trace_of o) = true
   /\ count_calls av_packet_unref (trace_of o)
      = count_calls av_interleaved_write_frame (trace_of o))
  /\ (send_frame enc < 0 ->
      o = (Return tt, state_of o,
           [Call avcodec_send_frame; pd_error msg_send]))
  /\ (forall pre rw post,
         0 <= send_frame enc ->
         packets enc = pre ++ rw :: post ->
         forallb (transmitted EAGAIN) pre = true ->
         hard_failure EAGAIN rw = true ->
         o = (Next tt, state_of o,
              Call avcodec_send_frame
                :: failed_drain msg_encode msg_write pre rw)).

(** ** Vocabulary: sessions and their teardown *)

Definition held {A} (p : option A) : bool :=
  match p with
  | Some _ => true
  | None => false
  end.

(** A push session that holds every handle of a connection. *)
Definition rtmp_holds_session (x : Rtmp.t_rtmpstreamer_tilde) : bool :=
  match Rtmp.fmt_ctx x, Rtmp.audio_st x, Rtmp.codec_ctx x, Rtmp.frame x with
  | Some _, Some _, Some _, Some _ => true
  | _, _, _, _ => false
  end.

(** A session whose four pointers are NULL. *)
Definition rtmp_holds_nothing (x : Rtmp.t_rtmpstreamer_tilde) : bool :=
  negb (held (Rtmp.fmt_ctx x)) && negb (held (Rtmp.audio_st x))
  && negb (held (Rtmp.codec_ctx x)) && negb (held (Rtmp.frame x)).

(** The flag [streaming_active] is only up on a session that holds them. *)
Definition rtmp_coherent (x : Rtmp.t_rtmpstreamer_tilde) : Prop :=
  Rtmp.streaming_active x <> 0 -> rtmp_holds_session x = true.

(** An RTSP object that holds every handle of a session. *)
Definition rtsp_streaming (x : Rtsp.t_rtspstreamer_tilde) : bool :=
  match Rtsp.fmt_ctx x, Rtsp.audio_st x, Rtsp.codec_ctx x, Rtsp.frame x with
  | Some _, Some _, Some _, Some _ => true
  | _, _, _, _ => false
  end.

(** A push session with its three owned handles cleared and every other
    field, the clock included, as it was. *)
Definition rtmp_released (x : Rtmp.t_rtmpstreamer_tilde)
  : Rtmp.t_rtmpstreamer_tilde :=
  {| Rtmp.x_obj := Rtmp.x_obj x;
     Rtmp.url := Rtmp.url x;
     Rtmp.fmt_ctx := None;
     Rtmp.audio_st := Rtmp.audio_st x;
     Rtmp.codec_ctx := None;
     Rtmp.frame := None;
     Rtmp.pts := Rtmp.pts x;
     Rtmp.f := Rtmp.f x;
     Rtmp.streaming_active := Rtmp.streaming_active x |}.

(** A session-based object once its destructor has run: the encoder and
    frame fields are NULL, the container field still holds the pointer it
    held. *)
Definition rtsp_released (x : Rtsp.t_rtspstreamer_tilde)
  : Rtsp.t_rtspstreamer_tilde :=
  {| Rtsp.x_obj := Rtsp.x_obj x;
     Rtsp.url := Rtsp.url x;
     Rtsp.fmt_ctx := Rtsp.fmt_ctx x;
     Rtsp.audio_st := Rtsp.audio_st x;
     Rtsp.codec_ctx := None;
     Rtsp.frame := None;
     Rtsp.pts := Rtsp.pts x;
     Rtsp.f := Rtsp.f x |}.

(** Trailer, transport and container of an open output context. *)
Definition close_output (fmt_ctx : option AV.AVFormatContext) : list event :=
  match fmt_ctx with
  | Some ctx =>
      Call av_write_trailer
        :: (if AV.nofile ctx then [] else [Call avio_closep])
        ++ [Call avformat_free_context]
  | None => []
  end.

(** The calls made on a pointer only when it is not NULL. *)
Definition when_held {A} (p : option A) (calls : list event) : list event :=
  match p with
  | Some _ => calls
  | None => []
  end.

Definition rtmp_teardown_calls (x : Rtmp.t_rtmpstreamer_tilde) : list event :=
  close_output (Rtmp.fmt_ctx x)
  ++ when_held (Rtmp.codec_ctx x) [Call avcodec_free_context]
  ++ when_held (Rtmp.frame x) [Call av_frame_free]
  ++ [Call avformat_network_deinit].

Definition rtsp_teardown_calls (x : Rtsp.t_rtspstreamer_tilde) : list event :=
  close_output (Rtsp.fmt_ctx x)
  ++ when_held (Rtsp.codec_ctx x)
       [Call av_channel_layout_uninit; Call avcodec_free_context]
  ++ when_held (Rtsp.frame x)
       [Call av_channel_layout_uninit; Call av_frame_free]
  ++ [Call avformat_network_deinit].

(** The session once the assembler has stored [samples] for the block
    [input]: the frame declares the block's length and carries the clock, and
    the clock has advanced by that length. *)
Definition rtmp_assembled (x : Rtmp.t_rtmpstreamer_tilde)
    (input samples : list F32.float) : Rtmp.t_rtmpstreamer_tilde :=
  let n := Z.of_nat (List.length input) in
  Rtmp.set_pts (int64_wrap (Rtmp.pts x + n))
    (Rtmp.set_frame (Some (AV.Build_AVFrame n (Rtmp.pts x) samples)) x).

Definition rtsp_assembled (x : Rtsp.t_rtspstreamer_tilde)
    (input : list F32.float) (samples : list Z) : Rtsp.t_rtspstreamer_tilde :=
  let n := Z.of_nat (List.length input) in
  Rtsp.set_pts (int64_wrap (Rtsp.pts x + n))
    (Rtsp.set_frame (Some (AV.Build_AVFrame n (Rtsp.pts x) samples)) x).

(** ** Vocabulary: the connect sequence, sub-step by sub-step *)

Inductive substep : Type :=
| output_context      (* avformat_alloc_output_context2 *)
| codec_lookup        (* avcodec_find_encoder *)
| stream_creation     (* avformat_new_stream *)
| codec_context       (* avcodec_alloc_context3 *)
| channel_layout      (* av_channel_layout_copy into the codec context *)
| codec_open          (* avcodec_open2 *)
| codec_parameters    (* avcodec_parameters_from_context *)
| transport_open      (* avio_open, unless the container is memory-only *)
| header_write        (* avformat_write_header *)
| frame_allocation    (* av_frame_alloc *)
| frame_layout        (* av_channel_layout_copy into the frame *)
| frame_buffer.       (* av_frame_get_buffer *)

Scheme Equality for substep.

(** Whether the library makes sub-step [k] fail. *)
Definition fails (lib : library) (k : substep) : bool :=
  match k with
  | output_context => negb (held (object lib avformat_alloc_output_context2))
  | codec_lookup => negb (held (object lib avcodec_find_encoder))
  | stream_creation => negb (held (object lib avformat_new_stream))
  | codec_context => negb (held (object lib avcodec_alloc_context3))
  | channel_layout => status lib av_channel_layout_copy 0 <? 0
  | codec_open => status lib avcodec_open2 0 <? 0
  | codec_parameters => status lib avcodec_parameters_from_context 0 <? 0
  | transport_open => negb (AVFMT_NOFILE lib) && (status lib avio_open 0 <? 0)
  | header_write => status lib avformat_write_header 0 <? 0
  | frame_allocation => negb (held (object lib av_frame_alloc))
  | frame_layout => status lib av_channel_layout_copy 1 <? 0
  | frame_buffer => status lib av_frame_get_buffer 0 <? 0
  end.

(** The sub-steps in the order each variant runs them. *)
Definition rtmp_substeps : list substep :=
  [output_context; codec_lookup; stream_creation; codec_context;
   channel_layout; codec_open; codec_parameters; transport_open;
   header_write; frame_allocation; frame_buffer].

Definition rtsp_substeps : list substep :=
  [output_context; codec_lookup; stream_creation; codec_context;
   channel_layout; codec_parameters; transport_open; header_write;
   frame_allocation; frame_layout; frame_buffer].

(** The sub-step at which the sequence fails, if any. *)
Definition first_failure (lib : library) (steps : list substep)
  : option substep :=
  find (fails lib) steps.

(** Whether [a] is run before [k] is reached. *)
Fixpoint precedes (steps : list substep) (a k : substep) : bool :=
  match steps with
  | [] => false
  | s :: rest =>
      if substep_beq s k then false
      else if substep_beq s a then true
      else precedes rest a k
  end.

(** ** Vocabulary: the clock and the frame timestamps *)

Definition in_int64 (z : Z) : Prop := - 2 ^ 63 <= z < 2 ^ 63.

Definition total_length (blocks : list (encoder * list F32.float)) : Z :=
  fold_right (fun b acc => Z.of_nat (List.length (snd b)) + acc) 0 blocks.

Definition fits {A} (fr : AV.AVFrame A) (b : encoder * list F32.float) : Prop :=
  (List.length (snd b) <= List.length (AV.data fr))%nat.

(** The timestamps of the frames assembled for consecutive blocks, the first
    of them delivered to the session [x] ([None] where no frame exists). *)
Fixpoint rtmp_stamps (EAGAIN : Z) (blocks : list (encoder * list F32.float))
    (x : Rtmp.t_rtmpstreamer_tilde) : list (option Z) :=
  match blocks with
  | [] => []
  | b :: rest =>
      let x1 :=
        state_of (Rtmp.rtmpstreamer_tilde_perform EAGAIN (fst b) (snd b) x) in
      option_map AV.pts (Rtmp.frame x1) :: rtmp_stamps EAGAIN rest x1
  end.

Fixpoint rtsp_stamps (EAGAIN : Z) (blocks : list (encoder * list F32.float))
    (x : Rtsp.t_rtspstreamer_tilde) : list (option Z) :=
  match blocks with
  | [] => []
  | b :: rest =>
      let x1 :=
        state_of (Rtsp.rtspstreamer_tilde_perform EAGAIN (fst b) (snd b) x) in
      option_map AV.pts (Rtsp.frame x1) :: rtsp_stamps EAGAIN rest x1
  end.

(** ** Vocabulary: C strings *)

(** A C string holds no NUL before its end. *)
Fixpoint nul_free (s : string) : bool :=
  match s with
  | EmptyString => true
  | String c rest => negb (uchar c =? 0) && nul_free rest
  end.

(** ** Vocabulary: binary32 values and rounding *)

Definition is_nan (x : F32.float) : bool :=
  match x with
  | S754_nan => true
  | _ => false
  end.

Definition finite_or_zero (x : F32.float) : bool :=
  match x with
  | S754_zero _ | S754_finite _ _ _ => true
  | _ => false
  end.

(** The value of a sample as an exact integer multiple of 2^-149, the unit of
    the least binary32 exponent (finite samples only). *)
Definition scaled (x : F32.float) : Z :=
  match x with
  | S754_finite s m e => cond_Zopp s (Zpos m * 2 ^ (e + 149))
  | _ => 0
  end.

(** The value of a sample that is not NaN, in units of 2^-149, with the
    infinities placed beyond every finite binary32 value. *)
Definition extended (x : F32.float) : Z :=
  match x with
  | S754_infinity false => 2 ^ 300
  | S754_infinity true => - 2 ^ 300
  | _ => scaled x
  end.

(** The integer nearest to [a / b], the even one at a tie ([0 < b]). *)
Definition rne (a b : Z) : Z :=
  let f := a / b in
  let r := a mod b in
  if 2 * r <? b then f
  else if b <? 2 * r then f + 1
  else if Z.even f then f else f + 1.

(** The state of a right shift of [M] by some bits, [P] being two to their
    number: the quotient, and the round and sticky bits locating the
    remainder against [P / 2]. *)
Definition shifted (M P : Z) (mrs : shr_record) : Prop :=
  let rem := M - shr_m mrs * P in
  0 <= shr_m mrs
  /\ 0 <= rem < P
  /\ (if shr_r mrs then P <= 2 * rem else 2 * rem < P)
  /\ (if shr_s mrs then rem <> 0 /\ 2 * rem <> P else rem = 0 \/ 2 * rem = P).

(** The magnitude, in units of 2^-149, of the binary32 product of the
    positive sample [m * 2^e] with [32767.0f]: the exact product
    [m * 16776704 * 2^(e - 9)] rounded to nearest-even at the exponent [t]
    binary32 gives it. *)
Definition rounded32767 (m : positive) (e : Z) : Z :=
  let M := (m * 16776704)%positive in
  let E := e - 9 in
  let t := Z.max (Zpos (digits2_pos M) + E - 24) (-149) in
  rne (Zpos M) (2 ^ (t - E)) * 2 ^ (t + 149).

(** The 16-bit sample a finite value in [-1, 1] is converted to: the integer
    part of its rounded product with 32767, with the sign of the value. *)
Definition int16_of (x : F32.float) : Z :=
  match x with
  | S754_finite s m e => cond_Zopp s (rounded32767 m e / 2 ^ 149)
  | _ => 0
  end.

(** ** Concrete environments and sessions *)

(** A library on which every call succeeds; the codec reports frames of four
    samples. *)
Definition all_succeed : library :=
  {| status := fun _ _ => 0;
     object := fun _ => Some 1%positive;
     AVFMT_NOFILE := false;
     frame_size := 4 |}.

(** The same library, except that every call of [f] fails. *)
Definition failing (f : call) : library :=
  {| status := fun g _ => if call_beq f g then -1 else 0;
     object := fun g => if call_beq f g then None else Some 1%positive;
     AVFMT_NOFILE := false;
     frame_size := 4 |}.

(** An encoder that accepts the frame and has no packet ready. *)
Definition quiet : encoder := {| send_frame := 0; packets := [] |}.

(** An encoder that yields two packets; the second cannot be written. *)
Definition lossy : encoder :=
  {| send_frame := 0; packets := [(0, 0); (0, -5); (0, 0)] |}.

(** [0.5f], [2.0f] and [-3.0f]. *)
Definition half : F32.float := S754_finite false 8388608 (-24).
Definition two : F32.float := S754_finite false 8388608 (-22).
Definition minus_three : F32.float := S754_finite true 12582912 (-22).

(** A push session created idle, and one that then connected. *)
Definition rtmp_idle : Rtmp.t_rtmpstreamer_tilde :=
  state_of (Rtmp.life None []).
Definition rtmp_streaming : Rtmp.t_rtmpstreamer_tilde :=
  state_of (Rtmp.life None
              [Rtmp.symbol all_succeed (Some "rtmp://host/live"%string)]).


(** A push session that streamed three samples to one endpoint and was then
    pointed at another, successfully. *)
Definition rtmp_reconnected : Rtmp.t_rtmpstreamer_tilde :=
  state_of (Rtmp.life None
              [Rtmp.symbol all_succeed (Some "rtmp://host/live"%string);
               Rtmp.perform 11 quiet [half; two; minus_three];
               Rtmp.symbol all_succeed (Some "rtmp://other/live"%string)]).

(** A push session that streamed, was then pointed at an endpoint whose
    header could not be written, and then at a third one, successfully. *)
Definition rtmp_overlapped
  : flow unit unit * Rtmp.t_rtmpstreamer_tilde * list event :=
  Rtmp.life None
    [Rtmp.symbol all_succeed (Some "rtmp://host/live"%string);
     Rtmp.symbol (failing avformat_write_header)
       (Some "rtmp://lost/live"%string);
     Rtmp.symbol all_succeed (Some "rtmp://other/live"%string)].

(** ** Vocabulary: whole lives of an object *)

(** The URL a push object keeps from its creation argument. *)
Definition creation_url (s : option string) : option string :=
  match s with
  | Some name => if String.prefix "rtmp://" name then Some name else None
  | None => None
  end.


Definition is_perform (c : Rtmp.host_call) : bool :=
  match c with
  | Rtmp.perform _ _ _ => true
  | Rtmp.symbol _ _ => false
  end.

(** Whether a symbol message leaves the push variant streaming: the string
    is not empty and no connect sub-step fails. *)
Definition connects (lib : library) (s : option string) : bool :=
  match s with
  | Some name =>
      (0 <? strlen name) && negb (held (first_failure lib rtmp_substeps))
  | None => false
  end.

(** The release calls of a session that holds every handle. *)
Definition full_teardown (ctx : AV.AVFormatContext) : list event :=
  Call av_write_trailer
    :: (if AV.nofile ctx then [] else [Call avio_closep])
    ++ [Call avformat_free_context; Call avcodec_free_context;
        Call av_frame_free; Call avformat_network_deinit].

(** An object's whole life in the host: creation, the host's calls, then
    the destructor. *)
Definition rtmp_lifetime (s : option string) (calls : list Rtmp.host_call)
  : flow unit unit * Rtmp.t_rtmpstreamer_tilde * list event :=
  (invoke (Rtmp.rtmpstreamer_tilde_new s) ;;
   Rtmp.host calls ;;
   invoke Rtmp.rtmpstreamer_tilde_free) Rtmp.fresh.

(** The same for the session-based variant: the host calls the object, and
    in the end its destructor, only if the constructor handed one out. *)
Definition rtsp_lifetime (lib : library) (s : option string)
    (calls : list Rtsp.host_call)
  : flow unit unit * Rtsp.t_rtspstreamer_tilde * list event :=
  (created <- invoke (Rtsp.rtspstreamer_tilde_new lib s) ;;
   if created
   then Rtsp.host calls ;; invoke Rtsp.rtspstreamer_tilde_free
   else ret tt) Rtsp.fresh.

(** The calls that open or close something once per session. *)
Definition session_calls : list call :=
  [avformat_network_init; av_write_trailer; avformat_free_context;
   avcodec_free_context; av_frame_free; avformat_network_deinit].

(** The calls that close a push session, each made once per teardown of a
    session that holds every handle. *)
Definition closing_calls : list call :=
  [av_write_trailer; avformat_free_context; avcodec_free_context;
   av_frame_free].

(** The log line by which the symbol handler announces a connection. *)
Definition announced (e : event) : bool :=
  match e with
  | post msg => String.prefix "[rtmpstreamer~] Successfully streaming to " msg
  | _ => false
  end.

Definition connections (t : list event) : nat :=
  List.length (filter announced t).

(** Whether the flag [streaming_active] is up, as a count. *)
Definition streaming_sessions (x : Rtmp.t_rtmpstreamer_tilde) : nat :=
  if Rtmp.streaming_active x =? 0 then 0%nat else 1%nat.

(** ** Vocabulary: the frame buffer *)

(** The number of samples the connect sequence asks the frame buffer to
    hold: the codec's frame size, or 1024 when the codec reports none. *)
Definition frame_capacity (lib : library) : Z :=
  if frame_size lib =? 0 then 1024 else frame_size lib.

(** The length of the sample plane of a frame pointer. *)
Definition capacity {A} (fr : option (AV.AVFrame A)) : option nat :=
  option_map (fun fr => List.length (AV.data fr)) fr.

(** ** Vocabulary: the drain loop *)

(** A drain step on which the encoder has nothing more to give. *)
Definition stops (EAGAIN : Z) (rw : Z * Z) : bool :=
  (fst rw =? AVERROR EAGAIN) || (fst rw =? AVERROR_EOF).

(** The encoder's answers up to the first that ends the loop quietly. *)
Definition drained (EAGAIN : Z) (pre script : list (Z * Z)) : Prop :=
  forallb (transmitted EAGAIN) pre = true
  /\ (script = pre
      \/ exists rw post, script = pre ++ rw :: post /\ stops EAGAIN rw = true).

(** The events of the drain loop, and those of a whole block. *)
Definition drain_event (e : event) : bool :=
  match e with
  | Call avcodec_receive_packet | Call av_interleaved_write_frame
  | Call av_packet_unref => true
  | pd_error _ => true
  | _ => false
  end.

Definition block_event (e : event) : bool :=
  is_call avcodec_send_frame e || drain_event e.

(** ** Further environments *)

(** A library on which every call succeeds and whose codec reports no frame
    size, as a PCM encoder does. *)
Definition any_frame_size : library :=
  {| status := fun _ _ => 0;
     object := fun _ => Some 1%positive;
     AVFMT_NOFILE := true;
     frame_size := 0 |}.

(** An encoder with two packets ready, then none. *)
Definition two_packets : encoder :=
  {| send_frame := 0; packets := [(0, 0); (0, 0)] |}.

(** An RTSP object as its constructor hands it out. *)
Definition rtsp_created : Rtsp.t_rtspstreamer_tilde :=
  state_of (Rtsp.life all_succeed (Some "rtsp://host/live"%string) []).

(** * Proofs *)

(** ** The frame assembler loop *)

Lemma store_at {A} (pre : list A) v :
  forall post,
    store (pre ++ post) (List.length pre) v
    = match post with
      | [] => None
      | _ :: post' => Some (pre ++ v :: post')
      end.
Proof.
  induction pre as [|a pre IH]; intros post; simpl.
  - destruct post; reflexivity.
  - rewrite IH. destruct post; reflexivity.
Qed.

(** What the loop does, by the shape of its result: [pre] is the part of the
    plane below the running index. *)
Lemma fill_from_spec {A} (conv : F32.float -> option A) input :
  forall pre mid,
    match fill_from conv (List.length pre) input (pre ++ mid) with
    | Next l =>
        exists vals,
          Forall2 (fun s v => conv s = Some v) input vals
          /\ l = pre ++ vals ++ skipn (List.length input) mid
          /\ (List.length input <= List.length mid)%nat
    | Crash OutOfBounds => (List.length mid < List.length input)%nat
    | Crash UndefinedConversion => Exists (fun s => conv s = None) input
    | _ => False
    end.
Proof.
  induction input as [|s rest IH]; intros pre mid.
  - simpl. exists []. split; [constructor | split; [reflexivity | lia]].
  - cbn [fill_from]. destruct (conv s) as [v|] eqn:Hs.
    2:{ now constructor. }
    rewrite store_at. destruct mid as [|a mid'].
    + simpl. lia.
    + specialize (IH (pre ++ [v]) mid').
      rewrite length_app, Nat.add_1_r in IH.
      rewrite <- app_assoc in IH. cbn [app] in IH.
      destruct (fill_from conv (S (List.length pre)) rest (pre ++ v :: mid'))
        as [l| |[]]; trivial.
      * destruct IH as (vals & Hv & -> & Hlen).
        exists (v :: vals). split; [now constructor | split].
        -- rewrite <- app_assoc. reflexivity.
        -- simpl. lia.
      * simpl. lia.
      * now constructor 2.
Qed.

Lemma fill_from_fits {A} (conv : F32.float -> option A) input samples vals :
  Forall2 (fun s v => conv s = Some v) input vals ->
  (List.length input <= List.length samples)%nat ->
  fill_from conv 0 input samples
  = Next (vals ++ skipn (List.length input) samples).
Proof.
  intros Hv Hlen. generalize (fill_from_spec conv input [] samples).
  cbn [List.length app].
  destruct (fill_from conv 0 input samples) as [l|r|[]].
  - intros (vals' & Hv' & -> & _). do 2 f_equal.
    clear Hlen. revert vals' Hv'.
    induction Hv as [|s v input vals Hs _ IH]; intros vals' Hv';
      inversion Hv'; subst; trivial.
    f_equal; [congruence | now apply IH].
  - intros [].
  - intros [].
  - lia.
  - intros Hex. exfalso. clear Hlen.
    induction Hv; inversion Hex; subst; congruence || auto.
Qed.

Lemma fill_from_overrun {A} (conv : F32.float -> option A) input samples :
  Forall (fun s => conv s <> None) input ->
  (List.length samples < List.length input)%nat ->
  fill_from conv 0 input samples = Crash OutOfBounds.
Proof.
  intros Hc Hlen. generalize (fill_from_spec conv input [] samples).
  cbn [List.length app].
  destruct (fill_from conv 0 input samples) as [l|r|[]].
  - intros (_ & _ & _ & H). lia.
  - intros [].
  - intros [].
  - reflexivity.
  - intros Hex. exfalso. apply Exists_exists in Hex as (s & Hin & Hs).
    rewrite Forall_forall in Hc. now apply (Hc s).
Qed.

Lemma fill_from_length {A} (conv : F32.float -> option A) input samples l :
  fill_from conv 0 input samples = Next l ->
  List.length l = List.length samples.
Proof.
  intros H. generalize (fill_from_spec conv input [] samples).
  cbn [List.length app]. rewrite H. intros (vals & Hv & -> & Hlen).
  rewrite length_app, length_skipn.
  assert (List.length vals = List.length input).
  { clear -Hv. induction Hv; simpl; congruence. }
  lia.
Qed.

Lemma Forall2_map_Some {A} (f : F32.float -> A) input :
  Forall2 (fun s v => Some (f s) = Some v) input (map f input).
Proof. induction input; constructor; trivial. Qed.

(** ** The packet drain loop *)

Section DrainLoopFacts.

Variable EAGAIN : Z.
Variables (S R : Type).
Variable audio_st : S -> option handle.
Variables (msg_encode msg_write : string).

Let loop := receive_packets EAGAIN S R audio_st msg_encode msg_write.

Ltac loop_step r w x :=
  cbn [receive_packets]; cbv [bind emit get ret deref crash];
  destruct ((r =? AVERROR EAGAIN) || (r =? AVERROR_EOF)) eqn:?;
  [ | destruct (r <? 0) eqn:?;
      [ | destruct (audio_st x) eqn:?;
          [ destruct (w <? 0) eqn:? | ] ] ].

Lemma receive_packets_state script x : state_of (loop script x) = x.
Proof.
  unfold loop. induction script as [|[r w] rest IH]; [reflexivity|].
  loop_step r w x; try reflexivity.
  destruct (receive_packets EAGAIN S R audio_st msg_encode msg_write rest x)
    as [[res x'] t] eqn:E.
  cbn in *. exact IH.
Qed.

Lemma receive_packets_result script x :
  audio_st x <> None -> result_of (loop script x) = Next tt.
Proof.
  intros Hst. unfold loop. induction script as [|[r w] rest IH]; [reflexivity|].
  loop_step r w x; try reflexivity; try congruence.
  destruct (receive_packets EAGAIN S R audio_st msg_encode msg_write rest x)
    as [[res x'] t] eqn:E. cbn in *. exact IH.
Qed.

Lemma receive_packets_released script x :
  released_after_transmit (trace_of (loop script x)) = true.
Proof.
  unfold loop. induction script as [|[r w] rest IH]; [reflexivity|].
  loop_step r w x; try reflexivity.
  destruct (receive_packets EAGAIN S R audio_st msg_encode msg_write rest x)
    as [[res x'] t] eqn:E. cbn in *. exact IH.
Qed.

Lemma receive_packets_unref_count script x :
  count_calls av_packet_unref (trace_of (loop script x))
  = count_calls av_interleaved_write_frame (trace_of (loop script x)).
Proof.
  unfold loop. induction script as [|[r w] rest IH]; [reflexivity|].
  loop_step r w x; try reflexivity.
  destruct (receive_packets EAGAIN S R audio_st msg_encode msg_write rest x)
    as [[res x'] t] eqn:E.
  unfold count_calls in *. cbn in *. now rewrite IH.
Qed.

Lemma receive_packets_failure pre rw post x :
  audio_st x <> None ->
  forallb (transmitted EAGAIN) pre = true ->
  hard_failure EAGAIN rw = true ->
  trace_of (loop (pre ++ rw :: post) x)
  = failed_drain msg_encode msg_write pre rw.
Proof.
  intros Hst Hpre Hrw. unfold failed_drain, loop.
  destruct (audio_st x) as [h|] eqn:Hh; [clear Hst | congruence].
  induction pre as [|[r w] pre IH].
  - destruct rw as [r w]. unfold hard_failure in Hrw. cbn [fst snd] in *.
    cbn [app flat_map receive_packets]. cbv [bind emit get ret deref crash].
    destruct (r =? AVERROR EAGAIN), (r =? AVERROR_EOF);
      cbn in Hrw; try discriminate.
    cbn [orb].
    destruct (r <? 0); [reflexivity|].
    cbn in Hrw. rewrite Hrw. cbn beta. rewrite Hh. reflexivity.
  - cbn [forallb] in Hpre. apply andb_prop in Hpre as [Hrw' Hpre].
    specialize (IH Hpre). unfold transmitted in Hrw'. cbn [fst snd] in Hrw'.
    cbn [app flat_map receive_packets]. cbv [bind emit get ret deref crash].
    destruct (r =? AVERROR EAGAIN), (r =? AVERROR_EOF);
      cbn in Hrw'; try discriminate.
    apply andb_prop in Hrw' as [Hr Hw].
    cbn [orb].
    replace (r <? 0) with false by lia.
    replace (w <? 0) with false by lia.
    cbn beta. rewrite Hh.
    destruct (receive_packets EAGAIN S R audio_st msg_encode msg_write
                (pre ++ rw :: post) x) as [[res x'] t] eqn:E.
    cbn in *. now rewrite IH.
Qed.

End DrainLoopFacts.

(** ** The perform routines *)

Lemma rtmp_perform_idle EAGAIN enc input x :
  Rtmp.streaming_active x = 0 ->
  Rtmp.rtmpstreamer_tilde_perform EAGAIN enc input x = (Next tt, x, []).
Proof.
  intros H. unfold Rtmp.rtmpstreamer_tilde_perform. cbv [bind get ret].
  rewrite H. reflexivity.
Qed.

Lemma rtmp_perform_streaming EAGAIN enc input x fr samples :
  Rtmp.streaming_active x <> 0 ->
  Rtmp.frame x = Some fr ->
  fill_from (fun s => Some (F32.clamp s)) 0 input (AV.data fr) = Next samples ->
  Rtmp.rtmpstreamer_tilde_perform EAGAIN enc input x
  = let x' := rtmp_assembled x input samples in
    if send_frame enc <? 0 then
      (Return tt, x',
       [Call avcodec_send_frame;
        pd_error "[rtmpstreamer~] Error sending frame to codec"])
    else
      let o := receive_packets EAGAIN _ unit Rtmp.audio_st
                 "[rtmpstreamer~] Error encoding audio frame"
                 "[rtmpstreamer~] Error while writing audio frame"
                 (packets enc) x' in
      (result_of o, x', Call avcodec_send_frame :: trace_of o).
Proof.
  intros Hact Hfr Hfill.
  unfold Rtmp.rtmpstreamer_tilde_perform.
  cbv [bind get ret deref fill modify emit return_].
  apply Z.eqb_neq in Hact. rewrite Hact, Hfr, Hfill. cbn [app AV.nb_samples].
  fold (rtmp_assembled x input samples).
  destruct (send_frame enc <? 0); [reflexivity|].
  cbn zeta.
  pose proof (receive_packets_state EAGAIN _ unit Rtmp.audio_st
                "[rtmpstreamer~] Error encoding audio frame"
                "[rtmpstreamer~] Error while writing audio frame"
                (packets enc) (rtmp_assembled x input samples)) as Hst.
  destruct (receive_packets _ _ _ _ _ _ _ _) as [[res x'] t].
  cbn in *. now subst.
Qed.

Lemma rtmp_perform_crash EAGAIN enc input x fr f :
  Rtmp.streaming_active x <> 0 ->
  Rtmp.frame x = Some fr ->
  fill_from (fun s => Some (F32.clamp s)) 0 input (AV.data fr) = Crash f ->
  Rtmp.rtmpstreamer_tilde_perform EAGAIN enc input x = (Crash f, x, []).
Proof.
  intros Hact Hfr Hfill.
  unfold Rtmp.rtmpstreamer_tilde_perform.
  cbv [bind get ret deref fill modify emit return_].
  apply Z.eqb_neq in Hact. rewrite Hact, Hfr, Hfill. reflexivity.
Qed.

Lemma rtsp_perform_streaming EAGAIN enc input x fr samples :
  Rtsp.frame x = Some fr ->
  fill_from Rtsp.convert 0 input (AV.data fr) = Next samples ->
  Rtsp.rtspstreamer_tilde_perform EAGAIN enc input x
  = let x' := rtsp_assembled x input samples in
    if send_frame enc <? 0 then
      (Return tt, x',
       [Call avcodec_send_frame; pd_error "Error sending frame to codec"])
    else
      let o := receive_packets EAGAIN _ unit Rtsp.audio_st
                 "Error encoding audio frame"
                 "Error while writing audio frame"
                 (packets enc) x' in
      (result_of o, x', Call avcodec_send_frame :: trace_of o).
Proof.
  intros Hfr Hfill.
  unfold Rtsp.rtspstreamer_tilde_perform.
  cbv [bind get ret deref fill modify emit return_].
  rewrite Hfr, Hfill. cbn [app AV.nb_samples].
  fold (rtsp_assembled x input samples).
  destruct (send_frame enc <? 0); [reflexivity|].
  cbn zeta.
  pose proof (receive_packets_state EAGAIN _ unit Rtsp.audio_st
                "Error encoding audio frame"
                "Error while writing audio frame"
                (packets enc) (rtsp_assembled x input samples)) as Hst.
  destruct (receive_packets _ _ _ _ _ _ _ _) as [[res x'] t].
  cbn in *. now subst.
Qed.

Lemma rtsp_perform_crash EAGAIN enc input x fr f :
  Rtsp.frame x = Some fr ->
  fill_from Rtsp.convert 0 input (AV.data fr) = Crash f ->
  Rtsp.rtspstreamer_tilde_perform EAGAIN enc input x = (Crash f, x, []).
Proof.
  intros Hfr Hfill.
  unfold Rtsp.rtspstreamer_tilde_perform.
  cbv [bind get ret deref fill modify emit return_].
  rewrite Hfr, Hfill. reflexivity.
Qed.

Lemma receive_packets_no_overrun EAGAIN S R audio_st m1 m2 script x :
  result_of (receive_packets EAGAIN S R audio_st m1 m2 script x)
  <> Crash OutOfBounds.
Proof.
  induction script as [|[r w] rest IH]; [discriminate|].
  cbn [receive_packets]; cbv [bind emit get ret deref crash].
  destruct ((r =? AVERROR EAGAIN) || (r =? AVERROR_EOF)); [discriminate|].
  destruct (r <? 0); [discriminate|].
  cbn beta. destruct (audio_st x); [|discriminate].
  destruct (w <? 0); [discriminate|].
  destruct (receive_packets _ _ _ _ _ _ _ _) as [[res x'] t].
  cbn in *. exact IH.
Qed.

(** ** C4: blocks delivered to an idle session *)

(** Case analysis on what the library answers, in program order. *)
Ltac split_prog :=
  repeat (match goal with
          | |- context [match object ?l ?c with _ => _ end] =>
              destruct (object l c) eqn:?
          | |- context [if ?b then _ else _] =>
              match type of b with bool => destruct b eqn:? end
          end; cbn -[repeat]).

Lemma rtsp_new_streaming lib s x t :
  Rtsp.rtspstreamer_tilde_new lib s Rtsp.fresh = (Return true, x, t) ->
  rtsp_streaming x = true.
Proof.
  unfold Rtsp.rtspstreamer_tilde_new, Rtsp.update_frame.
  cbv [bind ret get modify emit return_ crash deref invoke].
  destruct s as [name|]; cbn -[repeat]; [|discriminate].
  split_prog; intros H; inversion H; subst; reflexivity.
Qed.

Lemma rtsp_serve_streaming c x :
  rtsp_streaming x = true ->
  rtsp_streaming (state_of (Rtsp.serve c x)) = true.
Proof.
  intros Hx. destruct c as [s|EAGAIN enc input]; cbn [Rtsp.serve].
  - unfold rtsp_streaming in *. cbn. exact Hx.
  - unfold invoke.
    destruct (Rtsp.frame x) as [fr|] eqn:Hfr;
      [|unfold rtsp_streaming in Hx; rewrite Hfr in Hx;
        destruct (Rtsp.fmt_ctx x), (Rtsp.audio_st x), (Rtsp.codec_ctx x);
        discriminate].
    destruct (fill_from Rtsp.convert 0 input (AV.data fr)) as [l|r|f] eqn:Hfill.
    + rewrite (rtsp_perform_streaming _ _ _ _ _ _ Hfr Hfill). cbn zeta.
      assert (Hx' : rtsp_streaming (rtsp_assembled x input l) = true).
      { unfold rtsp_streaming in *. cbn.
        destruct (Rtsp.fmt_ctx x), (Rtsp.audio_st x), (Rtsp.codec_ctx x);
          trivial. }
      destruct (send_frame enc <? 0); [exact Hx'|].
      destruct (result_of _); exact Hx'.
    + generalize (fill_from_spec Rtsp.convert input [] (AV.data fr)).
      cbn [List.length app]. rewrite Hfill. intros [].
    + rewrite (rtsp_perform_crash _ _ _ _ _ _ Hfr Hfill). exact Hx.
Qed.

(** C4.  A block delivered to a push session that is not Streaming
    ([streaming_active] is 0) is answered at once: the perform routine makes no
    call at all, neither to the encoder nor to the transport, and leaves the
    session as it was.  The session-based variant has no such state to
    consider: an object its constructor hands to the host holds every handle,
    and no call the host makes on it changes that. *)
Theorem perform_not_streaming_is_silent :
  (forall EAGAIN enc input x,
      Rtmp.streaming_active x = 0 ->
      Rtmp.rtmpstreamer_tilde_perform EAGAIN enc input x = (Next tt, x, []))
  /\ (forall lib s x t,
         Rtsp.rtspstreamer_tilde_new lib s Rtsp.fresh = (Return true, x, t) ->
         rtsp_streaming x = true)
  /\ (forall c x,
         rtsp_streaming x = true ->
         rtsp_streaming (state_of (Rtsp.serve c x)) = true).
Proof.
  split; [exact rtmp_perform_idle|].
  split; [exact rtsp_new_streaming | exact rtsp_serve_streaming].
Qed.

Lemma perform_not_streaming_is_silent_witness :
  Rtmp.streaming_active rtmp_idle = 0
  /\ Rtmp.rtmpstreamer_tilde_perform 11 lossy [half; two] rtmp_idle
     = (Next tt, rtmp_idle, []).
Proof.
  split; [reflexivity|].
  apply (proj1 perform_not_streaming_is_silent 11 lossy [half; two] rtmp_idle).
  reflexivity.
Defined.

(** ** The frame assembler *)

Lemma rtmp_assembler EAGAIN enc input x fr :
  Rtmp.streaming_active x <> 0 ->
  Rtmp.frame x = Some fr ->
  let o := Rtmp.rtmpstreamer_tilde_perform EAGAIN enc input x in
  (result_of o = Crash OutOfBounds
   <-> (List.length (AV.data fr) < List.length input)%nat)
  /\ ((List.length input <= List.length (AV.data fr))%nat ->
      exists fr',
        Rtmp.frame (state_of o) = Some fr'
        /\ AV.nb_samples fr' = Z.of_nat (List.length input)
        /\ AV.data fr'
           = map F32.clamp input ++ skipn (List.length input) (AV.data fr)).
Proof.
  intros Hact Hfr o. subst o.
  destruct (Nat.le_gt_cases (List.length input) (List.length (AV.data fr)))
    as [Hfit|Hover].
  - pose proof (fill_from_fits _ input (AV.data fr) _
                  (Forall2_map_Some F32.clamp input) Hfit) as Hfill.
    rewrite (rtmp_perform_streaming _ _ _ _ _ _ Hact Hfr Hfill). cbn zeta.
    split.
    + split; [|lia]. intros H. exfalso.
      destruct (send_frame enc <? 0); [discriminate|].
      now apply receive_packets_no_overrun in H.
    + intros _. exists (AV.Build_AVFrame (Z.of_nat (List.length input))
                          (Rtmp.pts x)
                          (map F32.clamp input
                             ++ skipn (List.length input) (AV.data fr))).
      split; [|split; reflexivity].
      destruct (send_frame enc <? 0); reflexivity.
  - assert (Hfill : fill_from (fun s => Some (F32.clamp s)) 0 input (AV.data fr)
                    = Crash OutOfBounds).
    { apply fill_from_overrun; [|exact Hover].
      apply Forall_forall. intros; discriminate. }
    rewrite (rtmp_perform_crash _ _ _ _ _ _ Hact Hfr Hfill).
    split; [tauto | lia].
Qed.

Lemma rtsp_assembler EAGAIN enc input x fr :
  Rtsp.frame x = Some fr ->
  Forall (fun s => Rtsp.convert s <> None) input ->
  let o := Rtsp.rtspstreamer_tilde_perform EAGAIN enc input x in
  (result_of o = Crash OutOfBounds
   <-> (List.length (AV.data fr) < List.length input)%nat)
  /\ ((List.length input <= List.length (AV.data fr))%nat ->
      exists fr' samples,
        Rtsp.frame (state_of o) = Some fr'
        /\ AV.nb_samples fr' = Z.of_nat (List.length input)
        /\ map Rtsp.convert input = map Some samples
        /\ AV.data fr' = samples ++ skipn (List.length input) (AV.data fr)).
Proof.
  intros Hfr Hconv o. subst o.
  destruct (Nat.le_gt_cases (List.length input) (List.length (AV.data fr)))
    as [Hfit|Hover].
  - assert (Hvals : exists samples,
               Forall2 (fun s v => Rtsp.convert s = Some v) input samples).
    { clear -Hconv. induction Hconv as [|s input Hs _ [samples IH]].
      - exists []. constructor.
      - destruct (Rtsp.convert s) as [v|] eqn:E; [|congruence].
        exists (v :: samples). now constructor. }
    destruct Hvals as [samples Hvals].
    pose proof (fill_from_fits _ input (AV.data fr) _ Hvals Hfit) as Hfill.
    rewrite (rtsp_perform_streaming _ _ _ _ _ _ Hfr Hfill). cbn zeta.
    split.
    + split; [|lia]. intros H. exfalso.
      destruct (send_frame enc <? 0); [discriminate|].
      now apply receive_packets_no_overrun in H.
    + intros _. exists (AV.Build_AVFrame (Z.of_nat (List.length input))
                          (Rtsp.pts x)
                          (samples ++ skipn (List.length input) (AV.data fr))).
      exists samples. split; [|split; [reflexivity|split; [|reflexivity]]].
      * destruct (send_frame enc <? 0); reflexivity.
      * clear -Hvals. induction Hvals; simpl; congruence.
  - pose proof (fill_from_overrun _ input (AV.data fr) Hconv Hover) as Hfill.
    rewrite (rtsp_perform_crash _ _ _ _ _ _ Hfr Hfill).
    split; [tauto | lia].
Qed.

(** ** C8: a failing block leaves the session streaming *)

Lemma rtmp_block_failure EAGAIN enc input x fr :
  Rtmp.streaming_active x <> 0 ->
  Rtmp.frame x = Some fr ->
  Rtmp.audio_st x <> None ->
  (List.length input <= List.length (AV.data fr))%nat ->
  let o := Rtmp.rtmpstreamer_tilde_perform EAGAIN enc input x in
  (Rtmp.streaming_active (state_of o) = Rtmp.streaming_active x
   /\ Rtmp.fmt_ctx (state_of o) = Rtmp.fmt_ctx x
   /\ Rtmp.codec_ctx (state_of o) = Rtmp.codec_ctx x
   /\ Rtmp.audio_st (state_of o) = Rtmp.audio_st x
   /\ Rtmp.frame (state_of o) <> None)
  /\ drops_block_on_failure o EAGAIN enc
       "[rtmpstreamer~] Error sending frame to codec"
       "[rtmpstreamer~] Error encoding audio frame"
       "[rtmpstreamer~] Error while writing audio frame".
Proof.
  intros Hact Hfr Hst Hfit o. subst o. unfold drops_block_on_failure.
  pose proof (fill_from_fits _ input (AV.data fr) _
                (Forall2_map_Some F32.clamp input) Hfit) as Hfill.
  rewrite (rtmp_perform_streaming _ _ _ _ _ _ Hact Hfr Hfill). cbn zeta.
  set (x' := rtmp_assembled x input _).
  assert (Hst' : Rtmp.audio_st x' <> None) by exact Hst.
  destruct (send_frame enc <? 0) eqn:Hsend.
  - split; [repeat split; discriminate|].
    split; [split; reflexivity|].
    split; [reflexivity|]. intros; lia.
  - split; [repeat split; discriminate|]. split; [|split; [lia|]].
    + cbn [trace_of snd]. split.
      * cbn [released_after_transmit].
        apply receive_packets_released.
      * unfold count_calls. cbn [filter is_call call_beq].
        apply receive_packets_unref_count.
    + intros pre rw post _ Hsplit Hpre Hrw.
      rewrite Hsplit.
      rewrite receive_packets_result, receive_packets_failure by assumption.
      reflexivity.
Qed.

Lemma rtsp_block_failure EAGAIN enc input x fr :
  Rtsp.frame x = Some fr ->
  Rtsp.audio_st x <> None ->
  (List.length input <= List.length (AV.data fr))%nat ->
  Forall (fun s => Rtsp.convert s <> None) input ->
  let o := Rtsp.rtspstreamer_tilde_perform EAGAIN enc input x in
  (Rtsp.fmt_ctx (state_of o) = Rtsp.fmt_ctx x
   /\ Rtsp.codec_ctx (state_of o) = Rtsp.codec_ctx x
   /\ Rtsp.audio_st (state_of o) = Rtsp.audio_st x
   /\ Rtsp.frame (state_of o) <> None)
  /\ drops_block_on_failure o EAGAIN enc
       "Error sending frame to codec"
       "Error encoding audio frame"
       "Error while writing audio frame".
Proof.
  intros Hfr Hst Hfit Hconv o. subst o. unfold drops_block_on_failure.
  assert (Hvals : exists samples,
             Forall2 (fun s v => Rtsp.convert s = Some v) input samples).
  { clear -Hconv. induction Hconv as [|s input Hs _ [samples IH]].
    - exists []. constructor.
    - destruct (Rtsp.convert s) as [v|] eqn:E; [|congruence].
      exists (v :: samples). now constructor. }
  destruct Hvals as [samples Hvals].
  pose proof (fill_from_fits _ input (AV.data fr) _ Hvals Hfit) as Hfill.
  rewrite (rtsp_perform_streaming _ _ _ _ _ _ Hfr Hfill). cbn zeta.
  set (x' := rtsp_assembled x input _).
  assert (Hst' : Rtsp.audio_st x' <> None) by exact Hst.
  destruct (send_frame enc <? 0) eqn:Hsend.
  - split; [repeat split; discriminate|].
    split; [split; reflexivity|].
    split; [reflexivity|]. intros; lia.
  - split; [repeat split; discriminate|]. split; [|split; [lia|]].
    + cbn [trace_of snd]. split.
      * cbn [released_after_transmit].
        apply receive_packets_released.
      * unfold count_calls. cbn [filter is_call call_beq].
        apply receive_packets_unref_count.
    + intros pre rw post _ Hsplit Hpre Hrw.
      rewrite Hsplit.
      rewrite receive_packets_result, receive_packets_failure by assumption.
      reflexivity.
Qed.

(** C8.  For every block processed while Streaming: if the encoder rejects
    the frame, or a drain step fails (the encoder answers an error, or a
    packet cannot be written), the failure is reported with [pd_error] and the
    routine stops working on the block, making no further encoder or muxer
    call; the session keeps [streaming_active] and all its handles, so it is
    still Streaming; and every packet handed to the muxer is unreferenced by
    the call that follows, whatever the muxer answered. *)
Theorem block_failure_keeps_streaming :
  (forall EAGAIN enc input x fr,
      Rtmp.streaming_active x <> 0 ->
      Rtmp.frame x = Some fr ->
      Rtmp.audio_st x <> None ->
      (List.length input <= List.length (AV.data fr))%nat ->
      let o := Rtmp.rtmpstreamer_tilde_perform EAGAIN enc input x in
      (Rtmp.streaming_active (state_of o) = Rtmp.streaming_active x
       /\ Rtmp.fmt_ctx (state_of o) = Rtmp.fmt_ctx x
       /\ Rtmp.codec_ctx (state_of o) = Rtmp.codec_ctx x
       /\ Rtmp.audio_st (state_of o) = Rtmp.audio_st x
       /\ Rtmp.frame (state_of o) <> None)
      /\ drops_block_on_failure o EAGAIN enc
           "[rtmpstreamer~] Error sending frame to codec"
           "[rtmpstreamer~] Error encoding audio frame"
           "[rtmpstreamer~] Error while writing audio frame")
  /\ (forall EAGAIN enc input x fr,
         Rtsp.frame x = Some fr ->
         Rtsp.audio_st x <> None ->
         (List.length input <= List.length (AV.data fr))%nat ->
         Forall (fun s => Rtsp.convert s <> None) input ->
         let o := Rtsp.rtspstreamer_tilde_perform EAGAIN enc input x in
         (Rtsp.fmt_ctx (state_of o) = Rtsp.fmt_ctx x
          /\ Rtsp.codec_ctx (state_of o) = Rtsp.codec_ctx x
          /\ Rtsp.audio_st (state_of o) = Rtsp.audio_st x
          /\ Rtsp.frame (state_of o) <> None)
         /\ drops_block_on_failure o EAGAIN enc
              "Error sending frame to codec"
              "Error encoding audio frame"
              "Error while writing audio frame").
Proof.
  split; [exact rtmp_block_failure | exact rtsp_block_failure].
Qed.

Lemma block_failure_keeps_streaming_witness :
  (Rtmp.streaming_active rtmp_streaming <> 0
   /\ Rtmp.audio_st rtmp_streaming <> None
   /\ hard_failure 11 (0, -5) = true)
  /\ Rtmp.rtmpstreamer_tilde_perform 11 lossy [half; two] rtmp_streaming
     = (Next tt,
        state_of (Rtmp.rtmpstreamer_tilde_perform 11 lossy [half; two]
                    rtmp_streaming),
        [Call avcodec_send_frame;
         Call avcodec_receive_packet; Call av_interleaved_write_frame;
         Call av_packet_unref;
         Call avcodec_receive_packet; Call av_interleaved_write_frame;
         Call av_packet_unref;
         pd_error "[rtmpstreamer~] Error while writing audio frame"])
  /\ Rtmp.streaming_active
       (state_of (Rtmp.rtmpstreamer_tilde_perform 11 lossy [half; two]
                    rtmp_streaming)) = 1.
Proof.
  assert (H1 : Rtmp.streaming_active rtmp_streaming <> 0) by discriminate.
  assert (H2 : Rtmp.frame rtmp_streaming
               = Some (AV.Build_AVFrame 4 AV_NOPTS_VALUE
                         (repeat (S754_zero false) 4))) by reflexivity.
  assert (H3 : Rtmp.audio_st rtmp_streaming <> None) by discriminate.
  assert (H4 : (List.length [half; two]
                <= List.length (repeat (S754_zero false) 4))%nat)
    by (simpl; lia).
  destruct (proj1 block_failure_keeps_streaming 11 lossy [half; two]
              rtmp_streaming _ H1 H2 H3 H4) as [Hkeep [_ [_ Hdrain]]].
  split; [repeat split; trivial|]. split.
  - apply (Hdrain [(0, 0)] (0, -5) [(0, 0)]); trivial. simpl. lia.
  - apply Hkeep.
Defined.

(** ** Teardown *)

Lemma rtmp_cleanup x :
  Rtmp.cleanup_streaming x
  = (Next tt, rtmp_released x, rtmp_teardown_calls x).
Proof.
  unfold Rtmp.cleanup_streaming, rtmp_released, rtmp_teardown_calls,
    close_output.
  cbv [bind get ret modify emit].
  destruct x as [xo u [ctx|] st [cc|] [fr|] p sig a]; cbn;
    try destruct (AV.nofile ctx); reflexivity.
Qed.

Lemma rtsp_free x :
  Rtsp.rtspstreamer_tilde_free x
  = (Next tt, rtsp_released x, rtsp_teardown_calls x).
Proof.
  unfold Rtsp.rtspstreamer_tilde_free, rtsp_released, rtsp_teardown_calls,
    close_output.
  cbv [bind get ret modify emit].
  destruct x as [xo u [ctx|] st [cc|] [fr|] p sig]; cbn;
    try destruct (AV.nofile ctx); reflexivity.
Qed.

(** ** The connect sequence *)

Ltac unfold_prog :=
  cbv [bind ret get modify emit return_ crash deref invoke].

(** Case analysis on the library's answers, driven by the search for the
    first failing sub-step in [H]. *)
Ltac first_failure_cases H :=
  repeat (match type of H with
          | (if negb (held (object ?l ?c)) then _ else _) = _ =>
              destruct (object l c) eqn:?; cbn [held negb] in H
          | (if negb (AVFMT_NOFILE ?l) && _ then _ else _) = _ =>
              destruct (AVFMT_NOFILE l) eqn:?; cbn [negb andb] in H
          | (if ?b then _ else _) = _ => destruct b eqn:?
          end; cbn -[repeat precedes]).

Lemma rtmp_connect_failure lib x k :
  Rtmp.url x <> None ->
  rtmp_holds_nothing x = true ->
  first_failure lib rtmp_substeps = Some k ->
  let o := Rtmp.initialize_streaming lib x in
  result_of o = Return (-1)
  /\ diagnostics (trace_of o) = 1%nat
  /\ no_release (trace_of o) = true
  /\ held (Rtmp.fmt_ctx (state_of o)) = precedes rtmp_substeps output_context k
  /\ held (Rtmp.audio_st (state_of o))
     = precedes rtmp_substeps stream_creation k
  /\ held (Rtmp.codec_ctx (state_of o))
     = precedes rtmp_substeps codec_context k
  /\ held (Rtmp.frame (state_of o))
     = precedes rtmp_substeps frame_allocation k
  /\ Rtmp.streaming_active (state_of o) = Rtmp.streaming_active x.
Proof.
  intros Hurl Hidle Hk o. subst o.
  unfold first_failure, rtmp_substeps, find, fails in Hk.
  destruct x as [xo [name|] [ctx|] [st|] [cc|] [fr|] p sig a];
    cbn in Hurl, Hidle; try discriminate; try congruence.
  unfold Rtmp.initialize_streaming, Rtmp.update_frame. unfold_prog.
  cbn -[repeat precedes].
  first_failure_cases Hk; inversion Hk; subst k;
    try (destruct (frame_size lib =? 0); cbn -[repeat precedes];
         match goal with
         | E : (status _ _ _ <? 0) = _ |- _ => rewrite E
         end);
    repeat split.
Qed.

Lemma rtmp_connect_success lib x :
  Rtmp.url x <> None ->
  first_failure lib rtmp_substeps = None ->
  let o := Rtmp.initialize_streaming lib x in
  result_of o = Return 0
  /\ rtmp_holds_session (state_of o) = true
  /\ no_release (trace_of o) = true
  /\ diagnostics (trace_of o) = 0%nat
  /\ Rtmp.pts (state_of o) = Rtmp.pts x
  /\ Rtmp.streaming_active (state_of o) = Rtmp.streaming_active x.
Proof.
  intros Hurl Hk o. subst o.
  unfold first_failure, rtmp_substeps, find, fails in Hk.
  destruct x as [xo [name|] ctx st cc fr p sig a];
    cbn in Hurl; try discriminate; try congruence.
  unfold Rtmp.initialize_streaming, Rtmp.update_frame. unfold_prog.
  cbn -[repeat precedes].
  first_failure_cases Hk; try discriminate;
    try (destruct (frame_size lib =? 0); cbn -[repeat precedes];
         match goal with
         | E : (status _ _ _ <? 0) = _ |- _ => rewrite E
         end);
    repeat split.
Qed.

(** The connect sequence never touches the clock nor the flag, and either
    returns 0 or -1. *)
Lemma rtmp_connect_result lib x :
  Rtmp.url x <> None ->
  let o := Rtmp.initialize_streaming lib x in
  (result_of o = Return 0 \/ result_of o = Return (-1))
  /\ (result_of o = Return 0 -> rtmp_holds_session (state_of o) = true)
  /\ no_release (trace_of o) = true
  /\ Rtmp.pts (state_of o) = Rtmp.pts x
  /\ Rtmp.streaming_active (state_of o) = Rtmp.streaming_active x
  /\ Rtmp.url (state_of o) = Rtmp.url x.
Proof.
  intros Hurl o. subst o.
  destruct (first_failure lib rtmp_substeps) as [k|] eqn:Hk.
  - unfold first_failure, rtmp_substeps, find, fails in Hk.
    destruct x as [xo [name|] ctx st cc fr p sig a];
      cbn in Hurl; try discriminate; try congruence.
    unfold Rtmp.initialize_streaming, Rtmp.update_frame. unfold_prog.
    cbn -[repeat precedes].
    first_failure_cases Hk; try discriminate;
      try (destruct (frame_size lib =? 0); cbn -[repeat precedes];
           match goal with
           | E : (status _ _ _ <? 0) = _ |- _ => rewrite E
           end);
      repeat split; auto; discriminate.
  - destruct (rtmp_connect_success lib x Hurl Hk) as (H1 & H2 & H3 & _ & H5 & H6).
    repeat split; auto.
    unfold Rtmp.initialize_streaming, Rtmp.update_frame. unfold_prog.
    destruct x as [xo [name|] ctx st cc fr p sig a];
      cbn in Hurl; try discriminate; try congruence.
    cbn -[repeat]. split_prog; reflexivity.
Qed.

Lemma rtsp_connect_failure lib name x0 k :
  first_failure lib rtsp_substeps = Some k ->
  let o := Rtsp.rtspstreamer_tilde_new lib (Some name) x0 in
  result_of o = Return false
  /\ diagnostics (trace_of o) = 1%nat
  /\ no_release (trace_of o) = true
  /\ held (Rtsp.fmt_ctx (state_of o)) = precedes rtsp_substeps output_context k
  /\ held (Rtsp.audio_st (state_of o))
     = precedes rtsp_substeps stream_creation k
  /\ held (Rtsp.codec_ctx (state_of o))
     = precedes rtsp_substeps codec_context k
  /\ held (Rtsp.frame (state_of o))
     = precedes rtsp_substeps frame_allocation k.
Proof.
  intros Hk o. subst o.
  unfold first_failure, rtsp_substeps, find, fails in Hk.
  unfold Rtsp.rtspstreamer_tilde_new, Rtsp.update_frame. unfold_prog.
  cbn -[repeat precedes].
  first_failure_cases Hk; inversion Hk; subst k;
    try (destruct (frame_size lib =? 0); cbn -[repeat precedes];
         repeat match goal with
           | E : (status _ _ _ <? 0) = _ |- _ => rewrite E
           end);
    repeat split.
Qed.

Lemma rtsp_connect_success lib name x0 :
  first_failure lib rtsp_substeps = None ->
  let o := Rtsp.rtspstreamer_tilde_new lib (Some name) x0 in
  result_of o = Return true
  /\ rtsp_streaming (state_of o) = true
  /\ no_release (trace_of o) = true
  /\ Rtsp.pts (state_of o) = 0.
Proof.
  intros Hk o. subst o.
  unfold first_failure, rtsp_substeps, find, fails in Hk.
  unfold Rtsp.rtspstreamer_tilde_new, Rtsp.update_frame. unfold_prog.
  cbn -[repeat precedes].
  first_failure_cases Hk; try discriminate;
    try (destruct (frame_size lib =? 0); cbn -[repeat precedes];
         repeat match goal with
           | E : (status _ _ _ <? 0) = _ |- _ => rewrite E
           end);
    repeat split.
Qed.

(** ** The symbol handler of the push variant *)

Lemma rtmp_symbol_idle lib name x :
  Rtmp.streaming_active x = 0 ->
  0 < strlen name ->
  Rtmp.rtmpstreamer_tilde_symbol lib (Some name) x
  = let o := Rtmp.initialize_streaming lib (Rtmp.set_url (Some name) x) in
    let attempt :=
      post ("[rtmpstreamer~] Attempting to stream to " ++ name) in
    match result_of o with
    | Next r | Return r =>
        if r =? 0 then
          (Next tt, Rtmp.set_streaming_active 1 (state_of o),
           attempt :: trace_of o
             ++ [post ("[rtmpstreamer~] Successfully streaming to " ++ name)])
        else
          (Next tt, state_of o,
           attempt :: trace_of o
             ++ [pd_error ("[rtmpstreamer~] Failed to initialize streaming to '"
                             ++ name ++ "'")])
    | Crash f => (Crash f, state_of o, attempt :: trace_of o)
    end.
Proof.
  intros Hact Hlen. unfold Rtmp.rtmpstreamer_tilde_symbol.
  cbv [bind get ret modify emit invoke]. rewrite Hact.
  apply Z.ltb_lt in Hlen. rewrite Hlen. cbn [Z.eqb negb app].
  destruct (Rtmp.initialize_streaming lib (Rtmp.set_url (Some name) x))
    as [[[r|r|f] x'] t]; cbn [result_of state_of trace_of fst snd];
    try destruct (r =? 0); cbn [app]; rewrite ?app_nil_r; reflexivity.
Qed.

Lemma rtmp_symbol_empty lib s x :
  Rtmp.streaming_active x = 0 ->
  match s with Some name => strlen name = 0 | None => True end ->
  Rtmp.rtmpstreamer_tilde_symbol lib s x
  = (Next tt, Rtmp.set_url s x,
     [post "[rtmpstreamer~] Invalid or empty URL. Non-streaming mode."]).
Proof.
  intros Hact Hs. unfold Rtmp.rtmpstreamer_tilde_symbol.
  cbv [bind get ret modify emit invoke]. rewrite Hact.
  destruct s as [name|]; [rewrite Hs|]; reflexivity.
Qed.

Lemma rtmp_symbol_streaming lib s x :
  Rtmp.streaming_active x <> 0 ->
  let o := Rtmp.rtmpstreamer_tilde_symbol lib s
             (Rtmp.set_streaming_active 0 (rtmp_released x)) in
  Rtmp.rtmpstreamer_tilde_symbol lib s x
  = (result_of o, state_of o, rtmp_teardown_calls x ++ trace_of o).
Proof.
  intros Hact o. subst o. apply Z.eqb_neq in Hact.
  unfold Rtmp.rtmpstreamer_tilde_symbol.
  match goal with
  | |- context [bind (modify (Rtmp.set_url s)) ?k] =>
      set (rest := bind (modify (Rtmp.set_url s)) k)
  end.
  cbv [bind get invoke modify ret].
  rewrite Hact. cbn [negb]. rewrite (rtmp_cleanup x).
  cbn [negb Rtmp.streaming_active Rtmp.set_streaming_active Z.eqb].
  destruct (rest (Rtmp.set_streaming_active 0 (rtmp_released x)))
    as [[r x'] t].
  cbn. now rewrite app_nil_r.
Qed.

(** ** Reachable push sessions are coherent *)

Lemma rtmp_symbol_idle_coherent lib s x :
  Rtmp.streaming_active x = 0 ->
  rtmp_coherent (state_of (Rtmp.rtmpstreamer_tilde_symbol lib s x)).
Proof.
  intros Hact.
  assert (Hcase : (exists name, s = Some name /\ 0 < strlen name)
                  \/ match s with
                     | Some name => strlen name = 0
                     | None => True
                     end).
  { destruct s as [name|]; [|now right].
    unfold strlen. destruct name; cbn; [now right|].
    left. eexists. split; [reflexivity|]. cbn. lia. }
  destruct Hcase as [(name & -> & Hlen)|Hempty].
  - rewrite rtmp_symbol_idle by assumption. cbn zeta.
    destruct (rtmp_connect_result lib (Rtmp.set_url (Some name) x))
      as (Hres & Hheld & _ & _ & Hflag & _); [discriminate|].
    unfold rtmp_coherent.
    destruct Hres as [Hres|Hres]; rewrite Hres; cbn [Z.eqb];
      cbn [state_of fst snd] in *.
    + intros _. now apply Hheld.
    + intros H. now rewrite Hflag in H.
  - rewrite rtmp_symbol_empty by assumption. intros H. now cbn in H.
Qed.

Lemma rtmp_symbol_coherent lib s x :
  rtmp_coherent (state_of (Rtmp.rtmpstreamer_tilde_symbol lib s x)).
Proof.
  destruct (Z.eq_dec (Rtmp.streaming_active x) 0) as [Hact|Hact].
  - now apply rtmp_symbol_idle_coherent.
  - rewrite rtmp_symbol_streaming by assumption. cbn [state_of fst snd].
    now apply rtmp_symbol_idle_coherent.
Qed.

Lemma rtmp_perform_coherent EAGAIN enc input x :
  rtmp_coherent x ->
  rtmp_coherent (state_of (Rtmp.rtmpstreamer_tilde_perform EAGAIN enc input x)).
Proof.
  intros Hx.
  destruct (Z.eq_dec (Rtmp.streaming_active x) 0) as [Hact|Hact].
  - now rewrite rtmp_perform_idle.
  - specialize (Hx Hact). unfold rtmp_holds_session in Hx.
    destruct (Rtmp.fmt_ctx x) eqn:E1, (Rtmp.audio_st x) eqn:E2,
      (Rtmp.codec_ctx x) eqn:E3, (Rtmp.frame x) as [fr|] eqn:Hfr;
      try discriminate.
    destruct (fill_from (fun s => Some (F32.clamp s)) 0 input (AV.data fr))
      as [l|r|f] eqn:Hfill.
    + rewrite (rtmp_perform_streaming _ _ _ _ _ _ Hact Hfr Hfill). cbn zeta.
      assert (Hx' : rtmp_coherent (rtmp_assembled x input l)).
      { intros _. unfold rtmp_holds_session. cbn. now rewrite E1, E2, E3. }
      destruct (send_frame enc <? 0); exact Hx'.
    + generalize (fill_from_spec (fun s => Some (F32.clamp s)) input []
                    (AV.data fr)).
      cbn [List.length app]. rewrite Hfill. intros [].
    + rewrite (rtmp_perform_crash _ _ _ _ _ _ Hact Hfr Hfill).
      intros _. unfold rtmp_holds_session. cbn. now rewrite E1, E2, E3, Hfr.
Qed.

Lemma invoke_state {S R R'} (p : prog S R R) (x : S) :
  state_of (invoke (R' := R') p x) = state_of (p x).
Proof.
  unfold invoke. destruct (p x) as [[[r|r|f] x'] t]; reflexivity.
Qed.

Lemma rtmp_host_coherent calls :
  forall x, rtmp_coherent x -> rtmp_coherent (state_of (Rtmp.host calls x)).
Proof.
  induction calls as [|c rest IH]; intros x Hx; [exact Hx|].
  cbn [Rtmp.host]. unfold bind.
  assert (Hc : rtmp_coherent (state_of (Rtmp.serve c x))).
  { destruct c as [lib s|EAGAIN enc input]; cbn [Rtmp.serve];
      rewrite invoke_state.
    - apply rtmp_symbol_coherent.
    - now apply rtmp_perform_coherent. }
  destruct (Rtmp.serve c x) as [[[r|r|f] x1] t1]; cbn in Hc |- *; trivial.
  specialize (IH x1 Hc).
  destruct (Rtmp.host rest x1) as [[r2 x2] t2]. exact IH.
Qed.

Lemma rtmp_new_state s :
  Rtmp.streaming_active (state_of (Rtmp.rtmpstreamer_tilde_new s Rtmp.fresh)) = 0
  /\ Rtmp.pts (state_of (Rtmp.rtmpstreamer_tilde_new s Rtmp.fresh)) = 0
  /\ rtmp_holds_nothing (state_of (Rtmp.rtmpstreamer_tilde_new s Rtmp.fresh))
     = true
  /\ result_of (Rtmp.rtmpstreamer_tilde_new s Rtmp.fresh) = Next tt
  /\ no_connect (trace_of (Rtmp.rtmpstreamer_tilde_new s Rtmp.fresh)) = true.
Proof.
  unfold Rtmp.rtmpstreamer_tilde_new. unfold_prog.
  destruct s as [name|]; cbn; [|repeat split].
  destruct ((0 <? strlen name) && Rtmp.is_valid_rtmp_url name);
    repeat split.
Qed.

Lemma rtmp_life_coherent s calls :
  rtmp_coherent (state_of (Rtmp.life s calls)).
Proof.
  unfold Rtmp.life, bind.
  destruct (rtmp_new_state s) as (Hact & _ & _ & Hres & _).
  unfold invoke.
  destruct (Rtmp.rtmpstreamer_tilde_new s Rtmp.fresh) as [[r x0] t0].
  cbn in Hact, Hres. subst r.
  assert (Hx0 : rtmp_coherent x0) by (intros H; congruence).
  pose proof (rtmp_host_coherent calls x0 Hx0) as H.
  destruct (Rtmp.host calls x0) as [[r2 x2] t2]. exact H.
Qed.

Lemma rtmp_connect_failure_report lib x k :
  Rtmp.url x <> None ->
  first_failure lib rtmp_substeps = Some k ->
  let o := Rtmp.initialize_streaming lib x in
  result_of o = Return (-1)
  /\ diagnostics (trace_of o) = 1%nat
  /\ no_release (trace_of o) = true.
Proof.
  intros Hurl Hk o. subst o.
  unfold first_failure, rtmp_substeps, find, fails in Hk.
  destruct x as [xo [name|] ctx st cc fr p sig a];
    cbn in Hurl; try discriminate; try congruence.
  unfold Rtmp.initialize_streaming, Rtmp.update_frame. unfold_prog.
  cbn -[repeat precedes].
  first_failure_cases Hk; inversion Hk; subst k;
    try (destruct (frame_size lib =? 0); cbn -[repeat precedes];
         match goal with
         | E : (status _ _ _ <? 0) = _ |- _ => rewrite E
         end);
    repeat split.
Qed.

Lemma rtmp_symbol_connect_failure lib name x k :
  Rtmp.streaming_active x = 0 ->
  0 < strlen name ->
  first_failure lib rtmp_substeps = Some k ->
  let o := Rtmp.rtmpstreamer_tilde_symbol lib (Some name) x in
  result_of o = Next tt
  /\ Rtmp.streaming_active (state_of o) = 0
  /\ no_release (trace_of o) = true
  /\ diagnostics (trace_of o) = 2%nat.
Proof.
  intros Hact Hlen Hk o. subst o.
  rewrite rtmp_symbol_idle by assumption. cbn zeta.
  destruct (rtmp_connect_failure_report lib (Rtmp.set_url (Some name) x) k)
    as (Hres & Hdiag & Hrel); [discriminate | assumption |].
  destruct (rtmp_connect_result lib (Rtmp.set_url (Some name) x))
    as (_ & _ & _ & _ & Hflag & _); [discriminate|].
  rewrite Hres. cbn [Z.eqb].
  unfold result_of, state_of, trace_of, no_release, diagnostics in *.
  cbn [fst snd] in *.
  repeat split.
  - now rewrite Hflag.
  - cbn [forallb release_call negb andb]. rewrite forallb_app, Hrel.
    reflexivity.
  - cbn [filter is_diagnostic]. rewrite filter_app, length_app, Hdiag.
    reflexivity.
Qed.

(** ** C2: reconfiguration *)

Lemma rtmp_symbol_idle_no_release lib s x :
  Rtmp.streaming_active x = 0 ->
  no_release (trace_of (Rtmp.rtmpstreamer_tilde_symbol lib s x)) = true.
Proof.
  intros Hact.
  assert (Hcase : (exists name, s = Some name /\ 0 < strlen name)
                  \/ match s with
                     | Some name => strlen name = 0
                     | None => True
                     end).
  { destruct s as [name|]; [|now right].
    unfold strlen. destruct name; cbn; [now right|].
    left. eexists. split; [reflexivity|]. cbn. lia. }
  destruct Hcase as [(name & -> & Hlen)|Hempty].
  - rewrite rtmp_symbol_idle by assumption. cbn zeta.
    destruct (rtmp_connect_result lib (Rtmp.set_url (Some name) x))
      as (Hres & _ & Hrel & _); [discriminate|].
    unfold result_of, state_of, trace_of, no_release in *.
    destruct Hres as [Hres|Hres]; rewrite Hres; cbn [Z.eqb fst snd];
      cbn [forallb release_call negb andb]; rewrite forallb_app, Hrel;
      reflexivity.
  - rewrite rtmp_symbol_empty by assumption. reflexivity.
Qed.

(** C2 (as stated, refuted).  A life in which the object streams, is then
    pointed at an endpoint whose header cannot be written, and is then
    pointed at a third endpoint, successfully.  Each reconfiguration tears
    the Streaming session down first, yet what the failed connect acquired is
    never released: the object ends Streaming after three containers were
    allocated and three transports opened, of which one container was freed
    and one transport closed.  It holds the resources of two connects at
    once. *)
Lemma reconnect_after_failure_holds_two_sessions :
  Rtmp.streaming_active (state_of rtmp_overlapped) = 1
  /\ count_calls avformat_alloc_output_context2 (trace_of rtmp_overlapped)
     = 3%nat
  /\ count_calls avformat_free_context (trace_of rtmp_overlapped) = 1%nat
  /\ count_calls avio_open (trace_of rtmp_overlapped) = 3%nat
  /\ count_calls avio_closep (trace_of rtmp_overlapped) = 1%nat.
Proof. vm_compute. repeat split. Qed.

(** C2 (amended).  When the symbol handler of the push variant runs on a
    Streaming session, it behaves as the teardown of that session followed by
    the handler run on the torn-down session: the trailer write, the
    transport close (when the container owns one), the release of the
    container, of the encoder and of the frame all come first, no call of the
    connect sequence is made among them, and the session holds none of these
    handles when the first call for the new endpoint is made; nothing is
    released afterwards.  A handler that finds the session not Streaming
    releases nothing, whatever handles a failed connect left in it.  The
    session-based variant makes no connect call on a symbol at all: its
    handler records the string and reports that the change is unsupported. *)
Theorem reconfiguration_tears_down_first :
  (forall s calls lib s',
      let x := state_of (Rtmp.life s calls) in
      Rtmp.streaming_active x <> 0 ->
      let x0 := Rtmp.set_streaming_active 0 (rtmp_released x) in
      let o := Rtmp.rtmpstreamer_tilde_symbol lib s' x0 in
      Rtmp.rtmpstreamer_tilde_symbol lib s' x
      = (result_of o, state_of o, rtmp_teardown_calls x ++ trace_of o)
      /\ (exists ctx,
             Rtmp.fmt_ctx x = Some ctx
             /\ rtmp_teardown_calls x
                = Call av_write_trailer
                    :: (if AV.nofile ctx then [] else [Call avio_closep])
                    ++ [Call avformat_free_context; Call avcodec_free_context;
                        Call av_frame_free; Call avformat_network_deinit])
      /\ no_connect (rtmp_teardown_calls x) = true
      /\ (held (Rtmp.fmt_ctx x0) = false
          /\ held (Rtmp.codec_ctx x0) = false
          /\ held (Rtmp.frame x0) = false)
      /\ no_release (trace_of o) = true)
  /\ (forall lib s x,
         Rtmp.streaming_active x = 0 ->
         no_release (trace_of (Rtmp.rtmpstreamer_tilde_symbol lib s x))
         = true)
  /\ (forall s x,
         Rtsp.rtspstreamer_tilde_symbol s x
         = (Next tt, Rtsp.set_url s x,
            [pd_error "Changing URL at runtime is not supported"])).
Proof.
  split; [|split; [exact rtmp_symbol_idle_no_release|reflexivity]].
  intros s calls lib s' x Hact x0 o.
  pose proof (rtmp_life_coherent s calls Hact) as Hheld.
  fold x in Hheld. unfold rtmp_holds_session in Hheld.
  destruct (Rtmp.fmt_ctx x) as [ctx|] eqn:E1; [|discriminate].
  destruct (Rtmp.audio_st x) eqn:E2; [|discriminate].
  destruct (Rtmp.codec_ctx x) eqn:E3; [|discriminate].
  destruct (Rtmp.frame x) eqn:E4; [|discriminate].
  assert (Htear : rtmp_teardown_calls x
                  = Call av_write_trailer
                      :: (if AV.nofile ctx then [] else [Call avio_closep])
                      ++ [Call avformat_free_context;
                          Call avcodec_free_context;
                          Call av_frame_free; Call avformat_network_deinit]).
  { unfold rtmp_teardown_calls, close_output, when_held.
    rewrite E1, E3, E4. cbn [app]. now rewrite <- app_assoc. }
  split; [now apply rtmp_symbol_streaming|].
  split; [exists ctx; split; [reflexivity | exact Htear]|].
  split; [rewrite Htear; now destruct (AV.nofile ctx)|].
  split; [repeat split|].
  now apply rtmp_symbol_idle_no_release.
Qed.

Lemma reconfiguration_tears_down_first_witness :
  Rtmp.streaming_active rtmp_streaming <> 0
  /\ trace_of (Rtmp.rtmpstreamer_tilde_symbol (failing avio_open)
                 (Some "rtmp://other/live"%string) rtmp_streaming)
     = rtmp_teardown_calls rtmp_streaming
         ++ trace_of (Rtmp.rtmpstreamer_tilde_symbol (failing avio_open)
                        (Some "rtmp://other/live"%string)
                        (Rtmp.set_streaming_active 0
                           (rtmp_released rtmp_streaming))).
Proof.
  unfold rtmp_streaming.
  assert (H : Rtmp.streaming_active
                (state_of (Rtmp.life None
                   [Rtmp.symbol all_succeed (Some "rtmp://host/live"%string)]))
              <> 0)
    by (vm_compute; discriminate).
  split; [exact H|].
  rewrite (proj1 (proj1 reconfiguration_tears_down_first None
                    [Rtmp.symbol all_succeed (Some "rtmp://host/live"%string)]
                    (failing avio_open) (Some "rtmp://other/live"%string)
                    H)).
  reflexivity.
Defined.

(** ** C3: a failing connect sub-step *)

(** C3 (as stated, refuted).  The transport open fails after the container,
    the stream and the codec context were acquired: the handler returns with
    the session not Streaming, yet no release call was made and the three
    pointers still hold what the preceding sub-steps acquired. *)
Lemma connect_failure_keeps_handles :
  first_failure (failing avio_open) rtmp_substeps = Some transport_open
  /\ Rtmp.streaming_active
       (state_of (Rtmp.rtmpstreamer_tilde_symbol (failing avio_open)
                    (Some "rtmp://host/live"%string) rtmp_idle)) = 0
  /\ rtmp_holds_nothing
       (state_of (Rtmp.rtmpstreamer_tilde_symbol (failing avio_open)
                    (Some "rtmp://host/live"%string) rtmp_idle)) = false
  /\ no_release
       (trace_of (Rtmp.rtmpstreamer_tilde_symbol (failing avio_open)
                    (Some "rtmp://host/live"%string) rtmp_idle)) = true.
Proof. vm_compute. repeat split. Qed.

(** C3 (amended).  For every connect sub-step: if it is the first to fail,
    the connect sequence reports the failure with one [pd_error] and returns
    its failure value at once (-1 from [initialize_streaming], NULL from the
    session-based constructor) without making any release call; started on a
    session holding nothing, it leaves in the session exactly the handles the
    preceding sub-steps acquired.  The push session's [streaming_active] flag
    is untouched by the sequence and is 0 after the handler. *)
Theorem connect_failure_returns_without_release :
  (forall lib x k,
      Rtmp.url x <> None ->
      rtmp_holds_nothing x = true ->
      first_failure lib rtmp_substeps = Some k ->
      let o := Rtmp.initialize_streaming lib x in
      result_of o = Return (-1)
      /\ diagnostics (trace_of o) = 1%nat
      /\ no_release (trace_of o) = true
      /\ held (Rtmp.fmt_ctx (state_of o))
         = precedes rtmp_substeps output_context k
      /\ held (Rtmp.audio_st (state_of o))
         = precedes rtmp_substeps stream_creation k
      /\ held (Rtmp.codec_ctx (state_of o))
         = precedes rtmp_substeps codec_context k
      /\ held (Rtmp.frame (state_of o))
         = precedes rtmp_substeps frame_allocation k
      /\ Rtmp.streaming_active (state_of o) = Rtmp.streaming_active x)
  /\ (forall lib name x k,
         Rtmp.streaming_active x = 0 ->
         0 < strlen name ->
         first_failure lib rtmp_substeps = Some k ->
         let o := Rtmp.rtmpstreamer_tilde_symbol lib (Some name) x in
         result_of o = Next tt
         /\ Rtmp.streaming_active (state_of o) = 0
         /\ no_release (trace_of o) = true
         /\ diagnostics (trace_of o) = 2%nat)
  /\ (forall lib name x0 k,
         first_failure lib rtsp_substeps = Some k ->
         let o := Rtsp.rtspstreamer_tilde_new lib (Some name) x0 in
         result_of o = Return false
         /\ diagnostics (trace_of o) = 1%nat
         /\ no_release (trace_of o) = true
         /\ held (Rtsp.fmt_ctx (state_of o))
            = precedes rtsp_substeps output_context k
         /\ held (Rtsp.audio_st (state_of o))
            = precedes rtsp_substeps stream_creation k
         /\ held (Rtsp.codec_ctx (state_of o))
            = precedes rtsp_substeps codec_context k
         /\ held (Rtsp.frame (state_of o))
            = precedes rtsp_substeps frame_allocation k).
Proof.
  split; [exact rtmp_connect_failure|].
  split; [exact rtmp_symbol_connect_failure | exact rtsp_connect_failure].
Qed.

Lemma connect_failure_returns_without_release_witness :
  (Rtmp.url (Rtmp.set_url (Some "rtmp://host/live"%string) rtmp_idle) <> None
   /\ rtmp_holds_nothing
        (Rtmp.set_url (Some "rtmp://host/live"%string) rtmp_idle) = true
   /\ first_failure (failing avformat_write_header) rtmp_substeps
      = Some header_write)
  /\ result_of (Rtmp.initialize_streaming (failing avformat_write_header)
                  (Rtmp.set_url (Some "rtmp://host/live"%string) rtmp_idle))
     = Return (-1)
  /\ no_release
       (trace_of (Rtmp.initialize_streaming (failing avformat_write_header)
                    (Rtmp.set_url (Some "rtmp://host/live"%string) rtmp_idle)))
     = true.
Proof.
  assert (H1 : Rtmp.url (Rtmp.set_url (Some "rtmp://host/live"%string)
                           rtmp_idle) <> None) by discriminate.
  assert (H2 : rtmp_holds_nothing
                 (Rtmp.set_url (Some "rtmp://host/live"%string) rtmp_idle)
               = true) by reflexivity.
  assert (H3 : first_failure (failing avformat_write_header) rtmp_substeps
               = Some header_write) by reflexivity.
  split; [repeat split; assumption|].
  destruct (proj1 connect_failure_returns_without_release
              (failing avformat_write_header)
              (Rtmp.set_url (Some "rtmp://host/live"%string) rtmp_idle)
              header_write H1 H2 H3) as (Hres & _ & Hrel & _).
  split; assumption.
Defined.

(** ** C7: teardown *)




(** ** C9: endpoint validation *)

Lemma uchar_inj c d : uchar c = uchar d -> c = d.
Proof.
  unfold uchar. intros H. apply N2Z.inj in H.
  rewrite <- (ascii_N_embedding c), <- (ascii_N_embedding d). now f_equal.
Qed.

Lemma strncmp_prefix b :
  nul_free b = true ->
  forall a, (strncmp a b (String.length b) =? 0) = String.prefix b a.
Proof.
  induction b as [|d b IH]; intros Hb a; [now destruct a|].
  cbn [nul_free] in Hb. apply andb_prop in Hb as [Hd Hb].
  apply negb_true_iff, Z.eqb_neq in Hd.
  destruct a as [|c a]; cbn [String.length strncmp String.prefix].
  - apply Z.eqb_neq. lia.
  - destruct (Ascii.eqb_spec c d) as [->|Hcd].
    + destruct (ascii_dec d d); [|congruence]. now apply IH.
    + destruct (ascii_dec d c); [congruence|].
      apply Z.eqb_neq. intros H. apply Hcd, uchar_inj. lia.
Qed.

Lemma is_valid_rtmp_url_prefix url :
  Rtmp.is_valid_rtmp_url url = String.prefix "rtmp://" url.
Proof. now apply (strncmp_prefix "rtmp://"). Qed.

(** C9.  The constructor of the push variant validates the string (non-empty
    and beginning with "rtmp://") and never connects; the symbol handler
    treats an empty string as a no-op with one informational line.  But the
    handler does not call [is_valid_rtmp_url]: on the non-empty string
    "http://example.com/live", which fails the validation, it runs the
    connect sequence, and with a library that succeeds the session ends
    Streaming. *)
Theorem symbol_handler_skips_validation :
  (forall url, Rtmp.is_valid_rtmp_url url = String.prefix "rtmp://" url)
  /\ (forall s,
         let o := Rtmp.rtmpstreamer_tilde_new s Rtmp.fresh in
         Rtmp.streaming_active (state_of o) = 0
         /\ rtmp_holds_nothing (state_of o) = true
         /\ no_connect (trace_of o) = true)
  /\ (forall lib x,
         Rtmp.streaming_active x = 0 ->
         Rtmp.rtmpstreamer_tilde_symbol lib (Some ""%string) x
         = (Next tt, Rtmp.set_url (Some ""%string) x,
            [post "[rtmpstreamer~] Invalid or empty URL. Non-streaming mode."]))
  /\ (Rtmp.is_valid_rtmp_url "http://example.com/live" = false
      /\ Rtmp.streaming_active rtmp_idle = 0
      /\ no_connect
           (trace_of (Rtmp.rtmpstreamer_tilde_symbol all_succeed
                        (Some "http://example.com/live"%string) rtmp_idle))
         = false
      /\ Rtmp.streaming_active
           (state_of (Rtmp.rtmpstreamer_tilde_symbol all_succeed
                        (Some "http://example.com/live"%string) rtmp_idle))
         = 1
      /\ rtmp_holds_session
           (state_of (Rtmp.rtmpstreamer_tilde_symbol all_succeed
                        (Some "http://example.com/live"%string) rtmp_idle))
         = true).
Proof.
  split; [exact is_valid_rtmp_url_prefix|].
  split.
  { intros s o. subst o.
    destruct (rtmp_new_state s) as (H1 & _ & H3 & _ & H5). auto. }
  split.
  { intros lib x Hact. now apply rtmp_symbol_empty. }
  vm_compute. repeat split.
Qed.

Lemma symbol_handler_skips_validation_witness :
  Rtmp.streaming_active rtmp_idle = 0
  /\ trace_of (Rtmp.rtmpstreamer_tilde_symbol all_succeed (Some ""%string)
                 rtmp_idle)
     = [post "[rtmpstreamer~] Invalid or empty URL. Non-streaming mode."].
Proof.
  split; [reflexivity|].
  rewrite (proj1 (proj2 (proj2 symbol_handler_skips_validation))
             all_succeed rtmp_idle eq_refl).
  reflexivity.
Defined.

(** ** C5: the presentation clock *)

Lemma int64_wrap_id z : in_int64 z -> int64_wrap z = z.
Proof.
  unfold in_int64, int64_wrap. intros H.
  rewrite Z.mod_small by lia. lia.
Qed.

Lemma int64_wrap_range z : in_int64 (int64_wrap z).
Proof.
  unfold in_int64, int64_wrap.
  pose proof (Z.mod_pos_bound (z + 2 ^ 63) (2 ^ 64) ltac:(lia)). lia.
Qed.

Lemma int64_wrap_add a b : int64_wrap (int64_wrap a + b) = int64_wrap (a + b).
Proof.
  unfold int64_wrap. f_equal.
  replace ((a + 2 ^ 63) mod 2 ^ 64 - 2 ^ 63 + b + 2 ^ 63)
    with ((a + 2 ^ 63) mod 2 ^ 64 + b) by lia.
  rewrite Zplus_mod_idemp_l. f_equal. lia.
Qed.

Lemma rtmp_symbol_idle_clock lib s x :
  Rtmp.streaming_active x = 0 ->
  Rtmp.pts (state_of (Rtmp.rtmpstreamer_tilde_symbol lib s x)) = Rtmp.pts x.
Proof.
  intros Hact.
  assert (Hcase : (exists name, s = Some name /\ 0 < strlen name)
                  \/ match s with
                     | Some name => strlen name = 0
                     | None => True
                     end).
  { destruct s as [name|]; [|now right].
    unfold strlen. destruct name; cbn; [now right|].
    left. eexists. split; [reflexivity|]. cbn. lia. }
  destruct Hcase as [(name & -> & Hlen)|Hempty].
  - rewrite rtmp_symbol_idle by assumption. cbn zeta.
    destruct (rtmp_connect_result lib (Rtmp.set_url (Some name) x))
      as (Hres & _ & _ & Hpts & _); [discriminate|].
    unfold result_of, state_of, trace_of in *.
    destruct Hres as [Hres|Hres]; rewrite Hres; cbn [Z.eqb fst snd];
      cbn [Rtmp.pts Rtmp.set_streaming_active]; exact Hpts.
  - rewrite rtmp_symbol_empty by assumption. reflexivity.
Qed.

Lemma rtmp_symbol_clock lib s x :
  Rtmp.pts (state_of (Rtmp.rtmpstreamer_tilde_symbol lib s x)) = Rtmp.pts x.
Proof.
  destruct (Z.eq_dec (Rtmp.streaming_active x) 0) as [Hact|Hact].
  - now apply rtmp_symbol_idle_clock.
  - rewrite rtmp_symbol_streaming by assumption. cbn [state_of fst snd].
    now rewrite rtmp_symbol_idle_clock.
Qed.

Lemma rtmp_stamps_sum EAGAIN blocks :
  forall x fr k,
    Rtmp.streaming_active x <> 0 ->
    Rtmp.frame x = Some fr ->
    Forall (fits fr) blocks ->
    in_int64 (Rtmp.pts x) ->
    (k < List.length blocks)%nat ->
    nth_error (rtmp_stamps EAGAIN blocks x) k
    = Some (Some (int64_wrap (Rtmp.pts x + total_length (firstn k blocks)))).
Proof.
  induction blocks as [|[enc input] rest IH]; intros x fr k Hact Hfr Hfit Hpts Hk;
    [cbn in Hk; lia|].
  inversion Hfit as [|? ? Hb Hrest]; subst. unfold fits in Hb. cbn [snd] in Hb.
  pose proof (fill_from_fits _ input (AV.data fr) _
                (Forall2_map_Some F32.clamp input) Hb) as Hfill.
  cbn [rtmp_stamps fst snd].
  rewrite (rtmp_perform_streaming _ _ _ _ _ _ Hact Hfr Hfill). cbn zeta.
  set (samples := map F32.clamp input ++ skipn (List.length input) (AV.data fr))
    in *.
  set (x1 := rtmp_assembled x input samples).
  assert (Hx1 : state_of
                  (if send_frame enc <? 0
                   then (Return tt, x1,
                         [Call avcodec_send_frame;
                          pd_error "[rtmpstreamer~] Error sending frame to codec"])
                   else
                     (result_of
                        (receive_packets EAGAIN Rtmp.t_rtmpstreamer_tilde unit
                           Rtmp.audio_st
                           "[rtmpstreamer~] Error encoding audio frame"
                           "[rtmpstreamer~] Error while writing audio frame"
                           (packets enc) x1), x1,
                      Call avcodec_send_frame
                        :: trace_of
                             (receive_packets EAGAIN Rtmp.t_rtmpstreamer_tilde
                                unit Rtmp.audio_st
                                "[rtmpstreamer~] Error encoding audio frame"
                                "[rtmpstreamer~] Error while writing audio frame"
                                (packets enc) x1))) = x1)
    by (destruct (send_frame enc <? 0); reflexivity).
  rewrite Hx1. clear Hx1.
  destruct k as [|k].
  - cbn [nth_error firstn total_length fold_right].
    cbn. rewrite Z.add_0_r, int64_wrap_id by assumption. reflexivity.
  - cbn [nth_error].
    rewrite (IH x1 (AV.Build_AVFrame (Z.of_nat (List.length input))
                      (Rtmp.pts x) samples) k); trivial.
    + cbn [firstn total_length fold_right snd].
      fold (total_length (firstn k rest)).
      cbn [x1 rtmp_assembled Rtmp.pts Rtmp.set_pts].
      rewrite int64_wrap_add. do 3 f_equal. lia.
    + apply fill_from_length in Hfill. fold samples in Hfill.
      revert Hrest. apply Forall_impl. intros b. unfold fits.
      cbn [AV.data]. now rewrite Hfill.
    + apply int64_wrap_range.
    + cbn in Hk. lia.
Qed.

Lemma convertible_values input :
  Forall (fun s => Rtsp.convert s <> None) input ->
  exists samples, Forall2 (fun s v => Rtsp.convert s = Some v) input samples.
Proof.
  induction 1 as [|s input Hs _ [samples IH]].
  - exists []. constructor.
  - destruct (Rtsp.convert s) as [v|] eqn:E; [|congruence].
    exists (v :: samples). now constructor.
Qed.

Lemma rtsp_stamps_sum EAGAIN blocks :
  forall x fr k,
    Rtsp.frame x = Some fr ->
    Forall (fits fr) blocks ->
    Forall (fun b => Forall (fun s => Rtsp.convert s <> None) (snd b)) blocks ->
    in_int64 (Rtsp.pts x) ->
    (k < List.length blocks)%nat ->
    nth_error (rtsp_stamps EAGAIN blocks x) k
    = Some (Some (int64_wrap (Rtsp.pts x + total_length (firstn k blocks)))).
Proof.
  induction blocks as [|[enc input] rest IH];
    intros x fr k Hfr Hfit Hconv Hpts Hk; [cbn in Hk; lia|].
  inversion Hfit as [|? ? Hb Hrest]; subst. unfold fits in Hb. cbn [snd] in Hb.
  inversion Hconv as [|? ? Hc Hcrest]; subst. cbn [snd] in Hc.
  destruct (convertible_values input Hc) as [vals Hvals].
  pose proof (fill_from_fits _ input (AV.data fr) _ Hvals Hb) as Hfill.
  cbn [rtsp_stamps fst snd].
  rewrite (rtsp_perform_streaming _ _ _ _ _ _ Hfr Hfill). cbn zeta.
  set (samples := vals ++ skipn (List.length input) (AV.data fr)) in *.
  set (x1 := rtsp_assembled x input samples).
  match goal with
  | |- context [state_of ?o] =>
      assert (Hx1 : state_of o = x1)
        by (destruct (send_frame enc <? 0); reflexivity);
      rewrite Hx1; clear Hx1
  end.
  destruct k as [|k].
  - cbn [nth_error firstn total_length fold_right].
    cbn. rewrite Z.add_0_r, int64_wrap_id by assumption. reflexivity.
  - cbn [nth_error].
    rewrite (IH x1 (AV.Build_AVFrame (Z.of_nat (List.length input))
                      (Rtsp.pts x) samples) k); trivial.
    + cbn [firstn total_length fold_right snd].
      fold (total_length (firstn k rest)).
      cbn [x1 rtsp_assembled Rtsp.pts Rtsp.set_pts].
      rewrite int64_wrap_add. do 3 f_equal. lia.
    + apply fill_from_length in Hfill. fold samples in Hfill.
      revert Hrest. apply Forall_impl. intros b. unfold fits.
      cbn [AV.data]. now rewrite Hfill.
    + apply int64_wrap_range.
    + cbn in Hk. lia.
Qed.

(** C5 (as stated, refuted).  A push session streams three samples, is then
    pointed at another endpoint and connects: after this second transition
    to Streaming the clock stands at 3, and the first frame of the new
    session is stamped 3. *)
Lemma reconnect_keeps_the_clock :
  Rtmp.streaming_active rtmp_reconnected = 1
  /\ Rtmp.pts rtmp_reconnected = 3
  /\ rtmp_stamps 11 [(quiet, [half; half])] rtmp_reconnected = [Some 3].
Proof. vm_compute. repeat split. Qed.

(** C5 (amended).  The presentation clock is set to 0 when the object is
    created, and by nothing else: the symbol handler (teardown and connect)
    leaves it as it was, so a push session that reconnects continues from the
    value its clock had.  For every sequence of consecutive blocks processed
    while Streaming, the frame assembled for the k-th block is stamped with
    the clock value at the start of the sequence plus the lengths of the
    blocks before it (in 64-bit arithmetic, which is exact while the sum stays
    in range); with the clock at 0, as in every session-based object and in
    the first session of a push object, this is [n_1 + ... + n_(k-1)]. *)
Theorem clock_counts_streamed_samples :
  (forall s,
      Rtmp.pts (state_of (Rtmp.rtmpstreamer_tilde_new s Rtmp.fresh)) = 0)
  /\ (forall lib name x0,
         result_of (Rtsp.rtspstreamer_tilde_new lib (Some name) x0)
         = Return true ->
         Rtsp.pts (state_of (Rtsp.rtspstreamer_tilde_new lib (Some name) x0))
         = 0)
  /\ (forall lib s x,
         Rtmp.pts (state_of (Rtmp.rtmpstreamer_tilde_symbol lib s x))
         = Rtmp.pts x)
  /\ (forall EAGAIN blocks x fr k,
         Rtmp.streaming_active x <> 0 ->
         Rtmp.frame x = Some fr ->
         Forall (fits fr) blocks ->
         in_int64 (Rtmp.pts x) ->
         (k < List.length blocks)%nat ->
         nth_error (rtmp_stamps EAGAIN blocks x) k
         = Some (Some (int64_wrap
                         (Rtmp.pts x + total_length (firstn k blocks)))))
  /\ (forall EAGAIN blocks x fr k,
         Rtsp.frame x = Some fr ->
         Forall (fits fr) blocks ->
         Forall (fun b => Forall (fun s => Rtsp.convert s <> None) (snd b))
           blocks ->
         in_int64 (Rtsp.pts x) ->
         (k < List.length blocks)%nat ->
         nth_error (rtsp_stamps EAGAIN blocks x) k
         = Some (Some (int64_wrap
                         (Rtsp.pts x + total_length (firstn k blocks)))))
  /\ (forall z, in_int64 z -> int64_wrap z = z).
Proof.
  split; [intros s; now destruct (rtmp_new_state s) as (_ & H & _)|].
  split.
  { intros lib name x0 Hres.
    destruct (first_failure lib rtsp_substeps) as [k|] eqn:Hk.
    - destruct (rtsp_connect_failure lib name x0 k Hk) as [H _].
      rewrite Hres in H. discriminate.
    - now destruct (rtsp_connect_success lib name x0 Hk) as (_ & _ & _ & H). }
  split; [exact rtmp_symbol_clock|].
  split; [exact rtmp_stamps_sum|].
  split; [exact rtsp_stamps_sum | exact int64_wrap_id].
Qed.

Lemma clock_counts_streamed_samples_witness :
  (Rtmp.streaming_active rtmp_streaming <> 0
   /\ Rtmp.frame rtmp_streaming
      = Some (AV.Build_AVFrame 4 AV_NOPTS_VALUE (repeat (S754_zero false) 4))
   /\ in_int64 (Rtmp.pts rtmp_streaming))
  /\ nth_error
       (rtmp_stamps 11
          [(quiet, [half; two; half]); (lossy, [half]); (quiet, [two; two])]
          rtmp_streaming) 2
     = Some (Some 4).
Proof.
  assert (H1 : Rtmp.streaming_active rtmp_streaming <> 0) by discriminate.
  assert (H2 : Rtmp.frame rtmp_streaming
               = Some (AV.Build_AVFrame 4 AV_NOPTS_VALUE
                         (repeat (S754_zero false) 4))) by reflexivity.
  assert (H3 : in_int64 (Rtmp.pts rtmp_streaming))
    by (vm_compute; split; [discriminate | reflexivity]).
  split; [repeat split; trivial; apply H3|].
  rewrite (proj1 (proj2 (proj2 (proj2 clock_counts_streamed_samples)))
             11 _ rtmp_streaming _ 2%nat H1 H2).
  - reflexivity.
  - repeat constructor.
  - exact H3.
  - simpl. lia.
Defined.

(** ** binary32 rounding *)

Lemma iter_pos_nat {A} (f : A -> A) p x :
  iter_pos f p x = Nat.iter (Pos.to_nat p) f x.
Proof.
  revert x. induction p as [p IH|p IH|]; intros x; cbn [iter_pos].
  - rewrite !IH, Pos2Nat.inj_xI. cbn [Nat.iter].
    rewrite <- Nat.iter_add, Nat.iter_succ_r.
    f_equal. lia.
  - rewrite !IH, Pos2Nat.inj_xO, <- Nat.iter_add. f_equal. lia.
  - reflexivity.
Qed.

Lemma shifted_start M : 0 <= M -> shifted M 1 (Build_shr_record M false false).
Proof. unfold shifted. cbn [shr_m shr_r shr_s]. lia. Qed.

Lemma shifted_step M P mrs :
  0 < P -> shifted M P mrs -> shifted M (2 * P) (shr_1 mrs).
Proof.
  intros HP. destruct mrs as [m r s]. unfold shifted. cbn [shr_m shr_r shr_s].
  intros (Hm & Hrem & Hr & Hs).
  destruct m as [|p|p]; [| |lia].
  - cbn [shr_1 shr_m shr_r shr_s]. destruct r, s; cbn [orb]; lia.
  - destruct p as [p|p|]; cbn [shr_1 shr_m shr_r shr_s].
    + rewrite Pos2Z.inj_xI in *. destruct r, s; cbn [orb]; nia.
    + rewrite Pos2Z.inj_xO in *. destruct r, s; cbn [orb]; nia.
    + destruct r, s; cbn [orb]; nia.
Qed.

Lemma shifted_iter M n :
  0 <= M ->
  shifted M (2 ^ Z.of_nat n)
    (Nat.iter n shr_1 (Build_shr_record M false false)).
Proof.
  intros HM. induction n as [|n IH].
  - now apply shifted_start.
  - cbn [Nat.iter]. rewrite Nat2Z.inj_succ, Z.pow_succ_r by lia.
    apply shifted_step; [lia | exact IH].
Qed.

Lemma shifted_rne M P mrs :
  0 < P -> shifted M P mrs ->
  round_nearest_even (shr_m mrs) (loc_of_shr_record mrs) = rne M P.
Proof.
  intros HP. destruct mrs as [m r s]. unfold shifted, rne.
  cbn [shr_m shr_r shr_s]. intros (Hm & Hrem & Hr & Hs).
  assert (Hdiv : M / P = m) by (symmetry; apply (Z.div_unique M P m (M - m * P)); lia).
  assert (Hmod : M mod P = M - m * P)
    by (symmetry; apply (Z.mod_unique M P m (M - m * P)); lia).
  rewrite Hdiv, Hmod. cbv zeta.
  destruct r, s; cbn [loc_of_shr_record round_nearest_even].
  - destruct (Z.ltb_spec (2 * (M - m * P)) P); [lia|].
    destruct (Z.ltb_spec P (2 * (M - m * P))); [reflexivity|lia].
  - destruct (Z.ltb_spec (2 * (M - m * P)) P); [lia|].
    destruct (Z.ltb_spec P (2 * (M - m * P))); [lia|reflexivity].
  - destruct (Z.ltb_spec (2 * (M - m * P)) P); [reflexivity|lia].
  - destruct (Z.ltb_spec (2 * (M - m * P)) P); [reflexivity|lia].
Qed.

(** A right shift by [k > 0] bits followed by the rounding step. *)
Lemma shr_round M k :
  0 <= M -> 0 < k ->
  let mrs := fst (shr (Build_shr_record M false false) 0 k) in
  round_nearest_even (shr_m mrs) (loc_of_shr_record mrs) = rne M (2 ^ k).
Proof.
  intros HM Hk. destruct k as [|p|p]; try lia. cbn [shr fst].
  rewrite iter_pos_nat. apply shifted_rne; [lia|].
  replace (2 ^ Z.pos p) with (2 ^ Z.of_nat (Pos.to_nat p))
    by (now rewrite positive_nat_Z).
  now apply shifted_iter.
Qed.

Lemma rne_bounds a b : 0 < b -> a / b <= rne a b <= a / b + 1.
Proof.
  intros Hb. unfold rne.
  destruct (2 * (a mod b) <? b); [lia|].
  destruct (b <? 2 * (a mod b)); [lia|].
  destruct (Z.even (a / b)); lia.
Qed.

Lemma rne_mono a a' b : 0 < b -> a <= a' -> rne a b <= rne a' b.
Proof.
  intros Hb Ha.
  assert (Hq : a / b <= a' / b) by (apply Z.div_le_mono; lia).
  destruct (Z.eq_dec (a / b) (a' / b)) as [Heq|Hne].
  - assert (Hr : a mod b <= a' mod b).
    { rewrite (Z.mod_eq a b), (Z.mod_eq a' b), Heq by lia. lia. }
    unfold rne. rewrite Heq.
    destruct (Z.ltb_spec (2 * (a mod b)) b);
      destruct (Z.ltb_spec (2 * (a' mod b)) b); try lia;
      destruct (Z.ltb_spec b (2 * (a mod b)));
      destruct (Z.ltb_spec b (2 * (a' mod b))); try lia;
      destruct (Z.even (a' / b)); lia.
  - pose proof (rne_bounds a b Hb). pose proof (rne_bounds a' b Hb). lia.
Qed.

Lemma rne_scale a b c : 0 < b -> 0 < c -> rne (a * c) (b * c) = rne a b.
Proof.
  intros Hb Hc. unfold rne.
  rewrite Z.div_mul_cancel_r, Zmult_mod_distr_r by lia.
  destruct (Z.ltb_spec (2 * (a mod b * c)) (b * c));
    destruct (Z.ltb_spec (2 * (a mod b)) b); trivial; try nia.
  destruct (Z.ltb_spec (b * c) (2 * (a mod b * c)));
    destruct (Z.ltb_spec b (2 * (a mod b))); trivial; nia.
Qed.

Lemma rne_below a b n : 0 < b -> a < n * b -> rne a b <= n.
Proof.
  intros Hb Ha. pose proof (rne_bounds a b Hb).
  assert (a / b < n) by (apply Z.div_lt_upper_bound; lia). lia.
Qed.

Lemma rne_above a b n : 0 < b -> n * b <= a -> n <= rne a b.
Proof.
  intros Hb Ha. pose proof (rne_bounds a b Hb).
  assert (n <= a / b) by (apply Z.div_le_lower_bound; lia). lia.
Qed.

Lemma digits2_pos_bounds m :
  2 ^ (Zpos (digits2_pos m) - 1) <= Zpos m < 2 ^ Zpos (digits2_pos m).
Proof.
  induction m as [m [H1 H2]|m [H1 H2]|]; cbn [digits2_pos].
  - rewrite Pos2Z.inj_succ, Pos2Z.inj_xI.
    replace (Z.succ (Zpos (digits2_pos m)) - 1)
      with (Z.succ (Zpos (digits2_pos m) - 1)) by lia.
    rewrite !Z.pow_succ_r by lia.
    generalize dependent (2 ^ (Zpos (digits2_pos m) - 1)).
    generalize dependent (2 ^ Zpos (digits2_pos m)). intros a H2 b H1. lia.
  - rewrite Pos2Z.inj_succ. change (Z.pos m~0) with (2 * Z.pos m).
    replace (Z.succ (Zpos (digits2_pos m)) - 1)
      with (Z.succ (Zpos (digits2_pos m) - 1)) by lia.
    rewrite !Z.pow_succ_r by lia.
    generalize dependent (2 ^ (Zpos (digits2_pos m) - 1)).
    generalize dependent (2 ^ Zpos (digits2_pos m)). intros a H2 b H1. lia.
  - cbn. lia.
Qed.

(** What [binary_round_aux] yields at binary32 for an exact positive product
    that has to be shifted right ([t] is the exponent it is brought to). *)
Lemma round_aux_shape sx M E :
  let t := Z.max (Zpos (digits2_pos M) + E - 24) (-149) in
  let q := rne (Zpos M) (2 ^ (t - E)) in
  0 < t - E -> t < 104 ->
  0 <= q <= 2 ^ 24
  /\ binary_round_aux F32.prec F32.emax sx (Zpos M) E loc_Exact
     = if q =? 0 then S754_zero sx
       else if q =? 2 ^ 24 then S754_finite sx 8388608 (t + 1)
       else S754_finite sx (Z.to_pos q) t.
Proof.
  intros t q Hk Ht.
  pose proof (digits2_pos_bounds M) as [HD1 HD2].
  assert (Hq : 0 <= q <= 2 ^ 24).
  { subst q. split.
    - apply rne_above; [lia|]. lia.
    - apply rne_below; [lia|].
      rewrite <- Z.pow_add_r by lia.
      assert (2 ^ Zpos (digits2_pos M) <= 2 ^ (24 + (t - E)))
        by (apply Z.pow_le_mono_r; lia).
      lia. }
  split; [exact Hq|].
  unfold binary_round_aux, shr_fexp, fexp, emin, F32.prec, F32.emax.
  cbn [Zdigits2 shr_record_of_loc].
  change (3 - 128 - 24) with (-149). fold t.
  pose proof (shr_round (Zpos M) (t - E) ltac:(lia) Hk) as Hround.
  cbv zeta in Hround. fold q in Hround.
  destruct (t - E) as [|p|p] eqn:Hp; try lia.
  cbn [shr fst] in Hround |- *.
  rewrite Hround. clear Hround.
  replace (E + Zpos p) with t by lia.
  destruct (Z.eqb_spec q 0) as [->|Hq0].
  { cbn [Zdigits2 Z.add]. 
    assert (Hn : Z.max (t - 24) (-149) - t <= 0) by lia.
    change (0 + t) with t.
    destruct (Z.max (t - 24) (-149) - t); try lia; reflexivity. }
  destruct (Z.eqb_spec q (2 ^ 24)) as [->|Hq24].
  { change (2 ^ 24) with 16777216. cbn [Zdigits2 digits2_pos Pos.succ].
    replace (Z.max (25 + t - 24) (-149) - t) with 1 by lia.
    cbn [shr iter_pos shr_1 shr_m].
    replace (t + 1 <=? 128 - 24) with true by lia. reflexivity. }
  destruct q as [|pq|pq] eqn:Eq; try lia.
  cbn [Zdigits2 Z.to_pos].
  assert (Hd : Zpos (digits2_pos pq) <= 24).
  { pose proof (digits2_pos_bounds pq) as [Hlo _].
    destruct (Z.leb_spec (Zpos (digits2_pos pq)) 24); trivial.
    assert (2 ^ 24 <= 2 ^ (Zpos (digits2_pos pq) - 1))
      by (apply Z.pow_le_mono_r; lia).
    lia. }
  assert (Hn : Z.max (Zpos (digits2_pos pq) + t - 24) (-149) - t <= 0) by lia.
  destruct (Z.max (Zpos (digits2_pos pq) + t - 24) (-149) - t); try lia;
    cbn [shr shr_m]; replace (t <=? 128 - 24) with true by lia; reflexivity.
Qed.

Lemma pow2_le a b : a <= b -> 0 <= a -> 2 ^ a <= 2 ^ b.
Proof. intros. apply Z.pow_le_mono_r; lia. Qed.

(** Rounding is monotone: of two exact positive products, the greater one
    rounds to the greater value ([L] makes every exponent non-negative). *)
Lemma rounded_mono M1 E1 M2 E2 L :
  let t1 := Z.max (Zpos (digits2_pos M1) + E1 - 24) (-149) in
  let t2 := Z.max (Zpos (digits2_pos M2) + E2 - 24) (-149) in
  0 < t1 - E1 -> 0 < t2 - E2 ->
  - L <= E1 -> - L <= E2 ->
  Zpos M1 * 2 ^ (E1 + L) <= Zpos M2 * 2 ^ (E2 + L) ->
  rne (Zpos M1) (2 ^ (t1 - E1)) * 2 ^ (t1 + 149)
  <= rne (Zpos M2) (2 ^ (t2 - E2)) * 2 ^ (t2 + 149).
Proof.
  intros t1 t2 Hk1 Hk2 HL1 HL2 Hv.
  pose proof (digits2_pos_bounds M1) as [HD1 HD1'].
  pose proof (digits2_pos_bounds M2) as [HD2 HD2'].
  set (D1 := Zpos (digits2_pos M1)) in *.
  set (D2 := Zpos (digits2_pos M2)) in *.
  assert (HD1p : 0 < D1) by (unfold D1; lia).
  assert (HD2p : 0 < D2) by (unfold D2; lia).
  assert (Ht1 : t1 = Z.max (D1 + E1 - 24) (-149)) by reflexivity.
  assert (Ht2 : t2 = Z.max (D2 + E2 - 24) (-149)) by reflexivity.
  clearbody t1 t2 D1 D2.
  (* the value bounds given by the numbers of digits *)
  assert (Hv1lo : 2 ^ (D1 - 1 + E1 + L) <= Zpos M1 * 2 ^ (E1 + L)).
  { replace (D1 - 1 + E1 + L) with ((D1 - 1) + (E1 + L)) by lia.
    rewrite (Z.pow_add_r 2 (D1 - 1) (E1 + L)) by lia.
    apply Z.mul_le_mono_nonneg_r; [apply Z.pow_nonneg; lia | exact HD1]. }
  assert (Hv2hi : Zpos M2 * 2 ^ (E2 + L) < 2 ^ (D2 + E2 + L)).
  { replace (D2 + E2 + L) with (D2 + (E2 + L)) by lia.
    rewrite (Z.pow_add_r 2 D2 (E2 + L)) by lia.
    apply Z.mul_lt_mono_pos_r; [apply Z.pow_pos_nonneg; lia | exact HD2']. }
  destruct (Z.lt_trichotomy t1 t2) as [Hlt|[Heq|Hgt]].
  - (* the greater product lands on a greater exponent *)
    assert (Hq1 : rne (Zpos M1) (2 ^ (t1 - E1)) <= 2 ^ 24).
    { apply rne_below; [lia|]. rewrite <- Z.pow_add_r by lia.
      assert (2 ^ D1 <= 2 ^ (24 + (t1 - E1))) by (apply pow2_le; lia). lia. }
    assert (Hq2 : 2 ^ 23 <= rne (Zpos M2) (2 ^ (t2 - E2))).
    { apply rne_above; [lia|]. rewrite <- Z.pow_add_r by lia.
      replace (23 + (t2 - E2)) with (D2 - 1) by lia. exact HD2. }
    assert (Hstep : 2 ^ 24 * 2 ^ (t1 + 149) <= 2 ^ 23 * 2 ^ (t2 + 149)).
    { rewrite <- !Z.pow_add_r by lia. apply pow2_le; lia. }
    assert (0 < 2 ^ (t1 + 149)) by lia.
    assert (0 < 2 ^ (t2 + 149)) by lia.
    nia.
  - (* same exponent: both are roundings to the same grid *)
    assert (Hs1 : rne (Zpos M1) (2 ^ (t1 - E1))
                  = rne (Zpos M1 * 2 ^ (E1 + L)) (2 ^ (t1 + L))).
    { replace (t1 + L) with ((t1 - E1) + (E1 + L)) by lia.
      rewrite (Z.pow_add_r 2 (t1 - E1) (E1 + L)) by lia.
      symmetry. apply rne_scale; lia. }
    assert (Hs2 : rne (Zpos M2) (2 ^ (t2 - E2))
                  = rne (Zpos M2 * 2 ^ (E2 + L)) (2 ^ (t2 + L))).
    { replace (t2 + L) with ((t2 - E2) + (E2 + L)) by lia.
      rewrite (Z.pow_add_r 2 (t2 - E2) (E2 + L)) by lia.
      symmetry. apply rne_scale; lia. }
    rewrite Hs1, Hs2, Heq.
    apply Z.mul_le_mono_nonneg_r; [lia|].
    apply rne_mono; [lia | exact Hv].
  - (* impossible: the smaller product would have more digits *)
    exfalso.
    assert (2 ^ (D2 + E2 + L) <= 2 ^ (D1 - 1 + E1 + L))
      by (apply pow2_le; lia).
    lia.
Qed.

(** ** binary32 samples as exact values *)

Lemma bounded_spec m e :
  bounded F32.prec F32.emax m e = true ->
  Zpos (digits2_pos m) <= 24
  /\ -149 <= e <= 104
  /\ (Zpos (digits2_pos m) = 24 \/ e = -149).
Proof.
  unfold bounded, canonical_mantissa, fexp, emin, F32.prec, F32.emax.
  change (3 - 128 - 24) with (-149). change (128 - 24) with 104.
  intros H. apply andb_prop in H as [H1 H2].
  apply Z.eqb_eq in H1. apply Z.leb_le in H2. lia.
Qed.

Lemma shiftl_scaled m e :
  0 <= m -> -149 <= e ->
  Z.shiftl m e = m * 2 ^ (e + 149) / 2 ^ 149.
Proof.
  intros Hm He. destruct (Z.leb_spec 0 e).
  - rewrite Z.shiftl_mul_pow2 by lia.
    rewrite (Z.pow_add_r 2 e 149) by lia.
    rewrite Z.mul_assoc, Z.div_mul by lia. reflexivity.
  - rewrite Z.shiftl_div_pow2 by lia.
    replace 149 with ((e + 149) + - e) at 2 by lia.
    rewrite (Z.pow_add_r 2 (e + 149) (- e)) by lia.
    rewrite (Z.mul_comm (2 ^ (e + 149)) (2 ^ (- e))).
    rewrite Z.div_mul_cancel_r by lia. reflexivity.
Qed.

(** On canonical mantissas the lexicographic order on (exponent, mantissa)
    is the order of the values. *)
Lemma compare_canonical m1 e1 m2 e2 :
  bounded F32.prec F32.emax m1 e1 = true ->
  bounded F32.prec F32.emax m2 e2 = true ->
  match e1 ?= e2 with
  | Lt => Lt
  | Gt => Gt
  | Eq => Pos.compare_cont Eq m1 m2
  end = (Zpos m1 * 2 ^ (e1 + 149) ?= Zpos m2 * 2 ^ (e2 + 149)).
Proof.
  intros H1 H2.
  apply bounded_spec in H1 as (Hd1 & He1 & Hc1).
  apply bounded_spec in H2 as (Hd2 & He2 & Hc2).
  pose proof (digits2_pos_bounds m1) as [Hlo1 Hhi1].
  pose proof (digits2_pos_bounds m2) as [Hlo2 Hhi2].
  assert (Hm1 : Zpos m1 < 2 ^ 24).
  { assert (2 ^ Zpos (digits2_pos m1) <= 2 ^ 24) by (apply pow2_le; lia). lia. }
  assert (Hm2 : Zpos m2 < 2 ^ 24).
  { assert (2 ^ Zpos (digits2_pos m2) <= 2 ^ 24) by (apply pow2_le; lia). lia. }
  symmetry. destruct (Z.compare_spec e1 e2) as [->|Hlt|Hgt].
  - change (Pos.compare_cont Eq m1 m2) with (Zpos m1 ?= Zpos m2).
    assert (0 < 2 ^ (e2 + 149)) by (apply Z.pow_pos_nonneg; lia).
    destruct (Z.compare_spec (Zpos m1) (Zpos m2));
      [apply Z.compare_eq_iff | apply Z.compare_lt_iff
      | apply Z.compare_gt_iff]; nia.
  - apply Z.compare_lt_iff.
    assert (Hn2 : 2 ^ 23 <= Zpos m2).
    { destruct Hc2 as [Hc2|Hc2]; [|lia]. rewrite Hc2 in Hlo2. exact Hlo2. }
    assert (Hp : 2 ^ (e2 + 149) = 2 ^ (e2 - e1) * 2 ^ (e1 + 149)).
    { rewrite <- Z.pow_add_r by lia. f_equal. lia. }
    assert (2 <= 2 ^ (e2 - e1)).
    { change 2 with (2 ^ 1) at 1. apply pow2_le; lia. }
    assert (0 < 2 ^ (e1 + 149)) by (apply Z.pow_pos_nonneg; lia).
    rewrite Hp. nia.
  - apply Z.compare_gt_iff.
    assert (Hn1 : 2 ^ 23 <= Zpos m1).
    { destruct Hc1 as [Hc1|Hc1]; [|lia]. rewrite Hc1 in Hlo1. exact Hlo1. }
    assert (Hp : 2 ^ (e1 + 149) = 2 ^ (e1 - e2) * 2 ^ (e2 + 149)).
    { rewrite <- Z.pow_add_r by lia. f_equal. lia. }
    assert (2 <= 2 ^ (e1 - e2)).
    { change 2 with (2 ^ 1) at 1. apply pow2_le; lia. }
    assert (0 < 2 ^ (e2 + 149)) by (apply Z.pow_pos_nonneg; lia).
    rewrite Hp. nia.
Qed.

Lemma scaled_sign s m e :
  -149 <= e ->
  scaled (S754_finite s m e) <> 0
  /\ (scaled (S754_finite s m e) < 0 <-> s = true).
Proof.
  intros He. assert (0 < 2 ^ (e + 149)) by (apply Z.pow_pos_nonneg; lia).
  destruct s; cbn [scaled cond_Zopp]; split; try nia; split; intros;
    try discriminate; try reflexivity; nia.
Qed.

(** Comparison of valid finite samples is comparison of their values. *)
Lemma compare_scaled x y :
  F32.valid x = true -> F32.valid y = true ->
  finite_or_zero x = true -> finite_or_zero y = true ->
  SFcompare x y = Some (scaled x ?= scaled y).
Proof.
  intros Hx Hy Hfx Hfy.
  destruct x as [sx|sx| |sx mx ex], y as [sy|sy| |sy my ey]; try discriminate;
    cbn [F32.valid valid_binary] in Hx, Hy.
  - reflexivity.
  - pose proof (bounded_spec _ _ Hy) as (_ & He & _).
    pose proof (scaled_sign sy my ey ltac:(lia)) as [Hn Hs].
    cbn [SFcompare]. f_equal. symmetry.
    destruct sy; [apply Z.compare_gt_iff | apply Z.compare_lt_iff];
      change (scaled (S754_zero sx)) with 0;
      [apply Hs; reflexivity|].
    destruct (Z.lt_trichotomy (scaled (S754_finite false my ey)) 0)
      as [H|[H|H]]; trivial; [apply Hs in H; discriminate | contradiction].
  - pose proof (bounded_spec _ _ Hx) as (_ & He & _).
    pose proof (scaled_sign sx mx ex ltac:(lia)) as [Hn Hs].
    cbn [SFcompare]. f_equal. symmetry.
    destruct sx; [apply Z.compare_lt_iff | apply Z.compare_gt_iff];
      change (scaled (S754_zero sy)) with 0;
      [apply Hs; reflexivity|].
    destruct (Z.lt_trichotomy (scaled (S754_finite false mx ex)) 0)
      as [H|[H|H]]; [apply Hs in H; discriminate | contradiction | lia].
  - pose proof (bounded_spec _ _ Hx) as (_ & Hex & _).
    pose proof (bounded_spec _ _ Hy) as (_ & Hey & _).
    assert (0 < 2 ^ (ex + 149)) by (apply Z.pow_pos_nonneg; lia).
    assert (0 < 2 ^ (ey + 149)) by (apply Z.pow_pos_nonneg; lia).
    cbn [SFcompare]. f_equal.
    destruct sx, sy; cbn [scaled cond_Zopp].
    + transitivity (CompOpp match ex ?= ey with
                            | Lt => Lt
                            | Gt => Gt
                            | Eq => Pos.compare_cont Eq mx my
                            end);
        [destruct (ex ?= ey); reflexivity|].
      rewrite (compare_canonical _ _ _ _ Hx Hy).
      rewrite Z.compare_opp, <- Z.compare_antisym. reflexivity.
    + symmetry. apply Z.compare_lt_iff. nia.
    + symmetry. apply Z.compare_gt_iff. nia.
    + rewrite (compare_canonical _ _ _ _ Hx Hy). reflexivity.
Qed.

(** ** The product with 32767.0f *)

Lemma pow2_lt_inv a b : 0 <= b -> 2 ^ a < 2 ^ b -> a < b.
Proof.
  intros Hb H. destruct (Z.ltb_spec a b); trivial.
  assert (2 ^ b <= 2 ^ a) by (apply pow2_le; lia). lia.
Qed.

Lemma product_digits m :
  Zpos (digits2_pos m) + 23 <= Zpos (digits2_pos (m * 16776704))
  <= Zpos (digits2_pos m) + 24.
Proof.
  pose proof (digits2_pos_bounds m) as [Hlo Hhi].
  pose proof (digits2_pos_bounds (m * 16776704)) as [Hlo' Hhi'].
  rewrite Pos2Z.inj_mul in Hlo', Hhi'.
  set (d := Zpos (digits2_pos m)) in *.
  set (D := Zpos (digits2_pos (m * 16776704))) in *.
  assert (0 < d) by (unfold d; lia). assert (0 < D) by (unfold D; lia).
  clearbody d D.
  assert (H1 : 2 ^ (d + 22) <= Zpos m * 16776704).
  { replace (d + 22) with ((d - 1) + 23) by lia.
    rewrite (Z.pow_add_r 2 (d - 1) 23) by lia.
    change (2 ^ 23) with 8388608. nia. }
  assert (H2 : Zpos m * 16776704 < 2 ^ (d + 24)).
  { rewrite (Z.pow_add_r 2 d 24) by lia.
    change (2 ^ 24) with 16777216. nia. }
  assert (d + 22 < D) by (apply pow2_lt_inv; lia).
  assert (D - 1 < d + 24) by (apply pow2_lt_inv; lia).
  lia.
Qed.

Lemma mul_c32767_shape s m e :
  bounded F32.prec F32.emax m e = true -> e <= -23 ->
  let t := Z.max (Zpos (digits2_pos (m * 16776704)) + (e - 9) - 24) (-149) in
  let q := rne (Zpos (m * 16776704)) (2 ^ (t - (e - 9))) in
  (0 <= q <= 2 ^ 24 /\ -149 <= t <= -8 /\ 0 < t - (e - 9))
  /\ F32.mul (S754_finite s m e) F32.c32767
     = if q =? 0 then S754_zero s
       else if q =? 2 ^ 24 then S754_finite s 8388608 (t + 1)
       else S754_finite s (Z.to_pos q) t.
Proof.
  intros Hb He t q.
  apply bounded_spec in Hb as (Hd & Hrange & Hcanon).
  pose proof (product_digits m) as [HD1 HD2].
  assert (Ht : -149 <= t <= -8) by lia.
  assert (Hk : 0 < t - (e - 9)) by lia.
  destruct (round_aux_shape s (m * 16776704) (e - 9) Hk ltac:(lia))
    as [Hq Hshape].
  split; [repeat split; try lia; apply Hq|].
  unfold F32.mul, F32.c32767. cbn [SFmul].
  rewrite xorb_false_r. exact Hshape.
Qed.

Lemma trunc_mul_c32767 s m e :
  bounded F32.prec F32.emax m e = true -> e <= -23 ->
  F32.trunc (F32.mul (S754_finite s m e) F32.c32767)
  = Some (cond_Zopp s (rounded32767 m e / 2 ^ 149)).
Proof.
  intros Hb He.
  destruct (mul_c32767_shape s m e Hb He) as [(Hq & Ht & Hk) Hshape].
  rewrite Hshape. unfold rounded32767. cbv zeta.
  set (t := Z.max (Zpos (digits2_pos (m * 16776704)) + (e - 9) - 24) (-149))
    in *.
  set (q := rne (Zpos (m * 16776704)) (2 ^ (t - (e - 9)))) in *.
  clearbody q t.
  destruct (Z.eqb_spec q 0) as [->|Hq0].
  { cbn [F32.trunc]. rewrite Z.mul_0_l, Z.div_0_l by lia.
    now destruct s. }
  destruct (Z.eqb_spec q (2 ^ 24)) as [->|Hq24].
  { cbn [F32.trunc]. rewrite shiftl_scaled by lia.
    do 3 f_equal.
    replace (t + 1 + 149) with (1 + (t + 149)) by lia.
    rewrite (Z.pow_add_r 2 1 (t + 149)) by lia.
    change (2 ^ 24) with (8388608 * 2 ^ 1). lia. }
  cbn [F32.trunc]. rewrite shiftl_scaled by lia.
  rewrite Z2Pos.id by lia. reflexivity.
Qed.

Lemma rounded32767_nonneg m e : 0 <= rounded32767 m e.
Proof.
  unfold rounded32767. cbv zeta.
  apply Z.mul_nonneg_nonneg; [|apply Z.pow_nonneg; lia].
  pose proof (rne_bounds (Zpos (m * 16776704))
                (2 ^ (Z.max (Zpos (digits2_pos (m * 16776704)) + (e - 9) - 24)
                        (-149) - (e - 9)))) as Hb.
  destruct (Z.ltb_spec
              (Z.max (Zpos (digits2_pos (m * 16776704)) + (e - 9) - 24) (-149)
               - (e - 9)) 0) as [Hneg|Hpos].
  - rewrite Z.pow_neg_r by lia. unfold rne.
    rewrite Z.div_0_r, Z.mod_0_r. cbn. lia.
  - assert (0 < 2 ^ (Z.max (Zpos (digits2_pos (m * 16776704)) + (e - 9) - 24)
                        (-149) - (e - 9)))
      by (apply Z.pow_pos_nonneg; lia).
    specialize (Hb ltac:(lia)).
    assert (0 <= Zpos (m * 16776704)
                 / 2 ^ (Z.max (Zpos (digits2_pos (m * 16776704)) + (e - 9) - 24)
                          (-149) - (e - 9)))
      by (apply Z.div_pos; lia).
    lia.
Qed.

Lemma rounded32767_mono m1 e1 m2 e2 :
  bounded F32.prec F32.emax m1 e1 = true -> e1 <= -23 ->
  bounded F32.prec F32.emax m2 e2 = true -> e2 <= -23 ->
  Zpos m1 * 2 ^ (e1 + 149) <= Zpos m2 * 2 ^ (e2 + 149) ->
  rounded32767 m1 e1 <= rounded32767 m2 e2.
Proof.
  intros Hb1 He1 Hb2 He2 Hv.
  destruct (mul_c32767_shape false m1 e1 Hb1 He1) as [(_ & _ & Hk1) _].
  destruct (mul_c32767_shape false m2 e2 Hb2 He2) as [(_ & _ & Hk2) _].
  apply bounded_spec in Hb1 as (_ & Hr1 & _).
  apply bounded_spec in Hb2 as (_ & Hr2 & _).
  unfold rounded32767. cbv zeta.
  apply (rounded_mono (m1 * 16776704) (e1 - 9) (m2 * 16776704) (e2 - 9) 158);
    try lia.
  rewrite !Pos2Z.inj_mul.
  replace (e1 - 9 + 158) with (e1 + 149) by lia.
  replace (e2 - 9 + 158) with (e2 + 149) by lia.
  nia.
Qed.

Lemma rounded32767_one : rounded32767 8388608 (-23) = 32767 * 2 ^ 149.
Proof. vm_compute. reflexivity. Qed.

(** ** Order and clamping on exact values *)

Lemma scaled_bound x :
  F32.valid x = true -> - 2 ^ 300 < scaled x < 2 ^ 300.
Proof.
  destruct x as [s|s| |s m e]; cbn [scaled]; try lia.
  cbn [F32.valid valid_binary]. intros Hb.
  apply bounded_spec in Hb as (Hd & He & _).
  pose proof (digits2_pos_bounds m) as [_ Hhi].
  assert (Hm : Zpos m < 2 ^ 24).
  { assert (2 ^ Zpos (digits2_pos m) <= 2 ^ 24) by (apply pow2_le; lia). lia. }
  assert (Hp : 2 ^ (e + 149) <= 2 ^ 253) by (apply pow2_le; lia).
  assert (0 < 2 ^ (e + 149)) by (apply Z.pow_pos_nonneg; lia).
  assert (Hprod : Zpos m * 2 ^ (e + 149) < 2 ^ 24 * 2 ^ 253) by nia.
  change (2 ^ 24 * 2 ^ 253) with (2 ^ 277) in Hprod.
  assert (2 ^ 277 <= 2 ^ 300) by (apply pow2_le; lia).
  destruct s; cbn [cond_Zopp]; lia.
Qed.

Ltac solve_compare :=
  match goal with
  | |- (?a ?= ?b) = _ =>
      destruct (Z.compare_spec a b); try reflexivity; lia
  end.

(** Comparison of valid samples, NaN apart, is comparison of their values. *)
Lemma compare_extended x y :
  F32.valid x = true -> F32.valid y = true ->
  is_nan x = false -> is_nan y = false ->
  SFcompare x y = Some (extended x ?= extended y).
Proof.
  intros Hx Hy Hnx Hny.
  pose proof (scaled_bound x Hx) as Hbx.
  pose proof (scaled_bound y Hy) as Hby.
  assert (0 < 2 ^ 300) by (apply Z.pow_pos_nonneg; lia).
  destruct (finite_or_zero x) eqn:Hfx, (finite_or_zero y) eqn:Hfy.
  - rewrite (compare_scaled x y) by assumption.
    destruct x, y; try discriminate; reflexivity.
  - destruct y as [sy|[|]| |sy my ey]; try discriminate;
      destruct x as [sx|sx| |sx mx ex]; try discriminate;
      cbn [SFcompare extended]; f_equal; symmetry; solve_compare.
  - destruct x as [sx|[|]| |sx mx ex]; try discriminate;
      destruct y as [sy|sy| |sy my ey]; try discriminate;
      cbn [SFcompare extended]; f_equal; symmetry; solve_compare.
  - destruct x as [sx|[|]| |sx mx ex]; try discriminate;
      destruct y as [sy|[|]| |sy my ey]; try discriminate;
      cbn [SFcompare extended]; f_equal; symmetry; solve_compare.
Qed.

Lemma ltb_extended x y :
  F32.valid x = true -> F32.valid y = true ->
  is_nan x = false -> is_nan y = false ->
  F32.ltb x y = (extended x <? extended y).
Proof.
  intros. unfold F32.ltb, SFltb. rewrite compare_extended by assumption.
  unfold Z.ltb. now destruct (extended x ?= extended y).
Qed.

Lemma leb_extended x y :
  F32.valid x = true -> F32.valid y = true ->
  is_nan x = false -> is_nan y = false ->
  F32.leb x y = (extended x <=? extended y).
Proof.
  intros. unfold F32.leb, SFleb. rewrite compare_extended by assumption.
  unfold Z.leb. now destruct (extended x ?= extended y).
Qed.

Lemma leb_not_nan x y :
  F32.leb x y = true -> is_nan x = false /\ is_nan y = false.
Proof.
  unfold F32.leb, SFleb.
  destruct x as [sx|sx| |sx mx ex], y as [sy|sy| |sy my ey];
    cbn; intros; try discriminate; auto.
Qed.

(** The three cases of the clamp, on any binary32 datum. *)
Lemma clamp_cases sample :
  (F32.ltb sample F32.minus_one = true -> F32.clamp sample = F32.minus_one)
  /\ (F32.ltb F32.one sample = true -> F32.clamp sample = F32.one)
  /\ (F32.ltb sample F32.minus_one = false ->
      F32.ltb F32.one sample = false -> F32.clamp sample = sample).
Proof.
  unfold F32.clamp. repeat split.
  - intros ->. reflexivity.
  - intros H. destruct (F32.ltb sample F32.minus_one) eqn:Hlow.
    + exfalso. unfold F32.ltb, SFltb, F32.one, F32.minus_one in *.
      destruct sample as [[|]|[|]| |[|] m e];
        cbn [SFcompare] in H, Hlow; discriminate.
    + now rewrite H.
  - intros -> ->. reflexivity.
Qed.

Lemma extended_one : extended F32.one = 2 ^ 149.
Proof. reflexivity. Qed.

Lemma extended_minus_one : extended F32.minus_one = - 2 ^ 149.
Proof. reflexivity. Qed.

(** The clamp on values: a valid sample that is not NaN is taken to the
    nearest value of [-1, 1], which is finite and valid. *)
Lemma clamp_extended x :
  F32.valid x = true -> is_nan x = false ->
  extended (F32.clamp x) = Z.max (- 2 ^ 149) (Z.min (2 ^ 149) (extended x))
  /\ F32.valid (F32.clamp x) = true
  /\ finite_or_zero (F32.clamp x) = true.
Proof.
  intros Hx Hn.
  assert (H1 : F32.valid F32.one = true) by reflexivity.
  assert (H2 : F32.valid F32.minus_one = true) by reflexivity.
  assert (Hpos : 0 < 2 ^ 149) by (apply Z.pow_pos_nonneg; lia).
  assert (Hbig : 2 ^ 149 < 2 ^ 300) by (apply Z.pow_lt_mono_r; lia).
  destruct (clamp_cases x) as (Hlow & Hhigh & Hmid).
  pose proof (ltb_extended x F32.minus_one Hx H2 Hn eq_refl) as Hl.
  pose proof (ltb_extended F32.one x H1 Hx eq_refl Hn) as Hh.
  rewrite extended_minus_one in Hl. rewrite extended_one in Hh.
  destruct (Z.ltb_spec (extended x) (- 2 ^ 149)) as [Hc1|Hc1].
  - rewrite (Hlow Hl), extended_minus_one. repeat split. lia.
  - destruct (Z.ltb_spec (2 ^ 149) (extended x)) as [Hc2|Hc2].
    + rewrite (Hhigh Hh), extended_one. repeat split. lia.
    + rewrite (Hmid Hl Hh). split; [lia|]. split; [exact Hx|].
      destruct x as [s|[|]| |s m e]; try discriminate; try reflexivity;
        cbn [extended] in *; lia.
Qed.

(** ** Conversion of clamped samples to 16 bits *)

Lemma range_exponent m e :
  bounded F32.prec F32.emax m e = true ->
  Zpos m * 2 ^ (e + 149) <= 2 ^ 149 -> e <= -23.
Proof.
  intros Hb Hv. apply bounded_spec in Hb as (Hd & He & Hc).
  destruct (Z.leb_spec e (-23)) as [|Hbig]; trivial. exfalso.
  pose proof (digits2_pos_bounds m) as [Hlo _].
  destruct Hc as [Hc|Hc]; [|lia]. rewrite Hc in Hlo.
  assert (Hp : 2 ^ 127 <= 2 ^ (e + 149)) by (apply pow2_le; lia).
  assert (H150 : 2 ^ (24 - 1) * 2 ^ 127 = 2 * 2 ^ 149) by reflexivity.
  assert (0 < 2 ^ 149) by (apply Z.pow_pos_nonneg; lia).
  nia.
Qed.

Lemma rounded32767_range m e :
  bounded F32.prec F32.emax m e = true ->
  Zpos m * 2 ^ (e + 149) <= 2 ^ 149 ->
  0 <= rounded32767 m e / 2 ^ 149 <= 32767.
Proof.
  intros Hb Hv. pose proof (range_exponent m e Hb Hv) as He.
  assert (Hpos : 0 < 2 ^ 149) by (apply Z.pow_pos_nonneg; lia).
  pose proof (rounded32767_nonneg m e) as Hnn.
  assert (Hle : rounded32767 m e <= 32767 * 2 ^ 149).
  { rewrite <- rounded32767_one.
    apply rounded32767_mono; trivial; try lia; reflexivity. }
  split; [apply Z.div_pos; lia|].
  apply Z.div_le_upper_bound; lia.
Qed.

Lemma convert_clamped c :
  F32.valid c = true -> finite_or_zero c = true ->
  - 2 ^ 149 <= scaled c <= 2 ^ 149 ->
  F32.trunc (F32.mul c F32.c32767) = Some (int16_of c)
  /\ F32.to_int16 (F32.mul c F32.c32767) = Some (int16_of c)
  /\ -32767 <= int16_of c <= 32767.
Proof.
  intros Hv Hf Hr.
  assert (Hpos : 0 < 2 ^ 149) by (apply Z.pow_pos_nonneg; lia).
  destruct c as [s|s| |s m e]; try discriminate.
  - cbn. repeat split; lia.
  - cbn [F32.valid valid_binary] in Hv.
    assert (Hmag : Zpos m * 2 ^ (e + 149) <= 2 ^ 149)
      by (destruct s; cbn [scaled cond_Zopp] in Hr; lia).
    pose proof (range_exponent m e Hv Hmag) as He.
    pose proof (rounded32767_range m e Hv Hmag) as Hz.
    assert (Hi : -32767 <= int16_of (S754_finite s m e) <= 32767)
      by (destruct s; cbn [int16_of cond_Zopp]; lia).
    pose proof (trunc_mul_c32767 s m e Hv He) as Ht.
    split; [exact Ht|]. split; [|exact Hi].
    unfold F32.to_int16. rewrite Ht.
    change (cond_Zopp s (rounded32767 m e / 2 ^ 149))
      with (int16_of (S754_finite s m e)).
    replace (-32768 <=? int16_of (S754_finite s m e)) with true by lia.
    replace (int16_of (S754_finite s m e) <=? 32767) with true by lia.
    reflexivity.
Qed.

Lemma int16_of_mono c1 c2 :
  F32.valid c1 = true -> finite_or_zero c1 = true ->
  F32.valid c2 = true -> finite_or_zero c2 = true ->
  - 2 ^ 149 <= scaled c1 -> scaled c2 <= 2 ^ 149 ->
  scaled c1 <= scaled c2 ->
  int16_of c1 <= int16_of c2.
Proof.
  intros Hv1 Hf1 Hv2 Hf2 Hlo Hhi Hle.
  assert (Hpos : 0 < 2 ^ 149) by (apply Z.pow_pos_nonneg; lia).
  assert (Hfin : forall s m e,
             F32.valid (S754_finite s m e) = true ->
             0 < Zpos m * 2 ^ (e + 149)).
  { intros s m e Hv. cbn [F32.valid valid_binary] in Hv.
    apply bounded_spec in Hv as (_ & He & _).
    assert (0 < 2 ^ (e + 149)) by (apply Z.pow_pos_nonneg; lia). nia. }
  destruct c1 as [s1|s1| |s1 m1 e1], c2 as [s2|s2| |s2 m2 e2];
    try discriminate; cbn [int16_of]; try lia.
  - pose proof (Hfin _ _ _ Hv2) as Hp2.
    cbn [F32.valid valid_binary] in Hv2.
    destruct s2; cbn [scaled cond_Zopp] in *; [lia|].
    pose proof (rounded32767_range m2 e2 Hv2 ltac:(lia)). lia.
  - pose proof (Hfin _ _ _ Hv1) as Hp1.
    cbn [F32.valid valid_binary] in Hv1.
    destruct s1; cbn [scaled cond_Zopp] in *; [|lia].
    pose proof (rounded32767_range m1 e1 Hv1 ltac:(lia)). lia.
  - pose proof (Hfin _ _ _ Hv1) as Hp1. pose proof (Hfin _ _ _ Hv2) as Hp2.
    cbn [F32.valid valid_binary] in Hv1, Hv2.
    destruct s1, s2; cbn [scaled cond_Zopp] in *; try lia.
    + assert (Hm1 : Zpos m1 * 2 ^ (e1 + 149) <= 2 ^ 149) by lia.
      assert (Hm2 : Zpos m2 * 2 ^ (e2 + 149) <= 2 ^ 149) by lia.
      pose proof (range_exponent _ _ Hv1 Hm1).
      pose proof (range_exponent _ _ Hv2 Hm2).
      assert (rounded32767 m2 e2 <= rounded32767 m1 e1)
        by (apply rounded32767_mono; trivial; lia).
      assert (rounded32767 m2 e2 / 2 ^ 149 <= rounded32767 m1 e1 / 2 ^ 149)
        by (apply Z.div_le_mono; lia).
      lia.
    + pose proof (rounded32767_range m1 e1 Hv1 ltac:(lia)).
      pose proof (rounded32767_range m2 e2 Hv2 ltac:(lia)). lia.
    + assert (Hm1 : Zpos m1 * 2 ^ (e1 + 149) <= 2 ^ 149) by lia.
      assert (Hm2 : Zpos m2 * 2 ^ (e2 + 149) <= 2 ^ 149) by lia.
      pose proof (range_exponent _ _ Hv1 Hm1).
      pose proof (range_exponent _ _ Hv2 Hm2).
      assert (rounded32767 m1 e1 <= rounded32767 m2 e2)
        by (apply rounded32767_mono; trivial; lia).
      apply Z.div_le_mono; lia.
Qed.


Lemma clamp_in_range x :
  F32.valid x = true -> is_nan x = false ->
  F32.valid (F32.clamp x) = true
  /\ finite_or_zero (F32.clamp x) = true
  /\ scaled (F32.clamp x) = Z.max (- 2 ^ 149) (Z.min (2 ^ 149) (extended x))
  /\ - 2 ^ 149 <= scaled (F32.clamp x) <= 2 ^ 149.
Proof.
  intros Hv Hn. destruct (clamp_extended x Hv Hn) as (He & Hv' & Hf).
  assert (0 < 2 ^ 149) by (apply Z.pow_pos_nonneg; lia).
  assert (Hs : scaled (F32.clamp x) = extended (F32.clamp x))
    by (destruct (F32.clamp x) as [?|?| |? ? ?]; try discriminate; reflexivity).
  rewrite Hs, He. repeat split; trivial; lia.
Qed.

Lemma convert_not_nan s :
  F32.valid s = true -> is_nan s = false ->
  Rtsp.convert s = Some (int16_of (F32.clamp s))
  /\ -32767 <= int16_of (F32.clamp s) <= 32767.
Proof.
  intros Hv Hn. destruct (clamp_in_range s Hv Hn) as (Hv' & Hf & _ & Hr).
  destruct (convert_clamped (F32.clamp s) Hv' Hf Hr) as (_ & Hc & Hi).
  split; [exact Hc | exact Hi].
Qed.

Lemma convert_mono s1 s2 :
  F32.valid s1 = true -> F32.valid s2 = true -> F32.leb s1 s2 = true ->
  exists z1 z2,
    Rtsp.convert s1 = Some z1 /\ Rtsp.convert s2 = Some z2 /\ z1 <= z2.
Proof.
  intros Hv1 Hv2 Hle. destruct (leb_not_nan _ _ Hle) as [Hn1 Hn2].
  destruct (convert_not_nan s1 Hv1 Hn1) as [Hc1 _].
  destruct (convert_not_nan s2 Hv2 Hn2) as [Hc2 _].
  exists (int16_of (F32.clamp s1)), (int16_of (F32.clamp s2)).
  split; [exact Hc1|]. split; [exact Hc2|].
  destruct (clamp_in_range s1 Hv1 Hn1) as (Hv1' & Hf1 & Hs1 & Hr1).
  destruct (clamp_in_range s2 Hv2 Hn2) as (Hv2' & Hf2 & Hs2 & Hr2).
  rewrite leb_extended in Hle by assumption. apply Z.leb_le in Hle.
  apply int16_of_mono; trivial; lia.
Qed.

Lemma clamp_mono s1 s2 :
  F32.valid s1 = true -> F32.valid s2 = true -> F32.leb s1 s2 = true ->
  F32.leb (F32.clamp s1) (F32.clamp s2) = true.
Proof.
  intros Hv1 Hv2 Hle. destruct (leb_not_nan _ _ Hle) as [Hn1 Hn2].
  destruct (clamp_extended s1 Hv1 Hn1) as (He1 & Hv1' & Hf1).
  destruct (clamp_extended s2 Hv2 Hn2) as (He2 & Hv2' & Hf2).
  rewrite leb_extended in Hle by assumption. apply Z.leb_le in Hle.
  rewrite leb_extended; trivial.
  - apply Z.leb_le. lia.
  - now destruct (F32.clamp s1).
  - now destruct (F32.clamp s2).
Qed.

Lemma clamp_range s :
  F32.valid s = true -> is_nan s = false ->
  F32.leb F32.minus_one (F32.clamp s) = true
  /\ F32.leb (F32.clamp s) F32.one = true.
Proof.
  intros Hv Hn. destruct (clamp_extended s Hv Hn) as (He & Hv' & Hf).
  assert (Hn' : is_nan (F32.clamp s) = false) by now destruct (F32.clamp s).
  rewrite !leb_extended; trivial.
  rewrite extended_one, extended_minus_one, He.
  split; apply Z.leb_le; lia.
Qed.

(** ** Blocks of the 16-bit variant *)

(** Samples that are not NaN can all be converted, each into the range. *)
Lemma convertible_not_nan input :
  Forall (fun s => F32.valid s = true /\ is_nan s = false) input ->
  exists samples,
    Forall2 (fun s v => Rtsp.convert s = Some v) input samples
    /\ Forall (fun z => -32767 <= z <= 32767) samples.
Proof.
  induction 1 as [|s rest [Hv Hn] _ (samples & IH1 & IH2)].
  - exists []. split; constructor.
  - destruct (convert_not_nan s Hv Hn) as [Hc Hr].
    exists (int16_of (F32.clamp s) :: samples).
    split; constructor; assumption.
Qed.

Lemma converted_map input samples :
  Forall2 (fun s v => Rtsp.convert s = Some v) input samples ->
  map Rtsp.convert input = map Some samples.
Proof. induction 1; cbn; congruence. Qed.

(** A block that fits the frame and holds no NaN is stored converted. *)
Lemma rtsp_perform_converted EAGAIN enc input x fr :
  Rtsp.frame x = Some fr ->
  (List.length input <= List.length (AV.data fr))%nat ->
  Forall (fun s => F32.valid s = true /\ is_nan s = false) input ->
  exists samples,
    map Rtsp.convert input = map Some samples
    /\ Forall (fun z => -32767 <= z <= 32767) samples
    /\ Rtsp.frame
         (state_of (Rtsp.rtspstreamer_tilde_perform EAGAIN enc input x))
       = Some (AV.Build_AVFrame (Z.of_nat (List.length input)) (Rtsp.pts x)
                 (samples ++ skipn (List.length input) (AV.data fr))).
Proof.
  intros Hfr Hfit Hin.
  destruct (convertible_not_nan input Hin) as (samples & Hconv & Hrange).
  exists samples. split; [now apply converted_map|]. split; [exact Hrange|].
  rewrite (rtsp_perform_streaming _ _ _ _ _ _ Hfr
             (fill_from_fits _ _ _ _ Hconv Hfit)).
  cbn zeta. destruct (send_frame enc <? 0); reflexivity.
Qed.

(** A block that fits the frame and holds a NaN stops at the conversion. *)
Lemma rtsp_perform_nan EAGAIN enc input x fr :
  Rtsp.frame x = Some fr ->
  (List.length input <= List.length (AV.data fr))%nat ->
  Exists (fun s => is_nan s = true) input ->
  result_of (Rtsp.rtspstreamer_tilde_perform EAGAIN enc input x)
  = Crash UndefinedConversion.
Proof.
  intros Hfr Hfit Hnan.
  pose proof (fill_from_spec Rtsp.convert input [] (AV.data fr)) as Hspec.
  cbn [List.length app] in Hspec.
  destruct (fill_from Rtsp.convert 0 input (AV.data fr)) as [l|r|f] eqn:Hfill.
  - exfalso. destruct Hspec as (vals & Hvals & _).
    clear -Hvals Hnan. induction Hvals as [|s v input vals Hs _ IH].
    + inversion Hnan.
    + inversion Hnan as [? ? Hn|? ? Hn]; subst; [|now apply IH].
      destruct s; discriminate.
  - destruct Hspec.
  - rewrite (rtsp_perform_crash _ _ _ _ _ _ Hfr Hfill).
    destruct f; trivial; exfalso.
    + destruct Hspec.
    + cbn in Hspec. lia.
Qed.

(** The same for the float variant, which stores the clamped samples. *)
Lemma rtmp_perform_clamped EAGAIN enc input x fr :
  Rtmp.streaming_active x <> 0 ->
  Rtmp.frame x = Some fr ->
  (List.length input <= List.length (AV.data fr))%nat ->
  Rtmp.frame (state_of (Rtmp.rtmpstreamer_tilde_perform EAGAIN enc input x))
  = Some (AV.Build_AVFrame (Z.of_nat (List.length input)) (Rtmp.pts x)
            (map F32.clamp input ++ skipn (List.length input) (AV.data fr))).
Proof.
  intros Hact Hfr Hfit.
  rewrite (rtmp_perform_streaming _ _ _ _ _ _ Hact Hfr
             (fill_from_fits _ input (AV.data fr) _
                (Forall2_map_Some F32.clamp input) Hfit)).
  cbn zeta. destruct (send_frame enc <? 0); reflexivity.
Qed.

Lemma rtsp_assembler_not_nan EAGAIN enc input x fr :
  Rtsp.frame x = Some fr ->
  Forall (fun s => F32.valid s = true /\ is_nan s = false) input ->
  let o := Rtsp.rtspstreamer_tilde_perform EAGAIN enc input x in
  (result_of o = Crash OutOfBounds
   <-> (List.length (AV.data fr) < List.length input)%nat)
  /\ ((List.length input <= List.length (AV.data fr))%nat ->
      exists fr' samples,
        Rtsp.frame (state_of o) = Some fr'
        /\ AV.nb_samples fr' = Z.of_nat (List.length input)
        /\ map Rtsp.convert input = map Some samples
        /\ AV.data fr' = samples ++ skipn (List.length input) (AV.data fr)).
Proof.
  intros Hfr Hin. apply rtsp_assembler; [exact Hfr|].
  apply Forall_forall. intros s Hs.
  destruct (proj1 (Forall_forall _ _) Hin s Hs) as [Hv Hn].
  destruct (convert_not_nan s Hv Hn) as [Hc _]. congruence.
Qed.

(** ** C1: the assembler stores the whole block, unchecked *)

(** C1 (as stated, refuted).  A block of two samples, delivered to a
    session-based object whose frame holds four, is not assembled when one
    of the samples is a NaN: its conversion to 16 bits is undefined, and the
    routine stops there. *)
Lemma nan_block_is_not_assembled :
  rtsp_streaming rtsp_created = true
  /\ capacity (Rtsp.frame rtsp_created) = Some 4%nat
  /\ F32.valid S754_nan = true
  /\ result_of (Rtsp.rtspstreamer_tilde_perform 11 quiet [half; S754_nan]
                  rtsp_created)
     = Crash UndefinedConversion.
Proof. vm_compute. repeat split. Qed.

(** C1 (amended).  While streaming, the perform routine stores every one of
    the [n] converted samples of the block at the head of the session's frame
    and sets the frame's declared length to [n]; nothing compares [n] with
    the capacity of the plane.  The store runs past the buffer exactly when
    [n] exceeds that capacity: the precondition [n <= capacity] is what keeps
    the out-of-bounds store from happening.  This holds for every block of
    the float variant, and for the blocks of the 16-bit variant that hold no
    NaN; a block of the 16-bit variant that fits the frame and holds a NaN
    reaches the undefined conversion instead. *)
Theorem assembler_stores_whole_block_unchecked :
  (forall EAGAIN enc input x fr,
      Rtmp.streaming_active x <> 0 ->
      Rtmp.frame x = Some fr ->
      let o := Rtmp.rtmpstreamer_tilde_perform EAGAIN enc input x in
      (result_of o = Crash OutOfBounds
       <-> (List.length (AV.data fr) < List.length input)%nat)
      /\ ((List.length input <= List.length (AV.data fr))%nat ->
          exists fr',
            Rtmp.frame (state_of o) = Some fr'
            /\ AV.nb_samples fr' = Z.of_nat (List.length input)
            /\ AV.data fr'
               = map F32.clamp input
                   ++ skipn (List.length input) (AV.data fr)))
  /\ (forall EAGAIN enc input x fr,
         Rtsp.frame x = Some fr ->
         Forall (fun s => F32.valid s = true /\ is_nan s = false) input ->
         let o := Rtsp.rtspstreamer_tilde_perform EAGAIN enc input x in
         (result_of o = Crash OutOfBounds
          <-> (List.length (AV.data fr) < List.length input)%nat)
         /\ ((List.length input <= List.length (AV.data fr))%nat ->
             exists fr' samples,
               Rtsp.frame (state_of o) = Some fr'
               /\ AV.nb_samples fr' = Z.of_nat (List.length input)
               /\ map Rtsp.convert input = map Some samples
               /\ AV.data fr'
                  = samples ++ skipn (List.length input) (AV.data fr)))
  /\ (forall EAGAIN enc input x fr,
         Rtsp.frame x = Some fr ->
         (List.length input <= List.length (AV.data fr))%nat ->
         Exists (fun s => is_nan s = true) input ->
         result_of (Rtsp.rtspstreamer_tilde_perform EAGAIN enc input x)
         = Crash UndefinedConversion).
Proof.
  split; [exact rtmp_assembler|].
  split; [exact rtsp_assembler_not_nan | exact rtsp_perform_nan].
Qed.

Lemma assembler_stores_whole_block_unchecked_witness :
  ((Rtmp.streaming_active rtmp_streaming <> 0
    /\ Rtmp.frame rtmp_streaming
       = Some (AV.Build_AVFrame 4 AV_NOPTS_VALUE (repeat (S754_zero false) 4)))
   /\ result_of (Rtmp.rtmpstreamer_tilde_perform 11 quiet
                   [half; two; half; half; minus_three] rtmp_streaming)
      = Crash OutOfBounds
   /\ exists fr',
        Rtmp.frame (state_of (Rtmp.rtmpstreamer_tilde_perform 11 quiet
                                [half; two; minus_three] rtmp_streaming))
        = Some fr'
        /\ AV.nb_samples fr' = 3
        /\ AV.data fr' = [half; F32.one; F32.minus_one; S754_zero false])
  /\ ((Rtsp.frame rtsp_created
       = Some (AV.Build_AVFrame 4 AV_NOPTS_VALUE [0; 0; 0; 0])
       /\ Forall (fun s => F32.valid s = true /\ is_nan s = false)
            [half; two; minus_three])
      /\ result_of (Rtsp.rtspstreamer_tilde_perform 11 quiet
                      [half; two; half; half; minus_three] rtsp_created)
         = Crash OutOfBounds
      /\ exists fr' samples,
           Rtsp.frame (state_of (Rtsp.rtspstreamer_tilde_perform 11 quiet
                                   [half; two; minus_three] rtsp_created))
           = Some fr'
           /\ AV.nb_samples fr' = 3
           /\ map Rtsp.convert [half; two; minus_three] = map Some samples
           /\ AV.data fr' = samples ++ [0]).
Proof.
  destruct assembler_stores_whole_block_unchecked as (Hpush & Hsession & _).
  split.
  - assert (H1 : Rtmp.streaming_active rtmp_streaming <> 0) by discriminate.
    assert (H2 : Rtmp.frame rtmp_streaming
                 = Some (AV.Build_AVFrame 4 AV_NOPTS_VALUE
                           (repeat (S754_zero false) 4))) by reflexivity.
    split; [split; assumption|]. split.
    + apply (proj1 (Hpush 11 quiet [half; two; half; half; minus_three]
                      rtmp_streaming _ H1 H2)).
      simpl. lia.
    + apply (proj2 (Hpush 11 quiet [half; two; minus_three]
                      rtmp_streaming _ H1 H2)).
      simpl. lia.
  - assert (H1 : Rtsp.frame rtsp_created
                 = Some (AV.Build_AVFrame 4 AV_NOPTS_VALUE [0; 0; 0; 0]))
      by reflexivity.
    assert (H2 : forall l,
               Forall (fun s => F32.valid s = true /\ is_nan s = false)
                 (half :: two :: l ++ [minus_three]) ->
               Forall (fun s => F32.valid s = true /\ is_nan s = false)
                 (half :: two :: l ++ [minus_three])) by trivial.
    assert (H3 : Forall (fun s => F32.valid s = true /\ is_nan s = false)
                   [half; two; minus_three]) by (repeat constructor).
    assert (H4 : Forall (fun s => F32.valid s = true /\ is_nan s = false)
                   [half; two; half; half; minus_three])
      by (repeat constructor).
    split; [split; assumption|]. split.
    + apply (proj1 (Hsession 11 quiet [half; two; half; half; minus_three]
                      rtsp_created _ H1 H4)).
      simpl. lia.
    + apply (proj2 (Hsession 11 quiet [half; two; minus_three]
                      rtsp_created _ H1 H3)).
      simpl. lia.
Defined.

(** ** C6: clamping and conversion of samples *)

(** C6 (as stated, refuted).  A NaN is neither below -1.0 nor above 1.0, so
    the clamp keeps it: the float variant stores the NaN in the frame it
    submits, a value outside [-1.0, 1.0], and the 16-bit variant reaches an
    undefined conversion. *)
Lemma nan_sample_is_emitted_unclamped :
  F32.valid S754_nan = true
  /\ option_map AV.data
       (Rtmp.frame
          (state_of (Rtmp.rtmpstreamer_tilde_perform 11 quiet [S754_nan]
                       rtmp_streaming)))
     = Some [S754_nan; S754_zero false; S754_zero false; S754_zero false]
  /\ F32.leb F32.minus_one S754_nan = false
  /\ F32.leb S754_nan F32.one = false
  /\ result_of (Rtsp.rtspstreamer_tilde_perform 11 quiet [S754_nan]
                  rtsp_created)
     = Crash UndefinedConversion.
Proof. vm_compute. repeat split. Qed.

(** C6 (amended).  The samples the perform routines store in the frame they
    submit are the clamped samples of the block: the float variant stores
    the clamped sample itself, the 16-bit variant the integer part of its
    binary32 product with 32767.  Below -1.0 a sample is clamped to -1.0
    (stored as -32767 by the 16-bit variant), above 1.0 to 1.0 (stored as
    32767), and otherwise it is kept.  On samples that are not NaN both maps
    are monotone, a greater sample never being stored as a lesser value, and
    the float variant stores a value in [-1.0, 1.0].  A NaN is kept by the
    clamp, and has no 16-bit value. *)
Theorem clamped_sample_is_monotone_image :
  (forall EAGAIN enc input x fr,
      Rtmp.streaming_active x <> 0 ->
      Rtmp.frame x = Some fr ->
      (List.length input <= List.length (AV.data fr))%nat ->
      option_map AV.data
        (Rtmp.frame
           (state_of (Rtmp.rtmpstreamer_tilde_perform EAGAIN enc input x)))
      = Some (map F32.clamp input ++ skipn (List.length input) (AV.data fr)))
  /\ (forall EAGAIN enc input x fr,
         Rtsp.frame x = Some fr ->
         (List.length input <= List.length (AV.data fr))%nat ->
         Forall (fun s => F32.valid s = true /\ is_nan s = false) input ->
         exists samples,
           map Rtsp.convert input = map Some samples
           /\ option_map AV.data
                (Rtsp.frame
                   (state_of (Rtsp.rtspstreamer_tilde_perform EAGAIN enc
                                input x)))
              = Some (samples ++ skipn (List.length input) (AV.data fr)))
  /\ (forall sample,
         (F32.ltb sample F32.minus_one = true ->
          F32.clamp sample = F32.minus_one)
         /\ (F32.ltb F32.one sample = true -> F32.clamp sample = F32.one)
         /\ (F32.ltb sample F32.minus_one = false ->
             F32.ltb F32.one sample = false -> F32.clamp sample = sample))
  /\ (forall sample,
         (F32.ltb sample F32.minus_one = true ->
          Rtsp.convert sample = Some (-32767))
         /\ (F32.ltb F32.one sample = true ->
             Rtsp.convert sample = Some 32767)
         /\ (F32.ltb sample F32.minus_one = false ->
             F32.ltb F32.one sample = false ->
             Rtsp.convert sample
             = F32.to_int16 (F32.mul sample F32.c32767)))
  /\ (forall s1 s2,
         F32.valid s1 = true -> F32.valid s2 = true ->
         F32.leb s1 s2 = true ->
         F32.leb (F32.clamp s1) (F32.clamp s2) = true)
  /\ (forall s,
         F32.valid s = true -> is_nan s = false ->
         F32.leb F32.minus_one (F32.clamp s) = true
         /\ F32.leb (F32.clamp s) F32.one = true)
  /\ (forall s1 s2,
         F32.valid s1 = true -> F32.valid s2 = true ->
         F32.leb s1 s2 = true ->
         exists z1 z2,
           Rtsp.convert s1 = Some z1 /\ Rtsp.convert s2 = Some z2
           /\ z1 <= z2)
  /\ (F32.clamp S754_nan = S754_nan /\ Rtsp.convert S754_nan = None).
Proof.
  split.
  { intros EAGAIN enc input x fr Hact Hfr Hfit.
    now rewrite (rtmp_perform_clamped _ _ _ _ _ Hact Hfr Hfit). }
  split.
  { intros EAGAIN enc input x fr Hfr Hfit Hin.
    destruct (rtsp_perform_converted EAGAIN enc input x fr Hfr Hfit Hin)
      as (samples & Hmap & _ & Hst).
    exists samples. split; [exact Hmap|]. now rewrite Hst. }
  split; [exact clamp_cases|].
  split.
  { intros sample. destruct (clamp_cases sample) as (Hlow & Hhigh & Hmid).
    unfold Rtsp.convert. repeat split.
    - intros H. rewrite (Hlow H). reflexivity.
    - intros H. rewrite (Hhigh H). reflexivity.
    - intros H1 H2. now rewrite (Hmid H1 H2). }
  split; [exact clamp_mono|].
  split; [exact clamp_range|].
  split; [exact convert_mono|].
  split; reflexivity.
Qed.

Lemma clamped_sample_is_monotone_image_witness :
  ((Rtmp.streaming_active rtmp_streaming <> 0
    /\ Rtmp.frame rtmp_streaming
       = Some (AV.Build_AVFrame 4 AV_NOPTS_VALUE (repeat (S754_zero false) 4)))
   /\ option_map AV.data
        (Rtmp.frame
           (state_of (Rtmp.rtmpstreamer_tilde_perform 11 quiet
                        [minus_three; half; two] rtmp_streaming)))
      = Some [F32.minus_one; half; F32.one; S754_zero false])
  /\ ((Rtsp.frame rtsp_created
       = Some (AV.Build_AVFrame 4 AV_NOPTS_VALUE [0; 0; 0; 0])
       /\ Forall (fun s => F32.valid s = true /\ is_nan s = false)
            [minus_three; half; two])
      /\ option_map AV.data
           (Rtsp.frame
              (state_of (Rtsp.rtspstreamer_tilde_perform 11 quiet
                           [minus_three; half; two] rtsp_created)))
         = Some [-32767; 16383; 32767; 0])
  /\ ((F32.valid half = true /\ F32.valid two = true
       /\ F32.leb half two = true)
      /\ F32.leb (F32.clamp half) (F32.clamp two) = true
      /\ exists z1 z2,
           Rtsp.convert half = Some z1 /\ Rtsp.convert two = Some z2
           /\ z1 <= z2).
Proof.
  destruct clamped_sample_is_monotone_image
    as (Hpush & Hsession & _ & _ & Hc & _ & Hz & _).
  split; [|split].
  - assert (H1 : Rtmp.streaming_active rtmp_streaming <> 0) by discriminate.
    assert (H2 : Rtmp.frame rtmp_streaming
                 = Some (AV.Build_AVFrame 4 AV_NOPTS_VALUE
                           (repeat (S754_zero false) 4))) by reflexivity.
    split; [split; assumption|].
    rewrite (Hpush 11 quiet [minus_three; half; two] rtmp_streaming _ H1 H2)
      by (simpl; lia).
    reflexivity.
  - assert (H1 : Rtsp.frame rtsp_created
                 = Some (AV.Build_AVFrame 4 AV_NOPTS_VALUE [0; 0; 0; 0]))
      by reflexivity.
    assert (H2 : Forall (fun s => F32.valid s = true /\ is_nan s = false)
                   [minus_three; half; two]) by (repeat constructor).
    split; [split; assumption|].
    destruct (Hsession 11 quiet [minus_three; half; two] rtsp_created _ H1)
      as (samples & Hmap & Hst); [simpl; lia|exact H2|].
    rewrite Hst. vm_compute in Hmap.
    destruct samples as [|a [|b [|c [|d rest]]]]; try discriminate.
    injection Hmap as <- <- <-. reflexivity.
  - assert (H1 : F32.valid half = true) by reflexivity.
    assert (H2 : F32.valid two = true) by reflexivity.
    assert (H3 : F32.leb half two = true) by reflexivity.
    split; [repeat split; assumption|].
    split; [exact (Hc half two H1 H2 H3) | exact (Hz half two H1 H2 H3)].
Defined.

(** ** C10: the range of the 16-bit samples *)



(** * Creation, destruction and whole lives *)

(** ** Creation of a push object *)

Lemma rtmp_prefix_not_empty name :
  String.prefix "rtmp://" name = true -> (0 <? strlen name) = true.
Proof.
  destruct name; [discriminate|]. intros _.
  unfold strlen. cbn [String.length]. apply Z.ltb_lt. lia.
Qed.

(** The constructor's run on the memory [pd_new] returns. *)
Lemma rtmp_new_outcome s :
  let o := Rtmp.rtmpstreamer_tilde_new s Rtmp.fresh in
  result_of o = Next tt
  /\ state_of o = Rtmp.set_url (creation_url s) Rtmp.fresh
  /\ trace_of o
     = [Call pd_new; Call inlet_new; Call outlet_new;
        post match creation_url s with
             | Some name =>
                 "[rtmpstreamer~] Valid URL provided at creation: " ++ name
             | None =>
                 "[rtmpstreamer~] Invalid or no URL provided at creation. Non-streaming mode."
             end].
Proof.
  unfold Rtmp.rtmpstreamer_tilde_new. unfold_prog.
  destruct s as [name|]; cbn -[String.prefix]; [|repeat split].
  rewrite is_valid_rtmp_url_prefix.
  destruct (String.prefix "rtmp://" name) eqn:Hp.
  - rewrite (rtmp_prefix_not_empty _ Hp). cbn. repeat split.
  - rewrite andb_false_r. repeat split.
Qed.


(** Blocks delivered to a session that is not Streaming. *)
Lemma rtmp_host_idle calls :
  forallb is_perform calls = true ->
  forall x, Rtmp.streaming_active x = 0 -> Rtmp.host calls x = (Next tt, x, []).
Proof.
  induction calls as [|c rest IH]; intros Hc x Hx; [reflexivity|].
  cbn [forallb] in Hc. apply andb_prop in Hc as [Hp Hrest].
  destruct c as [lib s|EAGAIN enc input]; [discriminate|].
  cbn [Rtmp.host Rtmp.serve]. unfold bind, invoke.
  rewrite (rtmp_perform_idle _ _ _ _ Hx), (IH Hrest x Hx). reflexivity.
Qed.

(** X2.  A push object streams nothing until a symbol message arrives,
    even when it was created on a valid URL: a life made of audio blocks only
    leaves the same state and the same trace as a life with no call at all. *)
Theorem blocks_before_first_symbol_are_dropped s calls :
  forallb is_perform calls = true ->
  Rtmp.life s calls = Rtmp.life s [].
Proof.
  intros Hc. unfold Rtmp.life, bind.
  destruct (rtmp_new_state s) as (Hact & _ & _ & Hres & _).
  unfold invoke.
  destruct (Rtmp.rtmpstreamer_tilde_new s Rtmp.fresh) as [[r x0] t0].
  cbn in Hact, Hres. subst r.
  rewrite (rtmp_host_idle calls Hc x0 Hact). reflexivity.
Qed.

Lemma blocks_before_first_symbol_are_dropped_witness :
  Rtmp.life (Some "rtmp://host/live"%string)
    [Rtmp.perform 11 lossy [half; two]; Rtmp.perform 11 quiet [minus_three]]
  = Rtmp.life (Some "rtmp://host/live"%string) [].
Proof. apply blocks_before_first_symbol_are_dropped. reflexivity. Defined.

(** ** What a symbol message leaves behind *)

(** A symbol either carries a non-empty string, or is empty or NULL. *)
Lemma symbol_cases (s : option string) :
  (exists name, s = Some name /\ 0 < strlen name)
  \/ match s with
     | Some name => strlen name = 0
     | None => True
     end.
Proof.
  destruct s as [name|]; [|now right].
  unfold strlen. destruct name; cbn; [now right|].
  left. eexists. split; [reflexivity|]. cbn. lia.
Qed.

Lemma rtmp_symbol_idle_outcome lib s x :
  Rtmp.streaming_active x = 0 ->
  let o := Rtmp.rtmpstreamer_tilde_symbol lib s x in
  result_of o = Next tt
  /\ Rtmp.url (state_of o) = s
  /\ Rtmp.streaming_active (state_of o) = (if connects lib s then 1 else 0).
Proof.
  intros Hact o. subst o.
  destruct (symbol_cases s) as [(name & -> & Hlen)|Hempty].
  - rewrite rtmp_symbol_idle by assumption. cbn zeta.
    unfold connects. rewrite (proj2 (Z.ltb_lt _ _) Hlen). cbn [andb].
    destruct (rtmp_connect_result lib (Rtmp.set_url (Some name) x))
      as (_ & _ & _ & _ & Hflag & Hurl); [discriminate|].
    destruct (first_failure lib rtmp_substeps) as [k|] eqn:Hk; cbn [held negb].
    + destruct (rtmp_connect_failure_report lib (Rtmp.set_url (Some name) x) k)
        as (Hres & _); [discriminate|assumption|].
      rewrite Hres. cbn [Z.eqb result_of state_of fst snd] in *.
      rewrite Hflag, Hurl. cbn. auto.
    + destruct (rtmp_connect_success lib (Rtmp.set_url (Some name) x))
        as (Hres & _); [discriminate|assumption|].
      rewrite Hres. cbn [Z.eqb result_of state_of fst snd] in *.
      cbn [Rtmp.url Rtmp.streaming_active Rtmp.set_streaming_active].
      rewrite Hurl. cbn. auto.
  - rewrite rtmp_symbol_empty by assumption.
    cbn [result_of state_of fst snd]. repeat split.
    unfold connects. destruct s as [name|]; [|now cbn].
    rewrite Hempty. cbn. exact Hact.
Qed.

Lemma rtmp_symbol_result lib s x :
  result_of (Rtmp.rtmpstreamer_tilde_symbol lib s x) = Next tt.
Proof.
  destruct (Z.eq_dec (Rtmp.streaming_active x) 0) as [Hact|Hact].
  - now apply rtmp_symbol_idle_outcome.
  - rewrite rtmp_symbol_streaming by assumption.
    cbn [result_of fst]. now apply rtmp_symbol_idle_outcome.
Qed.

(** X3.  The symbol handler of the push variant, from any session state:
    it never faults and always runs to its end, the session records the
    string it was given, and the flag [streaming_active] ends at 1 exactly
    when the string is not empty and no connect sub-step fails, at 0
    otherwise. *)
Theorem symbol_streams_iff_connect_succeeds lib s x :
  let o := Rtmp.rtmpstreamer_tilde_symbol lib s x in
  result_of o = Next tt
  /\ Rtmp.url (state_of o) = s
  /\ Rtmp.streaming_active (state_of o) = (if connects lib s then 1 else 0).
Proof.
  destruct (Z.eq_dec (Rtmp.streaming_active x) 0) as [Hact|Hact].
  - now apply rtmp_symbol_idle_outcome.
  - cbn zeta. rewrite rtmp_symbol_streaming by assumption.
    cbn [result_of state_of fst snd].
    now apply rtmp_symbol_idle_outcome.
Qed.

(** X4.  An empty string (or a NULL symbol) sent to a Streaming push
    session stops the stream: the session is torn down, the flag is cleared,
    the string is recorded and the only further event is the log line for an
    invalid URL; no connect call is made. *)
Theorem empty_symbol_stops_the_stream lib s x :
  Rtmp.streaming_active x <> 0 ->
  match s with Some name => strlen name = 0 | None => True end ->
  Rtmp.rtmpstreamer_tilde_symbol lib s x
  = (Next tt,
     Rtmp.set_url s (Rtmp.set_streaming_active 0 (rtmp_released x)),
     rtmp_teardown_calls x
       ++ [post "[rtmpstreamer~] Invalid or empty URL. Non-streaming mode."]).
Proof.
  intros Hact Hs. rewrite rtmp_symbol_streaming by assumption. cbn zeta.
  now rewrite rtmp_symbol_empty.
Qed.

Lemma empty_symbol_stops_the_stream_witness :
  Rtmp.streaming_active rtmp_streaming <> 0
  /\ Rtmp.rtmpstreamer_tilde_symbol all_succeed (Some ""%string) rtmp_streaming
     = (Next tt,
        Rtmp.set_url (Some ""%string)
          (Rtmp.set_streaming_active 0 (rtmp_released rtmp_streaming)),
        [Call av_write_trailer; Call avio_closep; Call avformat_free_context;
         Call avcodec_free_context; Call av_frame_free;
         Call avformat_network_deinit;
         post "[rtmpstreamer~] Invalid or empty URL. Non-streaming mode."]).
Proof.
  assert (H : Rtmp.streaming_active rtmp_streaming <> 0)
    by (vm_compute; discriminate).
  split; [exact H|].
  rewrite (empty_symbol_stops_the_stream all_succeed (Some ""%string)
             rtmp_streaming H eq_refl).
  reflexivity.
Defined.

(** ** The destructor of the push variant *)

Lemma full_teardown_of_session x :
  rtmp_holds_session x = true ->
  exists ctx, Rtmp.fmt_ctx x = Some ctx
              /\ rtmp_teardown_calls x = full_teardown ctx.
Proof.
  unfold rtmp_holds_session, rtmp_teardown_calls, full_teardown, close_output.
  destruct (Rtmp.fmt_ctx x) as [ctx|], (Rtmp.audio_st x),
    (Rtmp.codec_ctx x), (Rtmp.frame x); try discriminate.
  intros _. exists ctx. split; [reflexivity|].
  cbn. destruct (AV.nofile ctx); reflexivity.
Qed.

Lemma rtmp_free_idle x :
  Rtmp.streaming_active x = 0 ->
  Rtmp.rtmpstreamer_tilde_free x = (Next tt, x, []).
Proof.
  intros H. unfold Rtmp.rtmpstreamer_tilde_free. cbv [bind get ret].
  now rewrite H.
Qed.

Lemma rtmp_free_streaming x :
  Rtmp.streaming_active x <> 0 ->
  Rtmp.rtmpstreamer_tilde_free x
  = (Next tt, rtmp_released x, rtmp_teardown_calls x).
Proof.
  intros H. apply Z.eqb_neq in H.
  unfold Rtmp.rtmpstreamer_tilde_free. cbv [bind get ret invoke].
  rewrite H. cbn [negb]. now rewrite (rtmp_cleanup x).
Qed.

(** X5.  The destructor of the push variant on a session the object can
    reach: while the session is not Streaming it does nothing at all; while
    it is Streaming it makes the full sequence of release calls once and
    clears the three owned handles. *)
Theorem destructor_releases_a_streaming_session s calls :
  let x := state_of (Rtmp.life s calls) in
  (Rtmp.streaming_active x = 0 ->
   Rtmp.rtmpstreamer_tilde_free x = (Next tt, x, []))
  /\ (Rtmp.streaming_active x <> 0 ->
      exists ctx,
        Rtmp.fmt_ctx x = Some ctx
        /\ Rtmp.rtmpstreamer_tilde_free x
           = (Next tt, rtmp_released x, full_teardown ctx)).
Proof.
  intros x. split.
  - apply rtmp_free_idle.
  - intros Hact.
    destruct (full_teardown_of_session x (rtmp_life_coherent s calls Hact))
      as (ctx & Hctx & Hcalls).
    exists ctx. split; [exact Hctx|].
    now rewrite rtmp_free_streaming, Hcalls.
Qed.

Lemma destructor_releases_a_streaming_session_witness :
  Rtmp.streaming_active rtmp_streaming <> 0
  /\ exists ctx,
       Rtmp.fmt_ctx rtmp_streaming = Some ctx
       /\ Rtmp.rtmpstreamer_tilde_free rtmp_streaming
          = (Next tt, rtmp_released rtmp_streaming, full_teardown ctx).
Proof.
  unfold rtmp_streaming.
  assert (H : Rtmp.streaming_active
                (state_of (Rtmp.life None
                   [Rtmp.symbol all_succeed (Some "rtmp://host/live"%string)]))
              <> 0)
    by (vm_compute; discriminate).
  split; [exact H|].
  exact (proj2 (destructor_releases_a_streaming_session None
                  [Rtmp.symbol all_succeed (Some "rtmp://host/live"%string)])
           H).
Defined.

(** X6.  What a failed connect leaves behind is released by nobody.  After
    the symbol handler failed at sub-step [k] the session holds the handles
    of the sub-steps before [k]; on that session the destructor and the
    perform routine do nothing, and a further symbol message makes no release
    call either. *)
Theorem failed_connect_is_never_released lib name x k :
  Rtmp.streaming_active x = 0 ->
  rtmp_holds_nothing x = true ->
  0 < strlen name ->
  first_failure lib rtmp_substeps = Some k ->
  let x1 := state_of (Rtmp.rtmpstreamer_tilde_symbol lib (Some name) x) in
  (held (Rtmp.fmt_ctx x1) = precedes rtmp_substeps output_context k
   /\ held (Rtmp.audio_st x1) = precedes rtmp_substeps stream_creation k
   /\ held (Rtmp.codec_ctx x1) = precedes rtmp_substeps codec_context k
   /\ held (Rtmp.frame x1) = precedes rtmp_substeps frame_allocation k)
  /\ Rtmp.rtmpstreamer_tilde_free x1 = (Next tt, x1, [])
  /\ (forall EAGAIN enc input,
         Rtmp.rtmpstreamer_tilde_perform EAGAIN enc input x1
         = (Next tt, x1, []))
  /\ (forall lib' s',
         no_release (trace_of (Rtmp.rtmpstreamer_tilde_symbol lib' s' x1))
         = true).
Proof.
  intros Hact Hidle Hlen Hk x1.
  assert (Hflag : Rtmp.streaming_active x1 = 0).
  { subst x1.
    destruct (rtmp_symbol_connect_failure lib name x k Hact Hlen Hk)
      as (_ & H & _). exact H. }
  repeat split.
  1-4: subst x1; rewrite rtmp_symbol_idle by assumption; cbn zeta;
    destruct (rtmp_connect_failure lib (Rtmp.set_url (Some name) x) k)
      as (Hres & _ & _ & H1 & H2 & H3 & H4 & _);
      [discriminate|exact Hidle|exact Hk|];
    rewrite Hres; cbn [Z.eqb state_of fst snd] in *; assumption.
  - now apply rtmp_free_idle.
  - intros. now apply rtmp_perform_idle.
  - intros. now apply rtmp_symbol_idle_no_release.
Qed.

Lemma failed_connect_is_never_released_witness :
  (Rtmp.streaming_active rtmp_idle = 0
   /\ rtmp_holds_nothing rtmp_idle = true
   /\ first_failure (failing avio_open) rtmp_substeps = Some transport_open)
  /\ held (Rtmp.fmt_ctx
             (state_of (Rtmp.rtmpstreamer_tilde_symbol (failing avio_open)
                          (Some "rtmp://host/live"%string) rtmp_idle)))
     = true
  /\ Rtmp.rtmpstreamer_tilde_free
       (state_of (Rtmp.rtmpstreamer_tilde_symbol (failing avio_open)
                    (Some "rtmp://host/live"%string) rtmp_idle))
     = (Next tt,
        state_of (Rtmp.rtmpstreamer_tilde_symbol (failing avio_open)
                    (Some "rtmp://host/live"%string) rtmp_idle),
        []).
Proof.
  assert (H1 : Rtmp.streaming_active rtmp_idle = 0) by reflexivity.
  assert (H2 : rtmp_holds_nothing rtmp_idle = true) by reflexivity.
  assert (H3 : first_failure (failing avio_open) rtmp_substeps
               = Some transport_open) by reflexivity.
  assert (H4 : 0 < strlen "rtmp://host/live") by reflexivity.
  split; [auto|].
  destruct (failed_connect_is_never_released (failing avio_open)
              "rtmp://host/live" rtmp_idle transport_open H1 H2 H4 H3)
    as ((Hf & _) & Hfree & _).
  split; [exact Hf|exact Hfree].
Defined.

(** ** The events and the shape of one block *)

Lemma count_calls_app f t1 t2 :
  count_calls f (t1 ++ t2) = (count_calls f t1 + count_calls f t2)%nat.
Proof. unfold count_calls. now rewrite filter_app, length_app. Qed.

Lemma receive_packets_events EAGAIN S R audio_st m1 m2 script x :
  forallb drain_event
    (trace_of (receive_packets EAGAIN S R audio_st m1 m2 script x)) = true.
Proof.
  induction script as [|[r w] rest IH]; [reflexivity|].
  cbn [receive_packets]; cbv [bind emit get ret deref crash].
  destruct ((r =? AVERROR EAGAIN) || (r =? AVERROR_EOF)); [reflexivity|].
  destruct (r <? 0); [reflexivity|].
  cbn beta. destruct (audio_st x); [|reflexivity].
  destruct (w <? 0); [reflexivity|].
  destruct (receive_packets _ _ _ _ _ _ rest x) as [[res x'] t].
  cbn in IH |- *. exact IH.
Qed.

Lemma drain_events_block t :
  forallb drain_event t = true -> forallb block_event t = true.
Proof.
  induction t as [|e t IH]; [reflexivity|].
  cbn [forallb]. intros H. apply andb_prop in H as [He Ht].
  unfold block_event at 1. rewrite He, orb_true_r. now apply IH.
Qed.

(** Every run of the push perform routine is of one of three kinds: it
    does nothing, it stops at a fault before any call, or it assembles the
    frame and submits it. *)
Lemma rtmp_perform_cases EAGAIN enc input x :
  let o := Rtmp.rtmpstreamer_tilde_perform EAGAIN enc input x in
  (Rtmp.streaming_active x = 0 /\ o = (Next tt, x, []))
  \/ (Rtmp.streaming_active x <> 0 /\ exists f, o = (Crash f, x, []))
  \/ (Rtmp.streaming_active x <> 0
      /\ exists fr samples,
           Rtmp.frame x = Some fr
           /\ fill_from (fun s => Some (F32.clamp s)) 0 input (AV.data fr)
              = Next samples
           /\ o = let x' := rtmp_assembled x input samples in
                  if send_frame enc <? 0 then
                    (Return tt, x',
                     [Call avcodec_send_frame;
                      pd_error "[rtmpstreamer~] Error sending frame to codec"])
                  else
                    let d := receive_packets EAGAIN _ unit Rtmp.audio_st
                               "[rtmpstreamer~] Error encoding audio frame"
                               "[rtmpstreamer~] Error while writing audio frame"
                               (packets enc) x' in
                    (result_of d, x', Call avcodec_send_frame :: trace_of d)).
Proof.
  intros o. subst o.
  destruct (Z.eq_dec (Rtmp.streaming_active x) 0) as [Hact|Hact].
  { left. split; [assumption|]. now apply rtmp_perform_idle. }
  right.
  destruct (Rtmp.frame x) as [fr|] eqn:Hfr.
  - destruct (fill_from (fun s => Some (F32.clamp s)) 0 input (AV.data fr))
      as [l|r|f] eqn:Hfill.
    + right. split; [assumption|]. exists fr, l. repeat split; trivial.
      exact (rtmp_perform_streaming _ _ _ _ _ _ Hact Hfr Hfill).
    + generalize (fill_from_spec (fun s => Some (F32.clamp s)) input []
                    (AV.data fr)).
      cbn [List.length app]. rewrite Hfill. intros [].
    + left. split; [assumption|]. exists f.
      exact (rtmp_perform_crash _ _ _ _ _ _ Hact Hfr Hfill).
  - left. split; [assumption|]. exists NullDereference.
    unfold Rtmp.rtmpstreamer_tilde_perform. cbv [bind get ret deref crash].
    apply Z.eqb_neq in Hact. now rewrite Hact, Hfr.
Qed.

Lemma rtsp_perform_cases EAGAIN enc input x :
  let o := Rtsp.rtspstreamer_tilde_perform EAGAIN enc input x in
  (exists f, o = (Crash f, x, []))
  \/ (exists fr samples,
         Rtsp.frame x = Some fr
         /\ fill_from Rtsp.convert 0 input (AV.data fr) = Next samples
         /\ o = let x' := rtsp_assembled x input samples in
                if send_frame enc <? 0 then
                  (Return tt, x',
                   [Call avcodec_send_frame;
                    pd_error "Error sending frame to codec"])
                else
                  let d := receive_packets EAGAIN _ unit Rtsp.audio_st
                             "Error encoding audio frame"
                             "Error while writing audio frame"
                             (packets enc) x' in
                  (result_of d, x', Call avcodec_send_frame :: trace_of d)).
Proof.
  intros o. subst o.
  destruct (Rtsp.frame x) as [fr|] eqn:Hfr.
  - destruct (fill_from Rtsp.convert 0 input (AV.data fr))
      as [l|r|f] eqn:Hfill.
    + right. exists fr, l. repeat split; trivial.
      exact (rtsp_perform_streaming _ _ _ _ _ _ Hfr Hfill).
    + generalize (fill_from_spec Rtsp.convert input [] (AV.data fr)).
      cbn [List.length app]. rewrite Hfill. intros [].
    + left. exists f. exact (rtsp_perform_crash _ _ _ _ _ _ Hfr Hfill).
  - left. exists NullDereference.
    unfold Rtsp.rtspstreamer_tilde_perform. cbv [bind get ret deref crash].
    now rewrite Hfr.
Qed.

Lemma rtmp_perform_events EAGAIN enc input x :
  forallb block_event
    (trace_of (Rtmp.rtmpstreamer_tilde_perform EAGAIN enc input x)) = true.
Proof.
  destruct (rtmp_perform_cases EAGAIN enc input x)
    as [[_ ->]|[[_ [f ->]]|[_ (fr & l & _ & _ & ->)]]]; try reflexivity.
  cbn zeta. destruct (send_frame enc <? 0); [reflexivity|].
  cbn [trace_of snd forallb andb].
  apply drain_events_block, receive_packets_events.
Qed.

Lemma rtmp_perform_flag EAGAIN enc input x :
  Rtmp.streaming_active
    (state_of (Rtmp.rtmpstreamer_tilde_perform EAGAIN enc input x))
  = Rtmp.streaming_active x.
Proof.
  destruct (rtmp_perform_cases EAGAIN enc input x)
    as [[_ ->]|[[_ [f ->]]|[_ (fr & l & _ & _ & ->)]]]; try reflexivity.
  cbn zeta. destruct (send_frame enc <? 0); reflexivity.
Qed.

(** A call that a trace's events exclude is not in the trace. *)
Lemma events_count (P : event -> bool) f t :
  forallb P t = true ->
  P (Call f) = false ->
  count_calls f t = 0%nat.
Proof.
  intros Ht Hf. unfold count_calls.
  induction t as [|e t IH]; [reflexivity|].
  cbn [forallb] in Ht. apply andb_prop in Ht as [He Ht].
  cbn [filter]. destruct (is_call f e) eqn:Hfe; [|now apply IH].
  destruct e as [g| |]; try discriminate.
  cbn [is_call] in Hfe.
  apply internal_call_dec_bl in Hfe. subst g. congruence.
Qed.

(** ** Balance of the network layer *)

Lemma rtmp_teardown_network x :
  count_calls avformat_network_init (rtmp_teardown_calls x) = 0%nat
  /\ count_calls avformat_network_deinit (rtmp_teardown_calls x) = 1%nat.
Proof.
  unfold rtmp_teardown_calls, close_output, when_held.
  destruct (Rtmp.fmt_ctx x) as [ctx|], (Rtmp.codec_ctx x), (Rtmp.frame x);
    try destruct (AV.nofile ctx); split; reflexivity.
Qed.

Lemma rtmp_connect_network lib x :
  Rtmp.url x <> None ->
  let t := trace_of (Rtmp.initialize_streaming lib x) in
  count_calls avformat_network_init t = 1%nat
  /\ count_calls avformat_network_deinit t = 0%nat
  /\ count_calls av_dict_free t = count_calls avformat_write_header t.
Proof.
  intros Hurl t. subst t.
  destruct x as [xo [name|] ctx st cc fr p sig a];
    cbn in Hurl; try discriminate; try congruence.
  unfold Rtmp.initialize_streaming, Rtmp.update_frame. unfold_prog.
  cbn -[repeat]. split_prog; repeat split; reflexivity.
Qed.

Lemma streaming_sessions_le x : (streaming_sessions x <= 1)%nat.
Proof. unfold streaming_sessions. destruct (_ =? 0); lia. Qed.

Lemma rtmp_symbol_idle_balance lib s x :
  Rtmp.streaming_active x = 0 ->
  let o := Rtmp.rtmpstreamer_tilde_symbol lib s x in
  (count_calls avformat_network_deinit (trace_of o)
   + streaming_sessions (state_of o)
   <= count_calls avformat_network_init (trace_of o))%nat.
Proof.
  intros Hact o. subst o.
  destruct (symbol_cases s) as [(name & -> & Hlen)|Hempty].
  - rewrite rtmp_symbol_idle by assumption. cbn zeta.
    destruct (rtmp_connect_network lib (Rtmp.set_url (Some name) x))
      as (Hi & Hd & _); [discriminate|].
    destruct (rtmp_connect_result lib (Rtmp.set_url (Some name) x))
      as (Hres & _ & _ & _ & Hflag & _); [discriminate|].
    set (o := Rtmp.initialize_streaming lib (Rtmp.set_url (Some name) x)) in *.
    assert (Hcount : forall f a z,
               count_calls f (post a :: trace_of o ++ [z])
               = (count_calls f (trace_of o) + count_calls f [z])%nat).
    { intros. change (post a :: trace_of o ++ [z])
        with ([post a] ++ trace_of o ++ [z]).
      now rewrite !count_calls_app. }
    destruct Hres as [Hres|Hres]; rewrite Hres; cbn [Z.eqb];
      cbn [trace_of state_of fst snd]; rewrite !Hcount;
      fold (trace_of o); rewrite Hi, Hd; cbn [count_calls filter is_call List.length].
    + pose proof (streaming_sessions_le
                    (Rtmp.set_streaming_active 1 (state_of o))).
      lia.
    + unfold streaming_sessions. fold (state_of o). rewrite Hflag. cbn.
      rewrite Hact. cbn. lia.
  - rewrite rtmp_symbol_empty by assumption.
    cbn [trace_of state_of fst snd]. unfold streaming_sessions. cbn.
    rewrite Hact. cbn. lia.
Qed.

Lemma rtmp_serve_balance c x :
  let o := Rtmp.serve c x in
  (count_calls avformat_network_deinit (trace_of o)
   + streaming_sessions (state_of o)
   <= count_calls avformat_network_init (trace_of o)
      + streaming_sessions x)%nat.
Proof.
  intros o. subst o.
  assert (Hinv : forall {R'} (p : Rtmp.prog unit unit),
             trace_of (invoke (R' := R') p x) = trace_of (p x)).
  { intros. unfold invoke. destruct (p x) as [[[r|r|f] x'] t]; reflexivity. }
  destruct c as [lib s|EAGAIN enc input]; cbn [Rtmp.serve];
    rewrite invoke_state, Hinv.
  - destruct (Z.eq_dec (Rtmp.streaming_active x) 0) as [Hact|Hact].
    + pose proof (rtmp_symbol_idle_balance lib s x Hact) as H.
      cbn zeta in H. lia.
    + rewrite rtmp_symbol_streaming by assumption. cbn zeta.
      cbn [trace_of state_of fst snd]. rewrite !count_calls_app.
      destruct (rtmp_teardown_network x) as [-> ->].
      pose proof (rtmp_symbol_idle_balance lib s
                    (Rtmp.set_streaming_active 0 (rtmp_released x))
                    eq_refl) as H.
      cbn zeta in H. unfold trace_of, state_of in *.
      unfold streaming_sessions at 2.
      apply Z.eqb_neq in Hact. rewrite Hact. lia.
  - unfold streaming_sessions. rewrite rtmp_perform_flag.
    rewrite !(events_count _ _ _ (rtmp_perform_events EAGAIN enc input x))
      by reflexivity.
    lia.
Qed.

Lemma rtmp_host_balance calls :
  forall x,
    let o := Rtmp.host calls x in
    (count_calls avformat_network_deinit (trace_of o)
     + streaming_sessions (state_of o)
     <= count_calls avformat_network_init (trace_of o)
        + streaming_sessions x)%nat.
Proof.
  induction calls as [|c rest IH]; intros x; [cbn; lia|].
  cbn [Rtmp.host]. unfold bind.
  pose proof (rtmp_serve_balance c x) as Hc. cbn zeta in Hc.
  destruct (Rtmp.serve c x) as [[[r|r|f] x1] t1];
    cbn [trace_of state_of fst snd] in Hc |- *; try exact Hc.
  specialize (IH x1). cbn zeta in IH.
  destruct (Rtmp.host rest x1) as [[r2 x2] t2].
  cbn [trace_of state_of fst snd] in IH |- *.
  rewrite !count_calls_app. lia.
Qed.

Lemma rtmp_life_balance s calls :
  (count_calls avformat_network_deinit (trace_of (Rtmp.life s calls))
   + streaming_sessions (state_of (Rtmp.life s calls))
   <= count_calls avformat_network_init (trace_of (Rtmp.life s calls)))%nat.
Proof.
  unfold Rtmp.life, bind, invoke.
  destruct (rtmp_new_outcome s) as (Hres & Hst & Ht).
  destruct (Rtmp.rtmpstreamer_tilde_new s Rtmp.fresh) as [[r x0] t0].
  cbn [result_of state_of trace_of fst snd] in Hres, Hst, Ht. subst r x0 t0.
  pose proof (rtmp_host_balance calls
                (Rtmp.set_url (creation_url s) Rtmp.fresh)) as H.
  cbn zeta in H.
  destruct (Rtmp.host calls _) as [[r2 x2] t2].
  cbn [trace_of state_of fst snd] in H |- *.
  change (streaming_sessions (Rtmp.set_url (creation_url s) Rtmp.fresh))
    with 0%nat in H.
  match goal with
  | |- context [count_calls _ (?a ++ t2)] =>
      rewrite !(count_calls_app _ a t2)
  end.
  cbn [count_calls filter is_call List.length call_beq] in *. lia.
Qed.

(** A whole life is the life up to the destructor, then the destructor. *)
Lemma rtmp_lifetime_unfold s calls :
  rtmp_lifetime s calls
  = match Rtmp.life s calls with
    | (Next _, x, t) =>
        (result_of (invoke (R' := unit) Rtmp.rtmpstreamer_tilde_free x),
         state_of (Rtmp.rtmpstreamer_tilde_free x),
         t ++ trace_of (Rtmp.rtmpstreamer_tilde_free x))
    | (Return r, x, t) => (Return r, x, t)
    | (Crash f, x, t) => (Crash f, x, t)
    end.
Proof.
  unfold rtmp_lifetime, Rtmp.life, bind.
  destruct (invoke (Rtmp.rtmpstreamer_tilde_new s) Rtmp.fresh)
    as [[[r|r|f] x0] t0]; try reflexivity.
  destruct (Rtmp.host calls x0) as [[[r1|r1|f1] x1] t1]; try reflexivity.
  unfold invoke.
  destruct (Rtmp.rtmpstreamer_tilde_free x1) as [[[r2|r2|f2] x2] t2];
    cbn; now rewrite app_assoc.
Qed.

(** X7.  Over any life of a push object [avformat_network_deinit] is never
    called more often than [avformat_network_init]: at every point the calls
    of the former, plus one if the session is Streaming, are at most those of
    the latter; the same holds once the destructor has run. *)
Theorem network_deinit_never_outnumbers_init s calls :
  (count_calls avformat_network_deinit (trace_of (Rtmp.life s calls))
   + streaming_sessions (state_of (Rtmp.life s calls))
   <= count_calls avformat_network_init (trace_of (Rtmp.life s calls)))%nat
  /\ (count_calls avformat_network_deinit (trace_of (rtmp_lifetime s calls))
      <= count_calls avformat_network_init (trace_of (rtmp_lifetime s calls)))%nat.
Proof.
  pose proof (rtmp_life_balance s calls) as H.
  split; [exact H|].
  rewrite rtmp_lifetime_unfold.
  destruct (Rtmp.life s calls) as [[[r|r|f] x] t];
    cbn [trace_of state_of fst snd] in H |- *; try lia.
  rewrite !count_calls_app.
  unfold streaming_sessions in H.
  destruct (Z.eq_dec (Rtmp.streaming_active x) 0) as [Hact|Hact].
  - rewrite (rtmp_free_idle x Hact). cbn. lia.
  - rewrite (rtmp_free_streaming x Hact). cbn [trace_of snd].
    destruct (rtmp_teardown_network x) as [-> ->].
    apply Z.eqb_neq in Hact. rewrite Hact in H. lia.
Qed.

(** ** Blocks on reachable sessions *)

Lemma clamp_fill_fits input samples :
  (List.length input <= List.length samples)%nat ->
  fill_from (fun s => Some (F32.clamp s)) 0 input samples
  = Next (map F32.clamp input ++ skipn (List.length input) samples).
Proof.
  intros Hfit. apply fill_from_fits; [|assumption].
  apply Forall2_map_Some.
Qed.

Lemma rtmp_perform_result EAGAIN enc input x :
  rtmp_coherent x ->
  let o := Rtmp.rtmpstreamer_tilde_perform EAGAIN enc input x in
  result_of o = Next tt
  \/ result_of o = Return tt
  \/ (result_of o = Crash OutOfBounds
      /\ exists fr,
           Rtmp.frame x = Some fr
           /\ (List.length (AV.data fr) < List.length input)%nat).
Proof.
  intros Hx o. subst o.
  destruct (Z.eq_dec (Rtmp.streaming_active x) 0) as [Hact|Hact].
  { left. now rewrite rtmp_perform_idle. }
  specialize (Hx Hact). unfold rtmp_holds_session in Hx.
  destruct (Rtmp.fmt_ctx x), (Rtmp.audio_st x) as [st|] eqn:Hst,
    (Rtmp.codec_ctx x), (Rtmp.frame x) as [fr|] eqn:Hfr; try discriminate.
  destruct (le_lt_dec (List.length input) (List.length (AV.data fr)))
    as [Hfit|Hlong].
  - rewrite (rtmp_perform_streaming _ _ _ _ _ _ Hact Hfr
               (clamp_fill_fits _ _ Hfit)).
    cbn zeta. destruct (send_frame enc <? 0); [right; left; reflexivity|].
    left. cbn [result_of fst].
    apply receive_packets_result. cbn. rewrite Hst. discriminate.
  - right. right. split; [|now exists fr].
    apply (rtmp_assembler EAGAIN enc input x fr Hact Hfr). exact Hlong.
Qed.

(** X8.  On every session a push object can reach, the perform routine
    dereferences no NULL pointer: it either runs to its end, or returns early
    on a rejected frame, or stores past the frame buffer, the last exactly
    when the session is Streaming and the block is longer than the buffer. *)
Theorem perform_faults_only_on_overlong_block s calls EAGAIN enc input :
  let x := state_of (Rtmp.life s calls) in
  let o := Rtmp.rtmpstreamer_tilde_perform EAGAIN enc input x in
  (result_of o = Next tt \/ result_of o = Return tt
   \/ result_of o = Crash OutOfBounds)
  /\ (result_of o = Crash OutOfBounds <->
      Rtmp.streaming_active x <> 0
      /\ exists fr,
           Rtmp.frame x = Some fr
           /\ (List.length (AV.data fr) < List.length input)%nat).
Proof.
  intros x o.
  pose proof (rtmp_life_coherent s calls) as Hx. fold x in Hx.
  destruct (rtmp_perform_result EAGAIN enc input x Hx) as [H|[H|[H Hlong]]];
    fold o in H; (split; [now auto|]).
  3: { split; [intros _|trivial]. split; [|exact Hlong].
       intros Hact. subst o. rewrite rtmp_perform_idle in H by assumption.
       discriminate. }
  all: split; [rewrite H; discriminate|].
  all: intros (Hact & fr & Hfr & Hlong).
  all: pose proof (proj2 (proj1 (rtmp_assembler EAGAIN enc input x fr Hact Hfr))
                     Hlong) as Hc.
  all: fold o in Hc; congruence.
Qed.

(** The session a block leaves behind, read off the session it found. *)
Lemma rtmp_perform_state EAGAIN enc input x :
  state_of (Rtmp.rtmpstreamer_tilde_perform EAGAIN enc input x)
  = if Rtmp.streaming_active x =? 0 then x
    else match Rtmp.frame x with
         | Some fr =>
             match fill_from (fun s => Some (F32.clamp s)) 0 input
                     (AV.data fr) with
             | Next samples => rtmp_assembled x input samples
             | _ => x
             end
         | None => x
         end.
Proof.
  destruct (rtmp_perform_cases EAGAIN enc input x)
    as [[Hact ->]|[[Hact [f H]]|[Hact (fr & l & Hfr & Hfill & ->)]]].
  - now rewrite Hact.
  - rewrite H. cbn [state_of fst snd].
    destruct (_ =? 0); [reflexivity|].
    destruct (Rtmp.frame x) as [fr|] eqn:Hfr; [|reflexivity].
    destruct (fill_from _ 0 input (AV.data fr)) as [l|r|g] eqn:Hfill;
      try reflexivity.
    rewrite (rtmp_perform_streaming _ _ _ _ _ _ Hact Hfr Hfill) in H.
    cbn zeta in H. destruct (send_frame enc <? 0); discriminate.
  - apply Z.eqb_neq in Hact. rewrite Hact, Hfr, Hfill. cbn zeta.
    destruct (send_frame enc <? 0); reflexivity.
Qed.

Lemma rtsp_perform_state EAGAIN enc input x :
  state_of (Rtsp.rtspstreamer_tilde_perform EAGAIN enc input x)
  = match Rtsp.frame x with
    | Some fr =>
        match fill_from Rtsp.convert 0 input (AV.data fr) with
        | Next samples => rtsp_assembled x input samples
        | _ => x
        end
    | None => x
    end.
Proof.
  destruct (rtsp_perform_cases EAGAIN enc input x)
    as [[f H]|(fr & l & Hfr & Hfill & ->)].
  - rewrite H. cbn [state_of fst snd].
    destruct (Rtsp.frame x) as [fr|] eqn:Hfr; [|reflexivity].
    destruct (fill_from _ 0 input (AV.data fr)) as [l|r|g] eqn:Hfill;
      try reflexivity.
    rewrite (rtsp_perform_streaming _ _ _ _ _ _ Hfr Hfill) in H.
    cbn zeta in H. destruct (send_frame enc <? 0); discriminate.
  - rewrite Hfr, Hfill. cbn zeta.
    destruct (send_frame enc <? 0); reflexivity.
Qed.

(** X9.  Whatever the block and whatever the encoder answers, the perform
    routines leave the URL, the container, the stream, the encoder and (push
    variant) the flag as they were, and the frame buffer keeps its capacity:
    a block changes nothing but the frame's contents, its declared length,
    its timestamp and the clock. *)
Theorem perform_changes_only_frame_and_clock :
  (forall EAGAIN enc input x,
      let x' := state_of (Rtmp.rtmpstreamer_tilde_perform EAGAIN enc input x) in
      Rtmp.url x' = Rtmp.url x
      /\ Rtmp.fmt_ctx x' = Rtmp.fmt_ctx x
      /\ Rtmp.audio_st x' = Rtmp.audio_st x
      /\ Rtmp.codec_ctx x' = Rtmp.codec_ctx x
      /\ Rtmp.streaming_active x' = Rtmp.streaming_active x
      /\ capacity (Rtmp.frame x') = capacity (Rtmp.frame x))
  /\ (forall EAGAIN enc input x,
         let x' :=
           state_of (Rtsp.rtspstreamer_tilde_perform EAGAIN enc input x) in
         Rtsp.url x' = Rtsp.url x
         /\ Rtsp.fmt_ctx x' = Rtsp.fmt_ctx x
         /\ Rtsp.audio_st x' = Rtsp.audio_st x
         /\ Rtsp.codec_ctx x' = Rtsp.codec_ctx x
         /\ capacity (Rtsp.frame x') = capacity (Rtsp.frame x)).
Proof.
  split; intros EAGAIN enc input x x'; subst x'.
  - rewrite rtmp_perform_state.
    destruct (Rtmp.streaming_active x =? 0); [repeat split|].
    destruct (Rtmp.frame x) as [fr|] eqn:Hfr; [|now rewrite Hfr].
    destruct (fill_from _ 0 input (AV.data fr)) as [l|r|f] eqn:Hfill;
      try (now rewrite Hfr).
    repeat split. cbn. now rewrite (fill_from_length _ _ _ _ Hfill).
  - rewrite rtsp_perform_state.
    destruct (Rtsp.frame x) as [fr|] eqn:Hfr; [|now rewrite Hfr].
    destruct (fill_from _ 0 input (AV.data fr)) as [l|r|f] eqn:Hfill;
      try (now rewrite Hfr).
    repeat split. cbn. now rewrite (fill_from_length _ _ _ _ Hfill).
Qed.

(** X10.  The session a block leaves behind does not depend on what the
    encoder and the muxer answer.  In particular a frame the encoder rejects
    has still been stamped with the clock, and the clock has still advanced
    by the block's length. *)
Theorem clock_advances_whatever_the_encoder_answers :
  (forall EAGAIN enc EAGAIN' enc' input x,
      state_of (Rtmp.rtmpstreamer_tilde_perform EAGAIN enc input x)
      = state_of (Rtmp.rtmpstreamer_tilde_perform EAGAIN' enc' input x))
  /\ (forall EAGAIN enc EAGAIN' enc' input x,
         state_of (Rtsp.rtspstreamer_tilde_perform EAGAIN enc input x)
         = state_of (Rtsp.rtspstreamer_tilde_perform EAGAIN' enc' input x))
  /\ (forall EAGAIN enc input x fr,
         Rtmp.streaming_active x <> 0 ->
         Rtmp.frame x = Some fr ->
         (List.length input <= List.length (AV.data fr))%nat ->
         send_frame enc < 0 ->
         let o := Rtmp.rtmpstreamer_tilde_perform EAGAIN enc input x in
         result_of o = Return tt
         /\ Rtmp.pts (state_of o)
            = int64_wrap (Rtmp.pts x + Z.of_nat (List.length input))
         /\ option_map AV.pts (Rtmp.frame (state_of o)) = Some (Rtmp.pts x)).
Proof.
  split; [|split].
  - intros. now rewrite !rtmp_perform_state.
  - intros. now rewrite !rtsp_perform_state.
  - intros EAGAIN enc input x fr Hact Hfr Hfit Hsend o. subst o.
    rewrite (rtmp_perform_streaming _ _ _ _ _ _ Hact Hfr
               (clamp_fill_fits _ _ Hfit)).
    cbn zeta. apply Z.ltb_lt in Hsend. rewrite Hsend. repeat split.
Qed.

Lemma clock_advances_whatever_the_encoder_answers_witness :
  (Rtmp.streaming_active rtmp_streaming <> 0
   /\ Rtmp.frame rtmp_streaming
      = Some (AV.Build_AVFrame 4 AV_NOPTS_VALUE (repeat (S754_zero false) 4)))
  /\ Rtmp.pts
       (state_of (Rtmp.rtmpstreamer_tilde_perform 11
                    {| send_frame := -22; packets := [] |} [half; two]
                    rtmp_streaming))
     = 2.
Proof.
  assert (H1 : Rtmp.streaming_active rtmp_streaming <> 0)
    by (vm_compute; discriminate).
  assert (H2 : Rtmp.frame rtmp_streaming
               = Some (AV.Build_AVFrame 4 AV_NOPTS_VALUE
                         (repeat (S754_zero false) 4)))
    by reflexivity.
  split; [auto|].
  destruct (proj2 (proj2 clock_advances_whatever_the_encoder_answers)
              11 {| send_frame := -22; packets := [] |} [half; two]
              rtmp_streaming _ H1 H2) as (_ & Hpts & _).
  - cbn. lia.
  - reflexivity.
  - rewrite Hpts. reflexivity.
Defined.

(** X11.  An empty block delivered while streaming is not skipped: the
    frame is declared empty, stamped with the clock and submitted to the
    encoder once; the samples in the buffer stay as they were and the clock
    keeps its value (reduced to 64 bits). *)
Theorem empty_block_still_submits_a_frame :
  (forall EAGAIN enc x fr,
      Rtmp.streaming_active x <> 0 ->
      Rtmp.frame x = Some fr ->
      let o := Rtmp.rtmpstreamer_tilde_perform EAGAIN enc [] x in
      Rtmp.frame (state_of o)
      = Some (AV.Build_AVFrame 0 (Rtmp.pts x) (AV.data fr))
      /\ Rtmp.pts (state_of o) = int64_wrap (Rtmp.pts x)
      /\ count_calls avcodec_send_frame (trace_of o) = 1%nat)
  /\ (forall EAGAIN enc x fr,
         Rtsp.frame x = Some fr ->
         let o := Rtsp.rtspstreamer_tilde_perform EAGAIN enc [] x in
         Rtsp.frame (state_of o)
         = Some (AV.Build_AVFrame 0 (Rtsp.pts x) (AV.data fr))
         /\ Rtsp.pts (state_of o) = int64_wrap (Rtsp.pts x)
         /\ count_calls avcodec_send_frame (trace_of o) = 1%nat).
Proof.
  split.
  - intros EAGAIN enc x fr Hact Hfr o. subst o.
    rewrite (rtmp_perform_streaming _ _ _ _ _ (AV.data fr) Hact Hfr)
      by reflexivity.
    cbn zeta. unfold rtmp_assembled. cbn [List.length Z.of_nat].
    rewrite Z.add_0_r.
    destruct (send_frame enc <? 0); repeat split.
    cbn [trace_of snd].
    change (Call avcodec_send_frame :: ?t)
      with ([Call avcodec_send_frame] ++ t).
    rewrite count_calls_app.
    rewrite (events_count _ _ _ (receive_packets_events _ _ _ _ _ _ _ _));
      reflexivity.
  - intros EAGAIN enc x fr Hfr o. subst o.
    rewrite (rtsp_perform_streaming _ _ _ _ _ (AV.data fr) Hfr)
      by reflexivity.
    cbn zeta. unfold rtsp_assembled. cbn [List.length Z.of_nat].
    rewrite Z.add_0_r.
    destruct (send_frame enc <? 0); repeat split.
    cbn [trace_of snd].
    change (Call avcodec_send_frame :: ?t)
      with ([Call avcodec_send_frame] ++ t).
    rewrite count_calls_app.
    rewrite (events_count _ _ _ (receive_packets_events _ _ _ _ _ _ _ _));
      reflexivity.
Qed.

Lemma empty_block_still_submits_a_frame_witness :
  (Rtmp.streaming_active rtmp_streaming <> 0
   /\ Rtmp.frame rtmp_streaming
      = Some (AV.Build_AVFrame 4 AV_NOPTS_VALUE (repeat (S754_zero false) 4)))
  /\ Rtmp.frame
       (state_of (Rtmp.rtmpstreamer_tilde_perform 11 quiet [] rtmp_streaming))
     = Some (AV.Build_AVFrame 0 0 (repeat (S754_zero false) 4))
  /\ count_calls avcodec_send_frame
       (trace_of (Rtmp.rtmpstreamer_tilde_perform 11 quiet [] rtmp_streaming))
     = 1%nat.
Proof.
  assert (H1 : Rtmp.streaming_active rtmp_streaming <> 0)
    by (vm_compute; discriminate).
  assert (H2 : Rtmp.frame rtmp_streaming
               = Some (AV.Build_AVFrame 4 AV_NOPTS_VALUE
                         (repeat (S754_zero false) 4)))
    by reflexivity.
  split; [auto|].
  destruct (proj1 empty_block_still_submits_a_frame 11 quiet rtmp_streaming
              _ H1 H2) as (Hf & _ & Hc).
  split; [rewrite Hf; reflexivity|exact Hc].
Defined.

(** ** The frame buffer a connection allocates *)

(** X12.  After a successful connect sequence the frame declares, and its
    buffer holds, as many samples as the codec's frame size, or 1024 when the
    codec reports a frame size of 0. *)
Theorem connected_frame_has_the_codec_frame_size :
  (forall lib x,
      Rtmp.url x <> None ->
      first_failure lib rtmp_substeps = None ->
      0 <= frame_size lib ->
      exists fr,
        Rtmp.frame (state_of (Rtmp.initialize_streaming lib x)) = Some fr
        /\ AV.nb_samples fr = frame_capacity lib
        /\ Z.of_nat (List.length (AV.data fr)) = frame_capacity lib)
  /\ (forall lib name x0,
         first_failure lib rtsp_substeps = None ->
         0 <= frame_size lib ->
         exists fr,
           Rtsp.frame (state_of (Rtsp.rtspstreamer_tilde_new lib (Some name) x0))
           = Some fr
           /\ AV.nb_samples fr = frame_capacity lib
           /\ Z.of_nat (List.length (AV.data fr)) = frame_capacity lib).
Proof.
  split.
  - intros lib x Hurl Hk Hsize.
    unfold first_failure, rtmp_substeps, find, fails in Hk.
    destruct x as [xo [name|] ctx st cc fr p sig a];
      cbn in Hurl; try discriminate; try congruence.
    unfold Rtmp.initialize_streaming, Rtmp.update_frame. unfold_prog.
    cbn -[repeat precedes].
    unfold frame_capacity.
    first_failure_cases Hk; try discriminate;
      destruct (frame_size lib =? 0) eqn:Hz; cbn -[repeat precedes];
      repeat match goal with
        | E : (status _ _ _ <? 0) = _ |- _ => rewrite E
        end;
      eexists; cbn -[repeat];
      (split; [reflexivity|]); (split; [reflexivity|]);
      cbn -[repeat]; rewrite repeat_length; (reflexivity || lia).
  - intros lib name x0 Hk Hsize.
    unfold first_failure, rtsp_substeps, find, fails in Hk.
    unfold Rtsp.rtspstreamer_tilde_new, Rtsp.update_frame. unfold_prog.
    cbn -[repeat precedes].
    unfold frame_capacity.
    first_failure_cases Hk; try discriminate;
      destruct (frame_size lib =? 0) eqn:Hz; cbn -[repeat precedes];
      repeat match goal with
        | E : (status _ _ _ <? 0) = _ |- _ => rewrite E
        end;
      eexists; cbn -[repeat];
      (split; [reflexivity|]); (split; [reflexivity|]);
      cbn -[repeat]; rewrite repeat_length; (reflexivity || lia).
Qed.

Lemma connected_frame_has_the_codec_frame_size_witness :
  (Rtmp.url (Rtmp.set_url (Some "rtmp://host/live"%string) rtmp_idle) <> None
   /\ first_failure any_frame_size rtmp_substeps = None
   /\ 0 <= frame_size any_frame_size)
  /\ exists fr,
       Rtmp.frame
         (state_of (Rtmp.initialize_streaming any_frame_size
                      (Rtmp.set_url (Some "rtmp://host/live"%string)
                         rtmp_idle)))
       = Some fr
       /\ AV.nb_samples fr = 1024
       /\ Z.of_nat (List.length (AV.data fr)) = 1024.
Proof.
  assert (H1 : Rtmp.url (Rtmp.set_url (Some "rtmp://host/live"%string)
                           rtmp_idle) <> None) by discriminate.
  assert (H2 : first_failure any_frame_size rtmp_substeps = None)
    by reflexivity.
  assert (H3 : 0 <= frame_size any_frame_size) by (cbn; lia).
  split; [auto|].
  exact (proj1 connected_frame_has_the_codec_frame_size any_frame_size
           (Rtmp.set_url (Some "rtmp://host/live"%string) rtmp_idle)
           H1 H2 H3).
Defined.

(** ** A drain that ends quietly *)

(** The drain loop on a script whose first steps [pre] all transmit a packet
    and that then ends or answers "nothing ready". *)
Lemma receive_packets_drained EAGAIN S R audio_st m1 m2 pre :
  forall script x,
    audio_st x <> None ->
    drained EAGAIN pre script ->
    receive_packets EAGAIN S R audio_st m1 m2 script x
    = (Next tt, x,
       flat_map (fun _ => transmit_events) pre
         ++ [Call avcodec_receive_packet]).
Proof.
  induction pre as [|[r w] pre IH]; intros script x Hst [Hpre Hscript].
  - destruct Hscript as [->|(rw & post & -> & Hstop)]; [reflexivity|].
    destruct rw as [r w]. unfold stops in Hstop. cbn [fst] in Hstop.
    cbn [receive_packets app]; cbv [bind emit get ret].
    now rewrite Hstop.
  - cbn [forallb] in Hpre. apply andb_prop in Hpre as [Hrw Hpre].
    unfold transmitted in Hrw. cbn [fst snd] in Hrw.
    apply andb_prop in Hrw as [Hrw Hw].
    apply andb_prop in Hrw as [Hrw Hr].
    apply andb_prop in Hrw as [Ha He].
    apply negb_true_iff in Ha, He.
    apply Z.leb_le in Hr, Hw.
    assert (Hr' : (r <? 0) = false) by (apply Z.ltb_ge; lia).
    assert (Hw' : (w <? 0) = false) by (apply Z.ltb_ge; lia).
    assert (Hrest : exists rest,
               script = (r, w) :: rest /\ drained EAGAIN pre rest).
    { destruct Hscript as [->|(rw & post & -> & Hstop)].
      - exists pre. split; [reflexivity|]. split; [assumption|now left].
      - exists (pre ++ rw :: post). split; [reflexivity|].
        split; [assumption|]. right. now exists rw, post. }
    destruct Hrest as (rest & -> & Hrest).
    cbn [receive_packets]; cbv [bind emit get ret deref crash].
    rewrite Ha, He, Hr'. cbn [orb].
    destruct (audio_st x) eqn:Hx; [|congruence].
    rewrite Hw'. rewrite (IH rest x) by (trivial; congruence).
    reflexivity.
Qed.

(** X13.  A block whose frame the encoder accepts and whose packets are all
    written: every packet the encoder has ready is received, written and
    unreferenced, in this order, until the encoder answers AVERROR(EAGAIN) or
    AVERROR_EOF or has nothing more; the routine then ends with no
    diagnostic, and the encoder's later answers are not read. *)
Theorem drain_writes_every_ready_packet :
  (forall EAGAIN enc input x fr pre,
      Rtmp.streaming_active x <> 0 ->
      Rtmp.frame x = Some fr ->
      Rtmp.audio_st x <> None ->
      (List.length input <= List.length (AV.data fr))%nat ->
      0 <= send_frame enc ->
      drained EAGAIN pre (packets enc) ->
      let o := Rtmp.rtmpstreamer_tilde_perform EAGAIN enc input x in
      result_of o = Next tt
      /\ trace_of o
         = Call avcodec_send_frame
             :: flat_map (fun _ => transmit_events) pre
             ++ [Call avcodec_receive_packet])
  /\ (forall EAGAIN enc input x fr pre,
         Rtsp.frame x = Some fr ->
         Rtsp.audio_st x <> None ->
         (List.length input <= List.length (AV.data fr))%nat ->
         Forall (fun s => Rtsp.convert s <> None) input ->
         0 <= send_frame enc ->
         drained EAGAIN pre (packets enc) ->
         let o := Rtsp.rtspstreamer_tilde_perform EAGAIN enc input x in
         result_of o = Next tt
         /\ trace_of o
            = Call avcodec_send_frame
                :: flat_map (fun _ => transmit_events) pre
                ++ [Call avcodec_receive_packet]).
Proof.
  split.
  - intros EAGAIN enc input x fr pre Hact Hfr Hst Hfit Hsend Hdr o. subst o.
    rewrite (rtmp_perform_streaming _ _ _ _ _ _ Hact Hfr
               (clamp_fill_fits _ _ Hfit)).
    cbn zeta. apply Z.ltb_ge in Hsend. rewrite Hsend.
    rewrite (receive_packets_drained _ _ _ _ _ _ pre) by (trivial; exact Hst).
    split; reflexivity.
  - intros EAGAIN enc input x fr pre Hfr Hst Hfit Hconv Hsend Hdr o. subst o.
    destruct (convertible_values input Hconv) as [vals Hvals].
    rewrite (rtsp_perform_streaming _ _ _ _ _ _ Hfr
               (fill_from_fits _ _ _ _ Hvals Hfit)).
    cbn zeta. apply Z.ltb_ge in Hsend. rewrite Hsend.
    rewrite (receive_packets_drained _ _ _ _ _ _ pre) by (trivial; exact Hst).
    split; reflexivity.
Qed.

Lemma drain_writes_every_ready_packet_witness :
  (Rtmp.streaming_active rtmp_streaming <> 0
   /\ Rtmp.audio_st rtmp_streaming <> None
   /\ drained 11 [(0, 0); (0, 0)] (packets two_packets))
  /\ trace_of (Rtmp.rtmpstreamer_tilde_perform 11 two_packets [half; two]
                 rtmp_streaming)
     = [Call avcodec_send_frame;
        Call avcodec_receive_packet; Call av_interleaved_write_frame;
        Call av_packet_unref;
        Call avcodec_receive_packet; Call av_interleaved_write_frame;
        Call av_packet_unref;
        Call avcodec_receive_packet].
Proof.
  assert (H1 : Rtmp.streaming_active rtmp_streaming <> 0)
    by (vm_compute; discriminate).
  assert (H2 : Rtmp.audio_st rtmp_streaming <> None)
    by (vm_compute; discriminate).
  assert (H3 : drained 11 [(0, 0); (0, 0)] (packets two_packets))
    by (split; [reflexivity|now left]).
  split; [auto|].
  assert (H4 : Rtmp.frame rtmp_streaming
               = Some (AV.Build_AVFrame 4 AV_NOPTS_VALUE
                         (repeat (S754_zero false) 4)))
    by reflexivity.
  refine (proj2 (proj1 drain_writes_every_ready_packet 11 two_packets
                   [half; two] rtmp_streaming _ [(0, 0); (0, 0)]
                   H1 H4 H2 _ _ H3)).
  - cbn. lia.
  - cbn. lia.
Defined.

(** ** The symbol handler of the session-based variant *)

(** The drain loop reads nothing of the session but its stream pointer. *)
Lemma receive_packets_stream EAGAIN S R audio_st m1 m2 script :
  forall x y,
    audio_st x = audio_st y ->
    result_of (receive_packets EAGAIN S R audio_st m1 m2 script x)
    = result_of (receive_packets EAGAIN S R audio_st m1 m2 script y)
    /\ trace_of (receive_packets EAGAIN S R audio_st m1 m2 script x)
       = trace_of (receive_packets EAGAIN S R audio_st m1 m2 script y).
Proof.
  induction script as [|[r w] rest IH]; intros x y Hxy; [now split|].
  cbn [receive_packets]; cbv [bind emit get ret deref crash].
  destruct ((r =? AVERROR EAGAIN) || (r =? AVERROR_EOF)); [now split|].
  destruct (r <? 0); [now split|].
  destruct (IH x y Hxy) as [Hr Ht].
  cbn beta. rewrite Hxy. destruct (audio_st y); [|now split].
  destruct (w <? 0); [now split|].
  destruct (receive_packets _ _ _ _ _ _ rest x) as [[r1 x1] t1],
    (receive_packets _ _ _ _ _ _ rest y) as [[r2 x2] t2].
  cbn in Hr, Ht |- *. now subst.
Qed.

(** X14.  In the session-based variant a symbol message redirects nothing:
    the handler leaves every handle, the frame and the clock as they were,
    and the next block is processed exactly as it would have been without the
    message (same result, same events, same session but for the recorded
    string). *)
Theorem rtsp_symbol_does_not_redirect s EAGAIN enc input x :
  let x1 := state_of (Rtsp.rtspstreamer_tilde_symbol s x) in
  let o := Rtsp.rtspstreamer_tilde_perform EAGAIN enc input x in
  (Rtsp.fmt_ctx x1 = Rtsp.fmt_ctx x
   /\ Rtsp.audio_st x1 = Rtsp.audio_st x
   /\ Rtsp.codec_ctx x1 = Rtsp.codec_ctx x
   /\ Rtsp.frame x1 = Rtsp.frame x
   /\ Rtsp.pts x1 = Rtsp.pts x)
  /\ Rtsp.rtspstreamer_tilde_perform EAGAIN enc input x1
     = (result_of o, Rtsp.set_url s (state_of o), trace_of o).
Proof.
  intros x1 o. subst x1 o.
  change (state_of (Rtsp.rtspstreamer_tilde_symbol s x))
    with (Rtsp.set_url s x).
  split; [repeat split|].
  destruct (rtsp_perform_cases EAGAIN enc input x)
    as [[f H]|(fr & l & Hfr & Hfill & ->)].
  - rewrite H. cbn [result_of state_of trace_of fst snd].
    destruct (Rtsp.frame x) as [fr|] eqn:Hfr.
    + destruct (fill_from Rtsp.convert 0 input (AV.data fr))
        as [l|r|g] eqn:Hfill.
      * rewrite (rtsp_perform_streaming _ _ _ _ _ _ Hfr Hfill) in H.
        cbn zeta in H. destruct (send_frame enc <? 0); discriminate.
      * generalize (fill_from_spec Rtsp.convert input [] (AV.data fr)).
        cbn [List.length app]. rewrite Hfill. intros [].
      * rewrite (rtsp_perform_crash _ _ _ _ _ _ Hfr Hfill) in H.
        inversion H; subst g.
        now apply (rtsp_perform_crash _ _ _ _ fr).
    + unfold Rtsp.rtspstreamer_tilde_perform in H |- *.
      cbv [bind get ret deref crash] in H |- *.
      cbn [Rtsp.frame Rtsp.set_url]. rewrite Hfr in H |- *.
      now inversion H.
  - rewrite (rtsp_perform_streaming _ _ _ (Rtsp.set_url s x) fr l)
      by assumption.
    cbn zeta. destruct (send_frame enc <? 0); [reflexivity|].
    cbn [result_of state_of trace_of fst snd].
    destruct (receive_packets_stream EAGAIN _ unit Rtsp.audio_st
                "Error encoding audio frame"
                "Error while writing audio frame" (packets enc)
                (rtsp_assembled (Rtsp.set_url s x) input l)
                (rtsp_assembled x input l) eq_refl) as [-> ->].
    reflexivity.
Qed.

(** ** A whole block of the session-based variant *)

(** X15.  A block of valid samples, none of them NaN, that fits the frame of
    a session-based object holding its session: the perform routine does not
    fault, every sample is converted, the converted samples are the first of
    the buffer, each within [-32767, 32767], and the samples beyond the
    block are kept. *)
Theorem rtsp_block_is_quantised_in_range EAGAIN enc input x fr :
  rtsp_streaming x = true ->
  Rtsp.frame x = Some fr ->
  (List.length input <= List.length (AV.data fr))%nat ->
  Forall (fun s => F32.valid s = true /\ is_nan s = false) input ->
  let o := Rtsp.rtspstreamer_tilde_perform EAGAIN enc input x in
  (result_of o = Next tt \/ result_of o = Return tt)
  /\ exists samples,
       map Rtsp.convert input = map Some samples
       /\ Forall (fun z => -32767 <= z <= 32767) samples
       /\ option_map AV.data (Rtsp.frame (state_of o))
          = Some (samples ++ skipn (List.length input) (AV.data fr)).
Proof.
  intros Hx Hfr Hfit Hin o. subst o.
  assert (Hsamples : exists samples,
             Forall2 (fun s v => Rtsp.convert s = Some v) input samples
             /\ Forall (fun z => -32767 <= z <= 32767) samples).
  { clear Hfit. induction Hin as [|s rest [Hv Hn] _ (samples & IH1 & IH2)].
    - exists []. split; constructor.
    - destruct (convert_not_nan s Hv Hn) as [Hc Hr].
      exists (int16_of (F32.clamp s) :: samples).
      split; constructor; assumption. }
  destruct Hsamples as (samples & Hconv & Hrange).
  rewrite (rtsp_perform_streaming _ _ _ _ _ _ Hfr
             (fill_from_fits _ _ _ _ Hconv Hfit)).
  cbn zeta. split.
  - destruct (send_frame enc <? 0); [now right|left].
    cbn [result_of fst]. apply receive_packets_result.
    unfold rtsp_streaming in Hx. cbn.
    destruct (Rtsp.fmt_ctx x), (Rtsp.audio_st x); discriminate.
  - exists samples. repeat split; trivial.
    + clear -Hconv. induction Hconv; cbn; congruence.
    + destruct (send_frame enc <? 0); reflexivity.
Qed.

Lemma rtsp_block_is_quantised_in_range_witness :
  (rtsp_streaming rtsp_created = true
   /\ Rtsp.frame rtsp_created = Some (AV.Build_AVFrame 4 AV_NOPTS_VALUE [0; 0; 0; 0])
   /\ Forall (fun s => F32.valid s = true /\ is_nan s = false)
        [half; two; minus_three])
  /\ exists samples,
       map Rtsp.convert [half; two; minus_three] = map Some samples
       /\ Forall (fun z => -32767 <= z <= 32767) samples
       /\ option_map AV.data
            (Rtsp.frame
               (state_of (Rtsp.rtspstreamer_tilde_perform 11 quiet
                            [half; two; minus_three] rtsp_created)))
          = Some (samples ++ [0]).
Proof.
  assert (H1 : rtsp_streaming rtsp_created = true) by reflexivity.
  assert (H2 : Rtsp.frame rtsp_created
               = Some (AV.Build_AVFrame 4 AV_NOPTS_VALUE [0; 0; 0; 0]))
    by reflexivity.
  assert (H3 : Forall (fun s => F32.valid s = true /\ is_nan s = false)
                 [half; two; minus_three])
    by (repeat constructor).
  split; [auto|].
  refine (proj2 (rtsp_block_is_quantised_in_range 11 quiet
                   [half; two; minus_three] rtsp_created _ H1 H2 _ H3)).
  cbn. lia.
Defined.

(** ** The options dictionary of the connect sequence *)

(** X16.  The options dictionary is the one resource the connect sequence
    of both variants gives back on every path: in every run [av_dict_free] is
    called as often as [avformat_write_header], whether the header was
    written or not, and the options are set only in runs that reach the
    header (twice in the push variant, once in the session-based one). *)
Theorem options_dictionary_is_always_freed :
  (forall lib x,
      Rtmp.url x <> None ->
      let t := trace_of (Rtmp.initialize_streaming lib x) in
      count_calls av_dict_free t = count_calls avformat_write_header t
      /\ count_calls av_dict_set t
         = (2 * count_calls avformat_write_header t)%nat)
  /\ (forall lib name x0,
         let t := trace_of (Rtsp.rtspstreamer_tilde_new lib (Some name) x0) in
         count_calls av_dict_free t = count_calls avformat_write_header t
         /\ count_calls av_dict_set t = count_calls avformat_write_header t).
Proof.
  split.
  - intros lib x Hurl t. subst t.
    destruct x as [xo [name|] ctx st cc fr p sig a];
      cbn in Hurl; try discriminate; try congruence.
    unfold Rtmp.initialize_streaming, Rtmp.update_frame. unfold_prog.
    cbn -[repeat]. split_prog; split; reflexivity.
  - intros lib name x0 t. subst t.
    unfold Rtsp.rtspstreamer_tilde_new, Rtsp.update_frame. unfold_prog.
    cbn -[repeat]. split_prog; split; reflexivity.
Qed.

Lemma options_dictionary_is_always_freed_witness :
  Rtmp.url (Rtmp.set_url (Some "rtmp://host/live"%string) rtmp_idle) <> None
  /\ count_calls av_dict_free
       (trace_of (Rtmp.initialize_streaming (failing avformat_write_header)
                    (Rtmp.set_url (Some "rtmp://host/live"%string)
                       rtmp_idle)))
     = count_calls avformat_write_header
         (trace_of (Rtmp.initialize_streaming (failing avformat_write_header)
                      (Rtmp.set_url (Some "rtmp://host/live"%string)
                         rtmp_idle))).
Proof.
  assert (H : Rtmp.url (Rtmp.set_url (Some "rtmp://host/live"%string)
                          rtmp_idle) <> None) by discriminate.
  split; [exact H|].
  exact (proj1 (proj1 options_dictionary_is_always_freed
                  (failing avformat_write_header)
                  (Rtmp.set_url (Some "rtmp://host/live"%string) rtmp_idle)
                  H)).
Defined.

(** ** Further facts on the sample conversion *)

(** X17.  Clamping is idempotent on every binary32 datum, NaN and the
    infinities included. *)
Theorem clamp_is_idempotent sample :
  F32.clamp (F32.clamp sample) = F32.clamp sample.
Proof.
  destruct (clamp_cases sample) as (Hlow & Hhigh & Hmid).
  destruct (F32.ltb sample F32.minus_one) eqn:E1.
  - rewrite (Hlow eq_refl). vm_compute. reflexivity.
  - destruct (F32.ltb F32.one sample) eqn:E2.
    + rewrite (Hhigh eq_refl). vm_compute. reflexivity.
    + rewrite !(Hmid eq_refl eq_refl). reflexivity.
Qed.

Lemma extended_opp s : extended (SFopp s) = - extended s.
Proof.
  destruct s as [[|]|[|]| |[|] m e]; cbn [SFopp extended scaled negb cond_Zopp];
    lia.
Qed.

Lemma valid_opp s : F32.valid (SFopp s) = F32.valid s.
Proof. destruct s; reflexivity. Qed.

Lemma is_nan_opp s : is_nan (SFopp s) = is_nan s.
Proof. destruct s; reflexivity. Qed.

Lemma int16_of_opp c : int16_of (SFopp c) = - int16_of c.
Proof.
  destruct c as [[|]|[|]| |[|] m e]; cbn [SFopp int16_of negb cond_Zopp]; lia.
Qed.

Lemma clamp_opp s :
  F32.valid s = true -> is_nan s = false ->
  F32.clamp (SFopp s) = SFopp (F32.clamp s).
Proof.
  intros Hv Hn.
  assert (Hv' : F32.valid (SFopp s) = true) by now rewrite valid_opp.
  assert (Hn' : is_nan (SFopp s) = false) by now rewrite is_nan_opp.
  assert (V1 : F32.valid F32.one = true) by reflexivity.
  assert (V2 : F32.valid F32.minus_one = true) by reflexivity.
  assert (N1 : is_nan F32.one = false) by reflexivity.
  assert (N2 : is_nan F32.minus_one = false) by reflexivity.
  pose proof (ltb_extended s F32.minus_one Hv V2 Hn N2) as L1.
  pose proof (ltb_extended F32.one s V1 Hv N1 Hn) as L2.
  pose proof (ltb_extended (SFopp s) F32.minus_one Hv' V2 Hn' N2) as L3.
  pose proof (ltb_extended F32.one (SFopp s) V1 Hv' N1 Hn') as L4.
  rewrite extended_opp in L3, L4.
  rewrite extended_one, extended_minus_one in *.
  destruct (clamp_cases s) as (Hlow & Hhigh & Hmid).
  destruct (clamp_cases (SFopp s)) as (Hlow' & Hhigh' & Hmid').
  destruct (Z.ltb_spec (extended s) (- 2 ^ 149)) as [C1|C1].
  - rewrite (Hlow L1). rewrite Hhigh'; [reflexivity|].
    rewrite L4. apply Z.ltb_lt. lia.
  - destruct (Z.ltb_spec (2 ^ 149) (extended s)) as [C2|C2].
    + rewrite (Hhigh L2). rewrite Hlow'; [reflexivity|].
      rewrite L3. apply Z.ltb_lt. lia.
    + rewrite (Hmid L1 L2). apply Hmid'.
      * rewrite L3. apply Z.ltb_ge. lia.
      * rewrite L4. apply Z.ltb_ge. lia.
Qed.

(** X18.  The clamp and the 16-bit conversion are odd on valid samples
    other than NaN: negating the input negates the clamped sample and the
    converted integer. *)
Theorem sample_conversion_is_odd s :
  F32.valid s = true -> is_nan s = false ->
  F32.clamp (SFopp s) = SFopp (F32.clamp s)
  /\ Rtsp.convert (SFopp s) = option_map Z.opp (Rtsp.convert s).
Proof.
  intros Hv Hn. split; [now apply clamp_opp|].
  assert (Hv' : F32.valid (SFopp s) = true) by now rewrite valid_opp.
  assert (Hn' : is_nan (SFopp s) = false) by now rewrite is_nan_opp.
  destruct (convert_not_nan s Hv Hn) as [-> _].
  destruct (convert_not_nan (SFopp s) Hv' Hn') as [-> _].
  cbn [option_map]. now rewrite clamp_opp, int16_of_opp.
Qed.

Lemma sample_conversion_is_odd_witness :
  (F32.valid minus_three = true /\ is_nan minus_three = false)
  /\ Rtsp.convert (SFopp minus_three)
     = option_map Z.opp (Rtsp.convert minus_three).
Proof.
  split; [split; reflexivity|].
  exact (proj2 (sample_conversion_is_odd minus_three eq_refl eq_refl)).
Defined.

(** ** The error of the 16-bit conversion *)

Lemma rne_near a b : 0 < b -> - b <= 2 * (rne a b * b - a) <= b.
Proof.
  intros Hb. unfold rne.
  pose proof (Z.div_mod a b ltac:(lia)) as Hdm.
  pose proof (Z.mod_pos_bound a b Hb) as Hm.
  destruct (Z.ltb_spec (2 * (a mod b)) b); [lia|].
  destruct (Z.ltb_spec b (2 * (a mod b))); [lia|].
  destruct (Z.even (a / b)); lia.
Qed.

(** The integer part of the rounded product stays within one unit of the
    exact product [32767 * m * 2^e]. *)
Lemma rounded32767_error m e :
  bounded F32.prec F32.emax m e = true -> e <= -23 ->
  32767 * (Zpos m * 2 ^ (e + 149)) - 2 ^ 149
  < rounded32767 m e / 2 ^ 149 * 2 ^ 149
  < 32767 * (Zpos m * 2 ^ (e + 149)) + 2 ^ 149.
Proof.
  intros Hb He.
  destruct (mul_c32767_shape false m e Hb He) as [(Hq & Ht & Hk) _].
  apply bounded_spec in Hb as (_ & Hr & _).
  unfold rounded32767. cbv zeta.
  set (t := Z.max (Zpos (digits2_pos (m * 16776704)) + (e - 9) - 24) (-149))
    in *.
  set (q := rne (Zpos (m * 16776704)) (2 ^ (t - (e - 9)))) in *.
  assert (HK : 0 < 2 ^ (e + 149)) by (apply Z.pow_pos_nonneg; lia).
  assert (HP : 0 < 2 ^ (t - (e - 9))) by (apply Z.pow_pos_nonneg; lia).
  assert (HT : 0 < 2 ^ (t + 149)) by (apply Z.pow_pos_nonneg; lia).
  assert (HW : 0 < 2 ^ (- t)) by (apply Z.pow_pos_nonneg; lia).
  assert (HU : 0 < 2 ^ 149) by (apply Z.pow_pos_nonneg; lia).
  assert (HTP : 2 ^ (t + 149) * 512 = 2 ^ (t - (e - 9)) * 2 ^ (e + 149)).
  { change 512 with (2 ^ 9).
    rewrite <- (Z.pow_add_r 2 (t + 149) 9) by lia.
    rewrite <- (Z.pow_add_r 2 (t - (e - 9)) (e + 149)) by lia.
    f_equal. lia. }
  assert (HTW : 2 ^ 149 = 2 ^ (t + 149) * 2 ^ (- t)).
  { rewrite <- (Z.pow_add_r 2 (t + 149) (- t)) by lia. f_equal. lia. }
  assert (HT8 : 256 * 2 ^ (t + 149) <= 2 ^ 149).
  { change 256 with (2 ^ 8).
    rewrite <- (Z.pow_add_r 2 8 (t + 149)) by lia.
    apply pow2_le; lia. }
  pose proof (rne_near (Zpos (m * 16776704)) (2 ^ (t - (e - 9))) HP) as Hn.
  fold q in Hn. rewrite Pos2Z.inj_mul in Hn.
  assert (Habove_arg : forall n,
             n * 2 ^ 149 <= 32767 * (Zpos m * 2 ^ (e + 149)) ->
             n * 2 ^ 149 <= q * 2 ^ (t + 149)).
  { intros n Hle.
    assert (Hkk : n * 2 ^ (- t) <= q).
    { apply rne_above; [exact HP|].
      rewrite Pos2Z.inj_mul.
      apply (Z.mul_le_mono_pos_r _ _ (2 ^ (e + 149)) HK).
      replace (n * 2 ^ (- t) * 2 ^ (t - (e - 9)) * 2 ^ (e + 149))
        with (n * 2 ^ (- t) * (2 ^ (t - (e - 9)) * 2 ^ (e + 149))) by ring.
      rewrite <- HTP.
      replace (n * 2 ^ (- t) * (2 ^ (t + 149) * 512))
        with (512 * (n * (2 ^ (t + 149) * 2 ^ (- t)))) by ring.
      rewrite <- HTW. lia. }
    rewrite HTW.
    replace (n * (2 ^ (t + 149) * 2 ^ (- t)))
      with (n * 2 ^ (- t) * 2 ^ (t + 149)) by ring.
    apply Z.mul_le_mono_nonneg_r; lia. }
  set (K := 2 ^ (e + 149)) in *. set (P := 2 ^ (t - (e - 9))) in *.
  set (T := 2 ^ (t + 149)) in *. set (U := 2 ^ 149) in *.
  set (A := 32767 * (Zpos m * K)) in *.
  assert (Herr : - T <= 2 * (q * T - A) <= T).
  { assert (H512 : 512 * (q * T - A) = (q * P - Z.pos m * 16776704) * K).
    { unfold A. replace (512 * (q * T - 32767 * (Z.pos m * K)))
        with (q * (T * 512) - Z.pos m * 16776704 * K) by ring.
      rewrite HTP. ring. }
    assert (HPK : P * K = 512 * T) by lia.
    clearbody K P T U A q t. nia. }
  pose proof (Z.div_mod (q * T) U ltac:(lia)) as Hz.
  pose proof (Z.mod_pos_bound (q * T) U HU) as Hzm.
  pose proof (Z.div_mod A U ltac:(lia)) as Ha.
  pose proof (Z.mod_pos_bound A U HU) as Ham.
  specialize (Habove_arg (A / U) ltac:(lia)).
  assert (Hfloor : A / U <= q * T / U)
    by (apply Z.div_le_lower_bound; lia).
  split.
  - assert (A / U * U <= q * T / U * U)
      by (apply Z.mul_le_mono_nonneg_r; lia).
    lia.
  - lia.
Qed.

(** X19.  The 16-bit sample differs from the exact product of 32767 with
    the clamped sample by less than one unit: counting values in units of
    2^-149, [|z * 2^149 - 32767 * c| < 2^149], where [c] is the value of the
    input limited to [-1, 1]. *)
Theorem conversion_error_is_below_one_step s :
  F32.valid s = true -> is_nan s = false ->
  exists z,
    Rtsp.convert s = Some z
    /\ scaled (F32.clamp s)
       = Z.max (- 2 ^ 149) (Z.min (2 ^ 149) (extended s))
    /\ Z.abs (z * 2 ^ 149 - 32767 * scaled (F32.clamp s)) < 2 ^ 149.
Proof.
  intros Hv Hn.
  destruct (convert_not_nan s Hv Hn) as [Hc _].
  destruct (clamp_in_range s Hv Hn) as (Hcv & Hcf & Hcs & Hcr).
  exists (int16_of (F32.clamp s)). split; [exact Hc|]. split; [exact Hcs|].
  assert (Hpos : 0 < 2 ^ 149) by (apply Z.pow_pos_nonneg; lia).
  destruct (F32.clamp s) as [sg|sg| |sg m e]; try discriminate.
  - cbn [int16_of scaled]. lia.
  - cbn [F32.valid valid_binary] in Hcv.
    assert (Hmag : Zpos m * 2 ^ (e + 149) <= 2 ^ 149)
      by (destruct sg; cbn [scaled cond_Zopp] in Hcr; lia).
    pose proof (range_exponent m e Hcv Hmag) as He.
    pose proof (rounded32767_error m e Hcv He) as Herr.
    destruct sg; cbn [int16_of scaled cond_Zopp]; lia.
Qed.

Lemma conversion_error_is_below_one_step_witness :
  (F32.valid half = true /\ is_nan half = false)
  /\ exists z,
       Rtsp.convert half = Some z
       /\ scaled (F32.clamp half)
          = Z.max (- 2 ^ 149) (Z.min (2 ^ 149) (extended half))
       /\ Z.abs (z * 2 ^ 149 - 32767 * scaled (F32.clamp half)) < 2 ^ 149.
Proof.
  split; [split; reflexivity|].
  exact (conversion_error_is_below_one_step half eq_refl eq_refl).
Defined.

(** ** Faults over a whole life *)

Lemma invoke_result {S R R'} (p : prog S R R) (x : S) :
  result_of (invoke (R' := R') p x)
  = match result_of (p x) with
    | Next r | Return r => Next r
    | Crash f => Crash f
    end.
Proof.
  unfold invoke. destruct (p x) as [[[r|r|f] x'] t]; reflexivity.
Qed.

Lemma rtmp_serve_coherent c x :
  rtmp_coherent x -> rtmp_coherent (state_of (Rtmp.serve c x)).
Proof.
  intros Hx. destruct c as [lib s|EAGAIN enc input]; cbn [Rtmp.serve];
    rewrite invoke_state.
  - apply rtmp_symbol_coherent.
  - now apply rtmp_perform_coherent.
Qed.

Lemma rtmp_serve_result c x :
  rtmp_coherent x ->
  result_of (Rtmp.serve c x) = Next tt
  \/ result_of (Rtmp.serve c x) = Crash OutOfBounds.
Proof.
  intros Hx. destruct c as [lib s|EAGAIN enc input]; cbn [Rtmp.serve];
    rewrite invoke_result.
  - rewrite rtmp_symbol_result. now left.
  - destruct (rtmp_perform_result EAGAIN enc input x Hx)
      as [-> | [-> | [-> _]]]; auto.
Qed.

Lemma rtmp_host_result calls :
  forall x,
    rtmp_coherent x ->
    result_of (Rtmp.host calls x) = Next tt
    \/ result_of (Rtmp.host calls x) = Crash OutOfBounds.
Proof.
  induction calls as [|c rest IH]; intros x Hx; [now left|].
  cbn [Rtmp.host]. unfold bind.
  pose proof (rtmp_serve_coherent c x Hx) as Hc.
  pose proof (rtmp_serve_result c x Hx) as Hr.
  destruct (Rtmp.serve c x) as [[[r|r|f] x1] t1];
    cbn [result_of state_of fst snd] in Hc, Hr |- *;
    try (destruct Hr; discriminate).
  - specialize (IH x1 Hc).
    destruct (Rtmp.host rest x1) as [[r2 x2] t2]. exact IH.
  - destruct Hr as [Hr|Hr]; [discriminate|]. now right.
Qed.

(** The assembler loop has two faults only. *)
Lemma fill_from_faults {A} (conv : F32.float -> option A) input :
  forall i samples f,
    fill_from conv i input samples = Crash f ->
    f = OutOfBounds \/ f = UndefinedConversion.
Proof.
  induction input as [|s rest IH]; intros i samples f H; [discriminate|].
  cbn [fill_from] in H.
  destruct (conv s); [|inversion H; now right].
  destruct (store samples i a); [|inversion H; now left].
  now apply (IH _ _ _ H).
Qed.

Lemma rtsp_perform_result EAGAIN enc input x :
  rtsp_streaming x = true ->
  let o := Rtsp.rtspstreamer_tilde_perform EAGAIN enc input x in
  result_of o = Next tt \/ result_of o = Return tt
  \/ result_of o = Crash OutOfBounds
  \/ result_of o = Crash UndefinedConversion.
Proof.
  intros Hx o. subst o. unfold rtsp_streaming in Hx.
  destruct (Rtsp.fmt_ctx x), (Rtsp.audio_st x) as [st|] eqn:Hst,
    (Rtsp.codec_ctx x), (Rtsp.frame x) as [fr|] eqn:Hfr; try discriminate.
  destruct (fill_from Rtsp.convert 0 input (AV.data fr)) as [l|r|f] eqn:Hfill.
  - rewrite (rtsp_perform_streaming _ _ _ _ _ _ Hfr Hfill). cbn zeta.
    destruct (send_frame enc <? 0); [now right; left|left].
    cbn [result_of fst]. apply receive_packets_result. cbn.
    rewrite Hst. discriminate.
  - generalize (fill_from_spec Rtsp.convert input [] (AV.data fr)).
    cbn [List.length app]. rewrite Hfill. intros [].
  - rewrite (rtsp_perform_crash _ _ _ _ _ _ Hfr Hfill).
    destruct (fill_from_faults _ _ _ _ _ Hfill) as [-> | ->]; auto.
Qed.

Lemma rtsp_host_result calls :
  forall x,
    rtsp_streaming x = true ->
    result_of (Rtsp.host calls x) = Next tt
    \/ result_of (Rtsp.host calls x) = Crash OutOfBounds
    \/ result_of (Rtsp.host calls x) = Crash UndefinedConversion.
Proof.
  induction calls as [|c rest IH]; intros x Hx; [now left|].
  cbn [Rtsp.host]. unfold bind.
  pose proof (rtsp_serve_streaming c x Hx) as Hc.
  assert (Hr : result_of (Rtsp.serve c x) = Next tt
               \/ result_of (Rtsp.serve c x) = Crash OutOfBounds
               \/ result_of (Rtsp.serve c x) = Crash UndefinedConversion).
  { destruct c as [s|EAGAIN enc input]; cbn [Rtsp.serve];
      rewrite invoke_result; [now left|].
    destruct (rtsp_perform_result EAGAIN enc input x Hx)
      as [-> | [-> | [-> | ->]]]; auto. }
  destruct (Rtsp.serve c x) as [[[r|r|f] x1] t1];
    cbn [result_of state_of fst snd] in Hc, Hr |- *.
  - specialize (IH x1 Hc).
    destruct (Rtsp.host rest x1) as [[r2 x2] t2]. exact IH.
  - destruct Hr as [Hr|[Hr|Hr]]; discriminate.
  - destruct Hr as [Hr|Hr]; [discriminate|right; exact Hr].
Qed.

(** X20.  Over a whole life the only undefined behaviour either variant can
    reach lies in the frame assembler.  A push object, from creation to its
    destructor, either completes or stores past its frame buffer; a
    session-based object created on a URL either completes, stores past its
    frame buffer, or converts a sample that has no 16-bit value.  No NULL
    pointer is dereferenced. *)
Theorem lives_fault_only_in_the_frame_assembler :
  (forall s calls,
      result_of (rtmp_lifetime s calls) = Next tt
      \/ result_of (rtmp_lifetime s calls) = Crash OutOfBounds)
  /\ (forall lib name calls,
         let o := Rtsp.life lib (Some name) calls in
         result_of o = Next tt
         \/ result_of o = Crash OutOfBounds
         \/ result_of o = Crash UndefinedConversion).
Proof.
  split.
  - intros s calls. rewrite rtmp_lifetime_unfold.
    pose proof (rtmp_life_coherent s calls) as Hco.
    assert (Hlife : result_of (Rtmp.life s calls) = Next tt
                    \/ result_of (Rtmp.life s calls) = Crash OutOfBounds).
    { unfold Rtmp.life, bind, invoke.
      destruct (rtmp_new_outcome s)
        as (Hres & Hst & _).
      destruct (Rtmp.rtmpstreamer_tilde_new s Rtmp.fresh) as [[r x0] t0].
      cbn [result_of state_of fst snd] in Hres, Hst. subst r x0.
      assert (Hx0 : rtmp_coherent (Rtmp.set_url (creation_url s) Rtmp.fresh))
        by (intros H; now cbn in H).
      pose proof (rtmp_host_result calls _ Hx0) as H.
      destruct (Rtmp.host calls _) as [[r2 x2] t2]. exact H. }
    destruct (Rtmp.life s calls) as [[[r|r|f] x] t];
      cbn [result_of state_of fst snd] in Hlife, Hco |- *;
      try (destruct Hlife; discriminate); [|exact Hlife].
    left. rewrite invoke_result.
    destruct (Z.eq_dec (Rtmp.streaming_active x) 0) as [Hact|Hact].
    + now rewrite (rtmp_free_idle x Hact).
    + now rewrite (rtmp_free_streaming x Hact).
  - intros lib name calls o. subst o. unfold Rtsp.life, bind, invoke.
    destruct (first_failure lib rtsp_substeps) as [k|] eqn:Hk.
    + destruct (rtsp_connect_failure lib name Rtsp.fresh k Hk) as [Hres _].
      destruct (Rtsp.rtspstreamer_tilde_new lib (Some name) Rtsp.fresh)
        as [[r x0] t0].
      cbn [result_of fst] in Hres. subst r. now left.
    + destruct (rtsp_connect_success lib name Rtsp.fresh Hk)
        as [Hres [Hst _]].
      destruct (Rtsp.rtspstreamer_tilde_new lib (Some name) Rtsp.fresh)
        as [[r x0] t0].
      cbn [result_of state_of fst snd] in Hres, Hst. subst r.
      pose proof (rtsp_host_result calls x0 Hst) as H.
      destruct (Rtsp.host calls x0) as [[r2 x2] t2]. exact H.
Qed.

(** ** Samples that cannot be converted *)

(** X21.  The 16-bit conversion of a valid sample is undefined exactly when
    the sample is NaN, which the clamp leaves as it is; the infinities are
    clamped and converted to 32767 and -32767. *)
Theorem conversion_is_undefined_only_for_nan :
  (forall s,
      F32.valid s = true ->
      (Rtsp.convert s = None <-> is_nan s = true))
  /\ F32.clamp S754_nan = S754_nan
  /\ Rtsp.convert (S754_infinity false) = Some 32767
  /\ Rtsp.convert (S754_infinity true) = Some (-32767).
Proof.
  split; [|repeat split; vm_compute; reflexivity].
  intros s Hv. split.
  - intros Hnone. destruct (is_nan s) eqn:Hn; [reflexivity|].
    destruct (convert_not_nan s Hv Hn) as [Hc _]. congruence.
  - destruct s; try discriminate. reflexivity.
Qed.

Lemma conversion_is_undefined_only_for_nan_witness :
  F32.valid S754_nan = true /\ Rtsp.convert S754_nan = None.
Proof.
  split; [reflexivity|].
  exact (proj2 (proj1 conversion_is_undefined_only_for_nan S754_nan eq_refl)
           eq_refl).
Defined.

(** ** The whole life of a session-based object *)

Lemma rtsp_perform_events EAGAIN enc input x :
  forallb block_event
    (trace_of (Rtsp.rtspstreamer_tilde_perform EAGAIN enc input x)) = true.
Proof.
  destruct (rtsp_perform_cases EAGAIN enc input x)
    as [[f ->]|(fr & l & _ & _ & ->)]; try reflexivity.
  cbn zeta. destruct (send_frame enc <? 0); [reflexivity|].
  cbn [trace_of snd forallb andb].
  apply drain_events_block, receive_packets_events.
Qed.

Lemma invoke_trace {S R R'} (p : prog S R R) (x : S) :
  trace_of (invoke (R' := R') p x) = trace_of (p x).
Proof.
  unfold invoke. destruct (p x) as [[[r|r|f] x'] t]; reflexivity.
Qed.

Lemma rtsp_host_events calls :
  forall x, forallb block_event (trace_of (Rtsp.host calls x)) = true.
Proof.
  induction calls as [|c rest IH]; intros x; [reflexivity|].
  cbn [Rtsp.host]. unfold bind.
  assert (Hc : forallb block_event (trace_of (Rtsp.serve c x)) = true).
  { destruct c as [s|EAGAIN enc input]; cbn [Rtsp.serve];
      rewrite invoke_trace; [reflexivity|apply rtsp_perform_events]. }
  destruct (Rtsp.serve c x) as [[[r|r|f] x1] t1];
    cbn [trace_of snd] in Hc |- *; trivial.
  specialize (IH x1).
  destruct (Rtsp.host rest x1) as [[r2 x2] t2].
  cbn [trace_of snd] in IH |- *.
  rewrite forallb_app. now rewrite Hc, IH.
Qed.

Lemma rtsp_host_streaming calls :
  forall x,
    rtsp_streaming x = true ->
    rtsp_streaming (state_of (Rtsp.host calls x)) = true.
Proof.
  induction calls as [|c rest IH]; intros x Hx; [exact Hx|].
  cbn [Rtsp.host]. unfold bind.
  pose proof (rtsp_serve_streaming c x Hx) as Hc.
  destruct (Rtsp.serve c x) as [[[r|r|f] x1] t1];
    cbn [state_of fst snd] in Hc |- *; trivial.
  specialize (IH x1 Hc).
  destruct (Rtsp.host rest x1) as [[r2 x2] t2]. exact IH.
Qed.

Lemma rtsp_new_network lib name x0 :
  let t := trace_of (Rtsp.rtspstreamer_tilde_new lib (Some name) x0) in
  count_calls avformat_network_init t = 1%nat
  /\ count_calls avformat_network_deinit t = 0%nat.
Proof.
  intros t. subst t.
  unfold Rtsp.rtspstreamer_tilde_new, Rtsp.update_frame. unfold_prog.
  cbn -[repeat]. split_prog; split; reflexivity.
Qed.

Lemma rtsp_teardown_session x :
  rtsp_streaming x = true ->
  Forall (fun f => count_calls f (rtsp_teardown_calls x)
                   = if call_beq f avformat_network_init then 0%nat else 1%nat)
    session_calls.
Proof.
  unfold rtsp_streaming, rtsp_teardown_calls, close_output, when_held.
  destruct (Rtsp.fmt_ctx x) as [ctx|], (Rtsp.audio_st x),
    (Rtsp.codec_ctx x), (Rtsp.frame x); try discriminate.
  intros _. destruct (AV.nofile ctx); repeat constructor.
Qed.

Lemma no_release_count f t :
  no_release t = true -> release_call (Call f) = true ->
  count_calls f t = 0%nat.
Proof.
  intros Ht Hf. apply (events_count (fun e => negb (release_call e)));
    [exact Ht|]. now rewrite Hf.
Qed.

(** X22.  The life of a session-based object created on a URL.  If a
    connect sub-step fails the host gets no object: the life is the
    constructor's run alone, the network layer stays initialised and nothing
    is released.  If the connect succeeds and no block faults, the network
    layer is initialised once and, by the destructor, the trailer is written
    and the container, the encoder, the frame and the network layer are
    released exactly once each. *)
Theorem session_object_releases_once_or_never lib name calls :
  let o := rtsp_lifetime lib (Some name) calls in
  (held (first_failure lib rtsp_substeps) = true ->
   o = (Next tt,
        state_of (Rtsp.rtspstreamer_tilde_new lib (Some name) Rtsp.fresh),
        trace_of (Rtsp.rtspstreamer_tilde_new lib (Some name) Rtsp.fresh))
   /\ no_release (trace_of o) = true
   /\ count_calls avformat_network_init (trace_of o) = 1%nat
   /\ count_calls avformat_network_deinit (trace_of o) = 0%nat)
  /\ (held (first_failure lib rtsp_substeps) = false ->
      result_of o = Next tt ->
      Forall (fun f => count_calls f (trace_of o) = 1%nat) session_calls).
Proof.
  intros o. subst o. unfold rtsp_lifetime, bind, invoke.
  destruct (rtsp_new_network lib name Rtsp.fresh) as [Hinit Hdeinit].
  destruct (first_failure lib rtsp_substeps) as [k|] eqn:Hk;
    (split; [intros Hheld|intros Hheld Hres]); try discriminate.
  - destruct (rtsp_connect_failure lib name Rtsp.fresh k Hk)
      as (Hr & _ & Hrel & _).
    destruct (Rtsp.rtspstreamer_tilde_new lib (Some name) Rtsp.fresh)
      as [[r x0] t0].
    cbn [result_of state_of trace_of fst snd] in *. subst r. cbn.
    rewrite app_nil_r. auto.
  - destruct (rtsp_connect_success lib name Rtsp.fresh Hk)
      as (Hr & Hst & Hrel & _).
    destruct (Rtsp.rtspstreamer_tilde_new lib (Some name) Rtsp.fresh)
      as [[r x0] t0].
    cbn [result_of state_of trace_of fst snd] in *. subst r.
    pose proof (rtsp_host_events calls x0) as Hev.
    pose proof (rtsp_host_streaming calls x0 Hst) as Hst'.
    destruct (Rtsp.host calls x0) as [[[r1|r1|f1] x1] t1];
      cbn [result_of state_of trace_of fst snd] in *; try discriminate.
    rewrite (rtsp_free x1). cbn [fst snd].
    pose proof (rtsp_teardown_session x1 Hst') as Hfree.
    unfold session_calls in *.
    repeat match goal with
      | H : Forall _ (_ :: _) |- _ => inversion_clear H
      end.
    cbn [call_beq] in *.
    cbn [trace_of snd].
    repeat constructor; rewrite !count_calls_app;
      rewrite ?Hinit, ?Hdeinit;
      rewrite ?(no_release_count _ _ Hrel) by reflexivity;
      rewrite ?(events_count _ _ _ Hev) by reflexivity;
      match goal with
      | H : count_calls ?f _ = _ |- context [count_calls ?f (rtsp_teardown_calls _)] =>
          rewrite H
      end; reflexivity.
Qed.

Lemma session_object_releases_once_or_never_witness :
  (held (first_failure all_succeed rtsp_substeps) = false
   /\ result_of (rtsp_lifetime all_succeed (Some "rtsp://host/live"%string)
                   [Rtsp.perform 11 two_packets [half; two];
                    Rtsp.symbol (Some "rtsp://other/live"%string)])
      = Next tt)
  /\ Forall (fun f =>
               count_calls f
                 (trace_of (rtsp_lifetime all_succeed
                              (Some "rtsp://host/live"%string)
                              [Rtsp.perform 11 two_packets [half; two];
                               Rtsp.symbol (Some "rtsp://other/live"%string)]))
               = 1%nat)
       session_calls.
Proof.
  assert (H1 : held (first_failure all_succeed rtsp_substeps) = false)
    by reflexivity.
  assert (H2 : result_of
                 (rtsp_lifetime all_succeed (Some "rtsp://host/live"%string)
                    [Rtsp.perform 11 two_packets [half; two];
                     Rtsp.symbol (Some "rtsp://other/live"%string)])
               = Next tt)
    by (vm_compute; reflexivity).
  split; [auto|].
  exact (proj2 (session_object_releases_once_or_never all_succeed
                  "rtsp://host/live"
                  [Rtsp.perform 11 two_packets [half; two];
                   Rtsp.symbol (Some "rtsp://other/live"%string)])
           H1 H2).
Defined.

(** ** Connections opened and closed over a life *)

Lemma connections_app t1 t2 :
  connections (t1 ++ t2) = (connections t1 + connections t2)%nat.
Proof. unfold connections. now rewrite filter_app, length_app. Qed.

Lemma connections_none (P : event -> bool) t :
  forallb P t = true ->
  (forall msg, P (post msg) = false) ->
  connections t = 0%nat.
Proof.
  intros Ht HP. unfold connections.
  induction t as [|e t IH]; [reflexivity|].
  cbn [forallb] in Ht. apply andb_prop in Ht as [He Ht].
  cbn [filter]. destruct (announced e) eqn:Hae; [|now apply IH].
  destruct e as [g|msg|msg]; try discriminate.
  now rewrite HP in He.
Qed.

Lemma rtmp_connect_connections lib x :
  Rtmp.url x <> None ->
  connections (trace_of (Rtmp.initialize_streaming lib x)) = 0%nat.
Proof.
  intros Hurl.
  destruct x as [xo [name|] ctx st cc fr p sig a];
    cbn in Hurl; try discriminate; try congruence.
  unfold Rtmp.initialize_streaming, Rtmp.update_frame. unfold_prog.
  cbn -[repeat]. split_prog; reflexivity.
Qed.

Lemma closing_calls_release f :
  In f closing_calls -> release_call (Call f) = true.
Proof.
  unfold closing_calls. cbn [In].
  intros [<-|[<-|[<-|[<-|[]]]]]; reflexivity.
Qed.

Lemma announced_success name :
  announced (post ("[rtmpstreamer~] Successfully streaming to " ++ name))
  = true.
Proof. cbn. now destruct name. Qed.

Lemma announced_attempt name :
  announced (post ("[rtmpstreamer~] Attempting to stream to " ++ name))
  = false.
Proof. reflexivity. Qed.

Lemma rtmp_symbol_idle_connections lib s x :
  Rtmp.streaming_active x = 0 ->
  let o := Rtmp.rtmpstreamer_tilde_symbol lib s x in
  connections (trace_of o) = streaming_sessions (state_of o).
Proof.
  intros Hact o. subst o.
  destruct (symbol_cases s) as [(name & -> & Hlen)|Hempty].
  - rewrite rtmp_symbol_idle by assumption. cbn zeta.
    pose proof (rtmp_connect_connections lib (Rtmp.set_url (Some name) x))
      as Hc.
    destruct (rtmp_connect_result lib (Rtmp.set_url (Some name) x))
      as (Hres & _ & _ & _ & Hflag & _); [discriminate|].
    set (o := Rtmp.initialize_streaming lib (Rtmp.set_url (Some name) x)) in *.
    specialize (Hc ltac:(discriminate)).
    assert (Hcount : forall a z,
               connections (post a :: trace_of o ++ [z])
               = (connections [post a] + connections [z])%nat).
    { intros. change (post a :: trace_of o ++ [z])
        with ([post a] ++ trace_of o ++ [z]).
      rewrite !connections_app, Hc. lia. }
    destruct Hres as [Hres|Hres]; rewrite Hres; cbn [Z.eqb];
      cbn [trace_of state_of fst snd]; rewrite Hcount;
      unfold connections; cbn [filter]; rewrite announced_attempt.
    + rewrite announced_success. reflexivity.
    + unfold streaming_sessions. fold (state_of o). rewrite Hflag.
      cbn [Rtmp.streaming_active Rtmp.set_url announced List.length].
      now rewrite Hact.
  - rewrite rtmp_symbol_empty by assumption.
    cbn [trace_of state_of fst snd]. unfold streaming_sessions.
    cbn [Rtmp.streaming_active Rtmp.set_url]. now rewrite Hact.
Qed.

Lemma rtmp_teardown_closing x f :
  rtmp_holds_session x = true ->
  In f closing_calls ->
  count_calls f (rtmp_teardown_calls x) = 1%nat
  /\ connections (rtmp_teardown_calls x) = 0%nat.
Proof.
  intros Hx Hf.
  destruct (full_teardown_of_session x Hx) as (ctx & _ & ->).
  unfold full_teardown, closing_calls in *. cbn [In] in Hf.
  destruct (AV.nofile ctx);
    destruct Hf as [<-|[<-|[<-|[<-|[]]]]]; split; reflexivity.
Qed.

Lemma rtmp_serve_connections c x f :
  rtmp_coherent x ->
  In f closing_calls ->
  let o := Rtmp.serve c x in
  (count_calls f (trace_of o) + streaming_sessions (state_of o)
   = connections (trace_of o) + streaming_sessions x)%nat.
Proof.
  intros Hx Hf o. subst o.
  destruct c as [lib s|EAGAIN enc input]; cbn [Rtmp.serve];
    rewrite invoke_state, invoke_trace.
  - destruct (Z.eq_dec (Rtmp.streaming_active x) 0) as [Hact|Hact].
    + rewrite (rtmp_symbol_idle_connections lib s x Hact).
      rewrite (no_release_count _ _ (rtmp_symbol_idle_no_release lib s x Hact)
                 (closing_calls_release f Hf)).
      unfold streaming_sessions at 3. rewrite Hact. cbn. lia.
    + rewrite rtmp_symbol_streaming by assumption. cbn zeta.
      cbn [trace_of state_of fst snd].
      rewrite count_calls_app, connections_app.
      destruct (rtmp_teardown_closing x f (Hx Hact) Hf) as [-> ->].
      pose proof (rtmp_symbol_idle_connections lib s
                    (Rtmp.set_streaming_active 0 (rtmp_released x))
                    eq_refl) as Hc.
      pose proof (no_release_count _ _
                    (rtmp_symbol_idle_no_release lib s
                       (Rtmp.set_streaming_active 0 (rtmp_released x))
                       eq_refl)
                    (closing_calls_release f Hf)) as Hr.
      cbn zeta in Hc. unfold trace_of, state_of in *.
      rewrite Hc, Hr.
      unfold streaming_sessions at 3.
      apply Z.eqb_neq in Hact. rewrite Hact. lia.
  - unfold streaming_sessions. rewrite rtmp_perform_flag.
    rewrite (events_count _ _ _ (rtmp_perform_events EAGAIN enc input x))
      by (unfold closing_calls in Hf; cbn [In] in Hf;
          destruct Hf as [<-|[<-|[<-|[<-|[]]]]]; reflexivity).
    rewrite (connections_none _ _ (rtmp_perform_events EAGAIN enc input x))
      by reflexivity.
    lia.
Qed.

Lemma rtmp_host_connections calls f :
  In f closing_calls ->
  forall x,
    rtmp_coherent x ->
    let o := Rtmp.host calls x in
    (count_calls f (trace_of o) + streaming_sessions (state_of o)
     = connections (trace_of o) + streaming_sessions x)%nat.
Proof.
  intros Hf.
  induction calls as [|c rest IH]; intros x Hx; [cbn; lia|].
  cbn [Rtmp.host]. unfold bind.
  pose proof (rtmp_serve_connections c x f Hx Hf) as Hc. cbn zeta in Hc.
  pose proof (rtmp_serve_coherent c x Hx) as Hco.
  destruct (Rtmp.serve c x) as [[[r|r|g] x1] t1];
    cbn [trace_of state_of fst snd] in Hc, Hco |- *; try exact Hc.
  specialize (IH x1 Hco). cbn zeta in IH.
  destruct (Rtmp.host rest x1) as [[r2 x2] t2].
  cbn [trace_of state_of fst snd] in IH |- *.
  rewrite count_calls_app, connections_app. lia.
Qed.

Lemma rtmp_life_connections s calls f :
  In f closing_calls ->
  (count_calls f (trace_of (Rtmp.life s calls))
   + streaming_sessions (state_of (Rtmp.life s calls))
   = connections (trace_of (Rtmp.life s calls)))%nat.
Proof.
  intros Hf. unfold Rtmp.life, bind, invoke.
  destruct (rtmp_new_outcome s) as (Hres & Hst & Ht).
  destruct (Rtmp.rtmpstreamer_tilde_new s Rtmp.fresh) as [[r x0] t0].
  cbn [result_of state_of trace_of fst snd] in Hres, Hst, Ht. subst r x0 t0.
  assert (Hx0 : rtmp_coherent (Rtmp.set_url (creation_url s) Rtmp.fresh))
    by (intros H; now cbn in H).
  pose proof (rtmp_host_connections calls f Hf _ Hx0) as H.
  cbn zeta in H.
  destruct (Rtmp.host calls _) as [[r2 x2] t2].
  cbn [trace_of state_of fst snd] in H |- *.
  change (streaming_sessions (Rtmp.set_url (creation_url s) Rtmp.fresh))
    with 0%nat in H.
  match goal with
  | |- context [count_calls _ (?a ++ t2)] =>
      rewrite (count_calls_app _ a t2), (connections_app a t2)
  end.
  assert (Hnew : forall msg,
             count_calls f [Call pd_new; Call inlet_new; Call outlet_new;
                            post msg] = 0%nat).
  { intros. unfold closing_calls in Hf. cbn [In] in Hf.
    destruct Hf as [<-|[<-|[<-|[<-|[]]]]]; reflexivity. }
  rewrite Hnew.
  destruct (creation_url s); cbn [connections filter announced List.length];
    cbn; lia.
Qed.

(** X23.  Connections of a push object are closed as often as they were
    announced.  At every point of a life each closing call (trailer,
    container, encoder and frame release) has been made once per connection
    the symbol handler announced as successful, less one if the session is
    Streaming; once the destructor has run, exactly once per announced
    connection. *)
Theorem every_announced_connection_is_closed_once s calls :
  Forall (fun f =>
            (count_calls f (trace_of (Rtmp.life s calls))
             + streaming_sessions (state_of (Rtmp.life s calls))
             = connections (trace_of (Rtmp.life s calls)))%nat
            /\ (result_of (rtmp_lifetime s calls) = Next tt ->
                count_calls f (trace_of (rtmp_lifetime s calls))
                = connections (trace_of (rtmp_lifetime s calls))))
    closing_calls.
Proof.
  apply Forall_forall. intros f Hf.
  pose proof (rtmp_life_connections s calls f Hf) as H.
  pose proof (rtmp_life_coherent s calls) as Hco.
  split; [exact H|].
  rewrite rtmp_lifetime_unfold.
  destruct (Rtmp.life s calls) as [[[r|r|g] x] t];
    cbn [result_of trace_of state_of fst snd] in H, Hco |- *;
    try discriminate.
  intros _. rewrite count_calls_app, connections_app.
  unfold streaming_sessions in H.
  destruct (Z.eq_dec (Rtmp.streaming_active x) 0) as [Hact|Hact].
  - rewrite (rtmp_free_idle x Hact). cbn [snd].
    rewrite Hact in H. cbn in H |- *. lia.
  - rewrite (rtmp_free_streaming x Hact). cbn [trace_of snd].
    destruct (rtmp_teardown_closing x f (Hco Hact) Hf) as [-> ->].
    apply Z.eqb_neq in Hact. rewrite Hact in H. lia.
Qed.

Lemma every_announced_connection_is_closed_once_witness :
  result_of
    (rtmp_lifetime None
       [Rtmp.symbol all_succeed (Some "rtmp://host/live"%string);
        Rtmp.perform 11 two_packets [half; two];
        Rtmp.symbol (failing avio_open) (Some "rtmp://lost/live"%string);
        Rtmp.symbol all_succeed (Some "rtmp://other/live"%string)])
  = Next tt
  /\ count_calls avformat_free_context
       (trace_of
          (rtmp_lifetime None
             [Rtmp.symbol all_succeed (Some "rtmp://host/live"%string);
              Rtmp.perform 11 two_packets [half; two];
              Rtmp.symbol (failing avio_open) (Some "rtmp://lost/live"%string);
              Rtmp.symbol all_succeed (Some "rtmp://other/live"%string)]))
     = connections
         (trace_of
            (rtmp_lifetime None
               [Rtmp.symbol all_succeed (Some "rtmp://host/live"%string);
                Rtmp.perform 11 two_packets [half; two];
                Rtmp.symbol (failing avio_open)
                  (Some "rtmp://lost/live"%string);
                Rtmp.symbol all_succeed (Some "rtmp://other/live"%string)])).
Proof.
  assert (H : result_of
                (rtmp_lifetime None
                   [Rtmp.symbol all_succeed (Some "rtmp://host/live"%string);
                    Rtmp.perform 11 two_packets [half; two];
                    Rtmp.symbol (failing avio_open)
                      (Some "rtmp://lost/live"%string);
                    Rtmp.symbol all_succeed
                      (Some "rtmp://other/live"%string)])
              = Next tt)
    by (vm_compute; reflexivity).
  split; [exact H|].
  refine (proj2 (proj1 (Forall_forall _ _)
                   (every_announced_connection_is_closed_once None _)
                   avformat_free_context _) H).
  right. left. reflexivity.
Defined.
